(** * neuro-san-studio: coded tools and the PDF knowledge assistant

    A shallow embedding of the order-fulfilment "database" tools
    ([coded_tools/industry/order_fulfilment_system]), of the PDF knowledge
    tools ([coded_tools/kwik_agents]) and of the Flask front end
    ([apps/pdf_knowledge_assistant]), followed by the properties the
    specification states about them. *)

From Stdlib Require Import String Ascii ZArith List Bool Lia DecimalString.
From stdpp Require Import base option gmap strings list.

Open Scope string_scope.

(** ** Python values

    A [str] is represented by the bytes of its UTF-8 encoding, so the
    non-ASCII characters of the tables below are several [ascii] each.  A
    [float] is carried by its [repr]: the code below stores and returns
    floats and never computes with them.  Dictionaries keep insertion order
    and have [str] keys, as every dictionary of these programs does. *)
Module Py.

#[warnings="-register-all"] Inductive pyval : Type :=
| VNone
| VBool (b : bool)
| VInt (n : Z)
| VFloat (repr : string)
| VStr (s : string)
| VList (items : list pyval)
| VDict (entries : list (string * pyval)).

(** Exception classes raised by the interpreter or by a library: subclasses
    of [Exception], which is what the handlers of these programs catch.
    What is raised outside [Exception] (a cancelled task, [KeyboardInterrupt],
    [SystemExit]) passes every [except Exception] and is not modelled: a run
    below is a run in which none of them occurs. *)
Inductive exn_class : Type :=
| TypeError
| AttributeError
| KeyError
| ValueError
| JSONDecodeError
| FileNotFoundError
| OSError
| OverflowError
| RuntimeError.

(** The outcome of an expression evaluated by the interpreter: a value or a
    raised exception that no handler of the embedded code renders. *)
Inductive result (A : Type) : Type :=
| Ret (a : A)
| Raise (c : exn_class).
Arguments Ret {A} a.
Arguments Raise {A} c.

(** The outcome of a call into an external library: a value or an exception
    with the text [str(e)] that the handlers of the embedded code format. *)
Inductive outcome (A : Type) : Type :=
| Ok (a : A)
| Fail (c : exn_class) (msg : string).
Arguments Ok {A} a.
Arguments Fail {A} c msg.

#[export] Instance result_ret : MRet result := fun A a => Ret a.
#[export] Instance result_bind : MBind result := fun A B f r =>
  match r with
  | Ret a => f a
  | Raise c => Raise c
  end.

(** [bool(v)]: the truth value used by [if], [not] and [or]. *)
Definition truthy (v : pyval) : bool :=
  match v with
  | VNone => false
  | VBool b => b
  | VInt n => negb (n =? 0)%Z
  | VFloat r => negb (String.eqb r "0.0" || String.eqb r "-0.0")
  | VStr s => negb (String.eqb s "")
  | VList l => match l with [] => false | _ => true end
  | VDict d => match d with [] => false | _ => true end
  end.

(** *** Strings *)

Definition is_upper_ascii (c : ascii) : bool :=
  (65 <=? N_of_ascii c)%N && (N_of_ascii c <=? 90)%N.

Definition is_lower_ascii (c : ascii) : bool :=
  (97 <=? N_of_ascii c)%N && (N_of_ascii c <=? 122)%N.

(** Case mapping of one byte: the ASCII letters are mapped, every other
    byte is kept. *)
Definition lower_char (c : ascii) : ascii :=
  if is_upper_ascii c then ascii_of_N (N_of_ascii c + 32) else c.

Definition upper_char (c : ascii) : ascii :=
  if is_lower_ascii c then ascii_of_N (N_of_ascii c - 32) else c.

(** The characters outside ASCII whose upper-case form is ASCII, by the bytes
    of their UTF-8 encoding: U+00DF, U+0131 and U+017F in two bytes, the
    ligatures U+FB00 to U+FB06 in three. *)
Definition upper2 (c1 c2 : ascii) : option string :=
  match N_of_ascii c1, N_of_ascii c2 with
  | 195, 159 => Some "SS"
  | 196, 177 => Some "I"
  | 197, 191 => Some "S"
  | _, _ => None
  end%N.

Definition upper3 (c1 c2 c3 : ascii) : option string :=
  match N_of_ascii c1, N_of_ascii c2, N_of_ascii c3 with
  | 239, 172, 128 => Some "FF"
  | 239, 172, 129 => Some "FI"
  | 239, 172, 130 => Some "FL"
  | 239, 172, 131 => Some "FFI"
  | 239, 172, 132 => Some "FFL"
  | 239, 172, 133 => Some "ST"
  | 239, 172, 134 => Some "ST"
  | _, _, _ => None
  end%N.

Fixpoint str_map (f : ascii -> ascii) (s : string) : string :=
  match s with
  | EmptyString => EmptyString
  | String c s' => String (f c) (str_map f s')
  end.

(** [s.lower()].  The ASCII letters are mapped; a character outside ASCII
    is kept as it is: lower-case forms outside ASCII are not modelled (and
    the one character outside ASCII with an ASCII lower-case form, the
    Kelvin sign U+212A, is kept too). *)
Definition lower (s : string) : string := str_map lower_char s.

(** [s.upper()].  The ASCII letters are mapped, and so are the characters
    outside ASCII whose upper-case form is ASCII; any other character is
    kept as it is, as its upper-case form is outside ASCII as well.  So
    [upper s] is an ASCII word exactly when [s.upper()] is, and is then that
    word: a comparison of [s.upper()] with an ASCII literal is exact. *)
Fixpoint upper (s : string) : string :=
  match s with
  | EmptyString => EmptyString
  | String c1 s1 =>
      match s1 with
      | EmptyString => String (upper_char c1) EmptyString
      | String c2 s2 =>
          match upper2 c1 c2 with
          | Some u => u +:+ upper s2
          | None =>
              match s2 with
              | EmptyString => String (upper_char c1) (upper s1)
              | String c3 s3 =>
                  match upper3 c1 c2 c3 with
                  | Some u => u +:+ upper s3
                  | None => String (upper_char c1) (upper s1)
                  end
              end
          end
      end
  end.

(** [s.replace(old, new)] for one-character [old] and [new]. *)
Definition replace (old new : ascii) (s : string) : string :=
  str_map (fun c => if Ascii.eqb c old then new else c) s.

(** [s.startswith(prefix)] and [s.endswith(suffix)]. *)
Fixpoint startswith (s prefix : string) {struct prefix} : bool :=
  match prefix with
  | EmptyString => true
  | String a prefix' =>
      match s with
      | EmptyString => false
      | String b s' => Ascii.eqb a b && startswith s' prefix'
      end
  end.

Fixpoint endswith (s suffix : string) : bool :=
  String.eqb s suffix ||
  match s with
  | EmptyString => false
  | String _ s' => endswith s' suffix
  end.

(** [c in s] for a one-character [c]. *)
Fixpoint contains_char (c : ascii) (s : string) : bool :=
  match s with
  | EmptyString => false
  | String c' s' => Ascii.eqb c' c || contains_char c s'
  end.

(** The part of [s] after its last [c]; the whole of [s] when [c] does not
    occur: [s.rsplit(c, 1)[-1]]. *)
Fixpoint after_last (c : ascii) (s : string) : string :=
  match s with
  | EmptyString => EmptyString
  | String c' s' =>
      if contains_char c s' then after_last c s'
      else if Ascii.eqb c' c then s' else s
  end.

(** [c.isspace()] for an ASCII character. *)
Definition is_space (c : ascii) : bool :=
  let n := N_of_ascii c in
  ((9 <=? n) && (n <=? 13) || (28 <=? n) && (n <=? 32))%N.

(** The white space outside ASCII, by the bytes of its UTF-8 encoding:
    U+0085 and U+00A0 in two bytes; U+1680, U+2000 to U+200A, U+2028,
    U+2029, U+202F, U+205F and U+3000 in three. *)
Definition is_space2 (c1 c2 : ascii) : bool :=
  let n2 := N_of_ascii c2 in
  ((N_of_ascii c1 =? 194) && ((n2 =? 133) || (n2 =? 160)))%N.

Definition is_space3 (c1 c2 c3 : ascii) : bool :=
  let n1 := N_of_ascii c1 in
  let n2 := N_of_ascii c2 in
  let n3 := N_of_ascii c3 in
  ((n1 =? 225) && (n2 =? 154) && (n3 =? 128) ||
   (n1 =? 226) && (n2 =? 128) &&
     ((128 <=? n3) && (n3 <=? 138) || (n3 =? 168) || (n3 =? 169) || (n3 =? 175)) ||
   (n1 =? 226) && (n2 =? 129) && (n3 =? 159) ||
   (n1 =? 227) && (n2 =? 128) && (n3 =? 128))%N.

(** Drops the white space at the head of [s]; with [backwards], [s] is a
    reversed string, whose characters have their bytes in reverse order. *)
Fixpoint strip_head (backwards : bool) (s : string) : string :=
  match s with
  | EmptyString => EmptyString
  | String a s1 =>
      if is_space a then strip_head backwards s1
      else
        match s1 with
        | EmptyString => s
        | String b s2 =>
            if (if backwards then is_space2 b a else is_space2 a b)
            then strip_head backwards s2
            else
              match s2 with
              | EmptyString => s
              | String c s3 =>
                  if (if backwards then is_space3 c b a else is_space3 a b c)
                  then strip_head backwards s3
                  else s
              end
        end
  end.

(** [s.lstrip()] and [s.strip()]. *)
Definition lstrip (s : string) : string := strip_head false s.

Definition strip (s : string) : string :=
  String.rev (strip_head true (String.rev (lstrip s))).

(** [str(n)] for an [int]. *)
Definition int_str (n : Z) : string := NilZero.string_of_int (Z.to_int n).

(** *** Hashing: what may be looked up in a dictionary *)

Inductive hashable : Type :=
| HNone
| HBool (b : bool)
| HInt (n : Z)
| HFloat (repr : string)
| HStr (s : string).

(** [hash(v)] raises [TypeError] on lists and dictionaries. *)
Definition hash_key (v : pyval) : result hashable :=
  match v with
  | VNone => Ret HNone
  | VBool b => Ret (HBool b)
  | VInt n => Ret (HInt n)
  | VFloat r => Ret (HFloat r)
  | VStr s => Ret (HStr s)
  | VList _ | VDict _ => Raise TypeError
  end.

(** [str(v)], as an f-string renders a hashable value. *)
Definition hashable_str (h : hashable) : string :=
  match h with
  | HNone => "None"
  | HBool true => "True"
  | HBool false => "False"
  | HInt n => int_str n
  | HFloat r => r
  | HStr s => s
  end.

(** [k in table] and [table[k]] for a table with [str] keys: a key that is
    not a [str] equals none of them. *)
Definition table_lookup {V : Type} (table : gmap string V) (h : hashable) : option V :=
  match h with
  | HStr s => table !! s
  | _ => None
  end.

(** The receiver of a [str] method call: [v.upper()], [v.lower()] and
    [v.strip()] raise [AttributeError] when [v] is not a [str]. *)
Definition str_receiver (v : pyval) : result string :=
  match v with
  | VStr s => Ret s
  | _ => Raise AttributeError
  end.

Definition call_upper (v : pyval) : result string :=
  s ← str_receiver v; Ret (upper s).

Definition call_lower (v : pyval) : result string :=
  s ← str_receiver v; Ret (lower s).

(** *** Dictionaries in insertion order *)

Fixpoint dict_get (d : list (string * pyval)) (k : string) : option pyval :=
  match d with
  | [] => None
  | (k', v) :: d' => if String.eqb k' k then Some v else dict_get d' k
  end.

(** [d[k] = v]: replaces the value of an existing key in place, appends a
    new key at the end. *)
Fixpoint dict_set (d : list (string * pyval)) (k : string) (v : pyval)
  : list (string * pyval) :=
  match d with
  | [] => [(k, v)]
  | (k', v') :: d' =>
      if String.eqb k' k then (k', v) :: d' else (k', v') :: dict_set d' k v
  end.

Definition dict_keys (d : list (string * pyval)) : list string := map fst d.

(** [k in v] for a value that is a dictionary; [false] on anything else. *)
Definition has_key (v : pyval) (k : string) : bool :=
  match v with
  | VDict d => bool_decide (k ∈ dict_keys d)
  | _ => false
  end.

(** [args.get(k, dflt)]. *)
Definition get_arg (args : gmap string pyval) (k : string) (dflt : pyval) : pyval :=
  default dflt (args !! k).

(** *** Code points, lengths and joins

    With a [str] held as UTF-8 bytes, a code point starts at every byte that
    is not a continuation byte ([10xxxxxx]). *)
Definition is_continuation (c : ascii) : bool :=
  (128 <=? N_of_ascii c)%N && (N_of_ascii c <? 192)%N.

(** [len(s)]: the number of code points of [s]. *)
Fixpoint str_len (s : string) : nat :=
  match s with
  | EmptyString => 0
  | String c s' => (if is_continuation c then 0 else 1) + str_len s'
  end.

(** [s[:n]]: the first [n] code points of [s]. *)
Fixpoint slice_to (n : nat) (s : string) : string :=
  match s with
  | EmptyString => EmptyString
  | String c s' =>
      if is_continuation c then String c (slice_to n s')
      else
        match n with
        | O => EmptyString
        | S n' => String c (slice_to n' s')
        end
  end.

(** [sep.join(parts)] for a list of [str]. *)
Fixpoint str_join (sep : string) (parts : list string) : string :=
  match parts with
  | [] => ""
  | [s] => s
  | s :: rest => s +:+ sep +:+ str_join sep rest
  end.

(** [sep.join(s)] for a [str] [s]: the separator goes between its code
    points. *)
Fixpoint join_codepoints_tail (sep s : string) : string :=
  match s with
  | EmptyString => EmptyString
  | String c s' =>
      if is_continuation c then String c (join_codepoints_tail sep s')
      else sep +:+ String c (join_codepoints_tail sep s')
  end.

Definition join_codepoints (sep s : string) : string :=
  match s with
  | EmptyString => EmptyString
  | String c s' => String c (join_codepoints_tail sep s')
  end.

(** [type(v).__name__]. *)
Definition type_name (v : pyval) : string :=
  match v with
  | VNone => "NoneType"
  | VBool _ => "bool"
  | VInt _ => "int"
  | VFloat _ => "float"
  | VStr _ => "str"
  | VList _ => "list"
  | VDict _ => "dict"
  end.

#[export] Instance outcome_ret : MRet outcome := fun A a => Ok a.
#[export] Instance outcome_bind : MBind outcome := fun A B f r =>
  match r with
  | Ok a => f a
  | Fail c msg => Fail c msg
  end.

(** The items of a sequence handed to [join] must all be [str]; the first
    one that is not is reported with its index. *)
Fixpoint join_items (i : nat) (items : list pyval) : outcome (list string) :=
  match items with
  | [] => Ok []
  | VStr s :: rest => parts ← join_items (S i) rest; Ok (s :: parts)
  | v :: _ =>
      Fail TypeError
        ("sequence item " +:+ int_str (Z.of_nat i) +:+ ": expected str instance, " +:+
         type_name v +:+ " found")
  end.

(** [sep.join(v)]: a list is joined item by item, a dictionary by its keys,
    a [str] by its code points; anything else is not iterable. *)
Definition py_join (sep : string) (v : pyval) : outcome string :=
  match v with
  | VList items => parts ← join_items 0 items; Ok (str_join sep parts)
  | VDict d => Ok (str_join sep (dict_keys d))
  | VStr s => Ok (join_codepoints sep s)
  | VNone | VBool _ | VInt _ | VFloat _ => Fail TypeError "can only join an iterable"
  end.

(** The text of the [AttributeError] raised by [v.attr] when [v] has no such
    attribute. *)
Definition no_attribute (v : pyval) (attr : string) : string :=
  "'" +:+ type_name v +:+ "' object has no attribute '" +:+ attr +:+ "'".


(** [v.keys()] and [v.get(k, dflt)] exist on dictionaries only. *)
Definition call_keys (v : pyval) : outcome (list string) :=
  match v with
  | VDict d => Ok (dict_keys d)
  | _ => Fail AttributeError (no_attribute v "keys")
  end.

Definition call_get (v : pyval) (k : string) (dflt : pyval) : outcome pyval :=
  match v with
  | VDict d => Ok (default dflt (dict_get d k))
  | _ => Fail AttributeError (no_attribute v "get")
  end.


End Py.
Import Py.

(** ** Stateful code

    A function that acts on a state [W] (files, logs, globals) is a function
    from [W] to an outcome and the state it leaves behind. *)
Module State.
Section Monads.
Context {W : Type}.

(** Code outside a [try] block: an exception leaves the function. *)
Definition M (A : Type) : Type := W -> result A * W.

#[export] Instance M_ret : MRet M := fun A a w => (Ret a, w).
#[export] Instance M_bind : MBind M := fun A B f m w =>
  match m w with
  | (Ret a, w') => f a w'
  | (Raise c, w') => (Raise c, w')
  end.

(** The body of a [try] block whose handlers render the exception. *)
Definition T (A : Type) : Type := W -> outcome A * W.

#[export] Instance T_ret : MRet T := fun A a w => (Ok a, w).
#[export] Instance T_bind : MBind T := fun A B f m w =>
  match m w with
  | (Ok a, w') => f a w'
  | (Fail c msg, w') => (Fail c msg, w')
  end.

(** A pure interpreter step inside [M], and a state update inside [M] or [T]. *)
Definition lift {A : Type} (r : result A) : M A := fun w => (r, w).
Definition effect (f : W -> W) : M unit := fun w => (Ret tt, f w).
Definition effectT (f : W -> W) : T unit := fun w => (Ok tt, f w).

(** [try: body except ...: handle]. *)
Definition try_except {A : Type} (body : T A)
    (handle : outcome A * W -> result A * W) : M A :=
  fun w => handle (body w).

End Monads.
Arguments M W A : clear implicits.
Arguments T W A : clear implicits.
End State.
Import State.

(** ** The approved-supplier database tool
    ([order_fulfilment_system/approved_supplier_database.py]) *)
Module ApprovedSupplierDatabase.

(** One entry of an SKU's ["approved_suppliers"] list in the internal table. *)
Record supplier := {
  supplier_id : string;
  supplier_name : string;
  material_code : string;
  plasticiser_type : string;
  lead_time_days : Z;
  stock_available : bool;
  minimum_order_qty_kg : Z;
  unit_cost_gbp_per_kg : string;
  ms4401_v3_2_results : pyval;
  plasticiser_thermal_degradation_onset_celsius : Z
}.

Record sku_record := {
  product_name : string;
  material_category : string;
  approved_suppliers : list supplier
}.

Definition _SUPPLIER_DATA : gmap string sku_record :=
  {[ "TB-DINO-003" := {|
       product_name := "ToyBright Bath Dinosaur";
       material_category := "PVC compound (injection moulding grade)";
       approved_suppliers := [
         {| supplier_id := "SUP-A-2291";
            supplier_name := "PrimePlast GmbH";
            material_code := "PVC-A12";
            plasticiser_type := "DOTP (Dioctyl terephthalate)";
            lead_time_days := 18;
            stock_available := false;
            minimum_order_qty_kg := 2500;
            unit_cost_gbp_per_kg := "3.42";
            ms4401_v3_2_results := VDict [
              ("tensile_strength_mpa", VFloat "24.1");
              ("elongation_at_break_pct", VInt 310);
              ("shore_hardness_a", VInt 78);
              ("density_g_per_cm3", VFloat "1.31");
              ("melt_flow_index_g_per_10min", VFloat "8.2") ];
            plasticiser_thermal_degradation_onset_celsius := 210 |};
         {| supplier_id := "SUP-B-4487";
            supplier_name := "AsiaCompound Ltd";
            material_code := "PVC-B7";
            plasticiser_type := "DINCH (Diisononyl cyclohexane-1,2-dicarboxylate)";
            lead_time_days := 8;
            stock_available := true;
            minimum_order_qty_kg := 1000;
            unit_cost_gbp_per_kg := "2.87";
            ms4401_v3_2_results := VDict [
              ("tensile_strength_mpa", VFloat "22.8");
              ("elongation_at_break_pct", VInt 295);
              ("shore_hardness_a", VInt 76);
              ("density_g_per_cm3", VFloat "1.29");
              ("melt_flow_index_g_per_10min", VFloat "9.1") ];
            plasticiser_thermal_degradation_onset_celsius := 188 |} ] |} ]}.

(** The dictionary built for one supplier by the body of the [for] loop. *)
Definition supplier_entry (s : supplier) : pyval :=
  VDict [
    ("supplier_id", VStr (supplier_id s));
    ("supplier_name", VStr (supplier_name s));
    ("material_code", VStr (material_code s));
    ("plasticiser_type", VStr (plasticiser_type s));
    ("lead_time_days", VInt (lead_time_days s));
    ("stock_available", VBool (stock_available s));
    ("minimum_order_qty_kg", VInt (minimum_order_qty_kg s));
    ("unit_cost_gbp_per_kg", VFloat (unit_cost_gbp_per_kg s));
    ("ms4401_v3_2_results", ms4401_v3_2_results s) ].

Definition rush_advisory_text : string :=
  "RUSH ORDER: Prioritise suppliers with shortest lead time and " +:+
  "available stock to meet expedited delivery requirements.".

Definition invoke (args sly_data : gmap string pyval) : result pyval :=
  let sku := get_arg args "sku" (VStr "") in
  order_priority ← call_upper (get_arg args "order_priority" (VStr "STANDARD"));
  key ← hash_key sku;
  match table_lookup _SUPPLIER_DATA key with
  | None =>
      Ret (VStr ("Error: SKU '" +:+ hashable_str key +:+
                 "' not found in Approved Vendor List."))
  | Some record =>
      let suppliers_output := map supplier_entry (approved_suppliers record) in
      let result := [
        ("sku", sku);
        ("product_name", VStr (product_name record));
        ("material_category", VStr (material_category record));
        ("testing_standard", VStr "MS-4401 v3.2 — Material Suitability Standard");
        ("tested_parameters", VList [
           VStr "tensile_strength_mpa";
           VStr "elongation_at_break_pct";
           VStr "shore_hardness_a";
           VStr "density_g_per_cm3";
           VStr "melt_flow_index_g_per_10min" ]);
        ("approved_suppliers", VList suppliers_output);
        ("note", VStr (
           "All listed suppliers have passed MS-4401 v3.2 material suitability " +:+
           "testing. Parameters not listed in MS-4401 v3.2 are outside the scope " +:+
           "of this database.")) ] in
      let result :=
        if String.eqb order_priority "RUSH"
        then dict_set result "rush_advisory" (VStr rush_advisory_text)
        else result in
      Ret (VDict result)
  end.

(** [async_invoke] delegates to the synchronous [invoke]. *)
Definition async_invoke (args sly_data : gmap string pyval) : result pyval :=
  invoke args sly_data.

End ApprovedSupplierDatabase.

(** ** The compliance-checklist database tool
    ([order_fulfilment_system/compliance_checklist_database.py]) *)
Module ComplianceChecklistDatabase.

Record checklist := {
  checklist_name : string;
  reference : string;
  applicable_regulations : list string;
  checklist_items : list pyval
}.

Definition _COMPLIANCE_CHECKLISTS : gmap string checklist :=
  {[ "childrens_toy_production" := {|
       checklist_name := "Children's Toy Production Compliance Checklist";
       reference := "CC-TOY-2024-R2";
       applicable_regulations := [
         "EN 71-3:2019+A1:2021 (Safety of Toys — Migration of certain elements)";
         "REACH Regulation (EC) No 1907/2006";
         "UK Toy Safety Regulations 2011 (S.I. 2011/1881)" ];
       checklist_items := [
         VDict [
           ("id", VStr "CC-001");
           ("item", VStr "Approved Vendor List (AVL) Verification");
           ("description", VStr "Confirm selected supplier is on the current Approved Vendor List");
           ("verification_method", VStr "Cross-reference supplier ID against AVL database");
           ("pass_criteria", VStr "Supplier ID exists in AVL with status APPROVED") ];
         VDict [
           ("id", VStr "CC-002");
           ("item", VStr "MS-4401 v3.2 Material Compliance");
           ("description", VStr "Verify material passes all 5 parameters in MS-4401 v3.2 testing standard");
           ("verification_method", VStr "Review MS-4401 v3.2 test results from supplier database");
           ("pass_criteria", VStr "All 5 tested parameters within specification") ];
         VDict [
           ("id", VStr "CC-003");
           ("item", VStr "Production Parameter Range Compliance");
           ("description", VStr "Verify all production parameters fall within approved ranges");
           ("verification_method", VStr "Compare planned parameters against PVR-2023-017 approved ranges");
           ("pass_criteria", VStr "All parameters within min-max approved range") ];
         VDict [
           ("id", VStr "CC-004");
           ("item", VStr "Quality Risk Assessment");
           ("description", VStr "Confirm quality risk assessment completed with acceptable risk levels");
           ("verification_method", VStr "Review FMEA-based quality prediction output");
           ("pass_criteria", VStr "No HIGH or CRITICAL risk failure modes identified") ];
         VDict [
           ("id", VStr "CC-005");
           ("item", VStr "Production Feasibility Confirmation");
           ("description", VStr "Verify production timeline meets delivery requirements");
           ("verification_method", VStr "Compare lead time and production schedule against order deadline");
           ("pass_criteria", VStr "Estimated completion date on or before required delivery date") ];
         VDict [
           ("id", VStr "CC-006");
           ("item", VStr "EN 71-3 Chemical Safety Compliance");
           ("description", VStr "Verify material complies with EN 71-3 migration limits for elements in children's toys");
           ("verification_method", VStr "Material supplier certification and MS-4401 v3.2 compliance confirmation");
           ("pass_criteria", VStr "Supplier provides EN 71-3 compliance certificate; material passes MS-4401 v3.2") ];
         VDict [
           ("id", VStr "CC-007");
           ("item", VStr "REACH Regulation Compliance");
           ("description", VStr "Verify material and plasticiser comply with REACH substance restrictions");
           ("verification_method", VStr "Review supplier REACH compliance declaration and material safety data sheet");
           ("pass_criteria", VStr "No REACH-restricted substances above threshold; supplier declaration on file") ] ] |} ]}.

Definition invoke (args sly_data : gmap string pyval) : result pyval :=
  lowered ← call_lower (get_arg args "product_category" (VStr "childrens_toy_production"));
  let product_category := replace " " "_" lowered in
  match _COMPLIANCE_CHECKLISTS !! product_category with
  | None =>
      Ret (VStr ("Error: Product category '" +:+ product_category +:+
                 "' not found in compliance checklist database."))
  | Some record =>
      Ret (VDict [
        ("checklist_name", VStr (checklist_name record));
        ("reference", VStr (reference record));
        ("applicable_regulations", VList (map VStr (applicable_regulations record)));
        ("total_items", VInt (Z.of_nat (length (checklist_items record))));
        ("checklist_items", VList (checklist_items record));
        ("note", VStr (
           "Verify each checklist item against the outputs from upstream " +:+
           "agents (OrderAssess, SourceSelect, PlanBuilder, QualityPredict). " +:+
           "All items must PASS for production to be approved.")) ])
  end.

Definition async_invoke (args sly_data : gmap string pyval) : result pyval :=
  invoke args sly_data.

End ComplianceChecklistDatabase.

(** ** The production-parameter database tool
    ([order_fulfilment_system/production_parameter_database.py]) *)
Module ProductionParameterDatabase.

Record parameter_ranges := {
  process_type : string;
  material_category : string;
  parameters : pyval;
  throughput_advisory : string;
  validation_reference : string;
  validation_status : string
}.

Definition _PARAMETER_RANGES : gmap string parameter_ranges :=
  {[ "injection_moulding" := {|
       process_type := "Injection Moulding";
       material_category := "PVC compound";
       parameters := VDict [
           ("barrel_temperature_celsius", VDict [
               ("min", VInt 180);
               ("max", VInt 200);
               ("unit", VStr "°C");
               ("description", VStr "Barrel temperature range for PVC injection moulding") ]);
           ("injection_pressure_bar", VDict [
               ("min", VInt 80);
               ("max", VInt 120);
               ("unit", VStr "bar");
               ("description", VStr "Injection pressure range") ]);
           ("cooling_time_seconds", VDict [
               ("min", VInt 15);
               ("max", VInt 25);
               ("unit", VStr "seconds");
               ("description", VStr "Cooling time per cycle") ]);
           ("mould_temperature_celsius", VDict [
               ("min", VInt 30);
               ("max", VInt 50);
               ("unit", VStr "°C");
               ("description", VStr "Mould temperature range") ]);
           ("injection_speed_mm_per_s", VDict [
               ("min", VInt 40);
               ("max", VInt 80);
               ("unit", VStr "mm/s");
               ("description", VStr "Injection speed range") ]) ];
       throughput_advisory :=
         "At 195-200°C barrel temperature, throughput increases approximately 20% due to improved melt flow. Recommended for rush orders requiring maximum production efficiency.";
       validation_reference := "PVR-2023-017";
       validation_status := "APPROVED — All parameters validated within specified ranges" |} ]}.

Definition invoke (args sly_data : gmap string pyval) : result pyval :=
  lowered ← call_lower (get_arg args "process_type" (VStr "injection_moulding"));
  let process_type_key := replace " " "_" lowered in
  match _PARAMETER_RANGES !! process_type_key with
  | None =>
      Ret (VStr ("Error: Process type '" +:+ process_type_key +:+
                 "' not found in approved parameter database."))
  | Some record =>
      Ret (VDict [
        ("process_type", VStr (process_type record));
        ("material_category", VStr (material_category record));
        ("approved_parameters", parameters record);
        ("throughput_advisory", VStr (throughput_advisory record));
        ("validation_reference", VStr (validation_reference record));
        ("validation_status", VStr (validation_status record));
        ("note", VStr (
           "All parameter ranges have been validated and approved under " +:+
           "reference PVR-2023-017. Operators must ensure settings remain " +:+
           "within these ranges during production.")) ])
  end.

Definition async_invoke (args sly_data : gmap string pyval) : result pyval :=
  invoke args sly_data.

End ProductionParameterDatabase.

(** ** The quality failure-mode database tool
    ([order_fulfilment_system/quality_failure_mode_database.py]) *)
Module QualityFailureModeDatabase.

Record fmea := {
  process_type : string;
  fmea_reference : string;
  failure_modes : list pyval;
  scope_note : string
}.

Definition _FAILURE_MODES : gmap string fmea :=
  {[ "pvc_injection_moulding" := {|
       process_type := "PVC Injection Moulding";
       fmea_reference := "FMEA-PVC-IM-2023-R4";
       failure_modes := [
         VDict [
           ("id", VStr "FM-001");
           ("failure_mode", VStr "Warping / Distortion");
           ("cause", VStr "Uneven cooling or excessive mould temperature differential");
           ("detection_method", VStr "Visual inspection and dimensional gauging");
           ("risk_parameters", VDict [
               ("barrel_temp_risk", VStr "LOW if within 180-200°C range");
               ("cooling_time_risk", VStr "MEDIUM if below 15s") ]);
           ("mitigation", VStr "Maintain uniform mould temperature; ensure adequate cooling time") ];
         VDict [
           ("id", VStr "FM-002");
           ("failure_mode", VStr "Sink Marks");
           ("cause", VStr "Insufficient packing pressure or premature gate freeze-off");
           ("detection_method", VStr "Visual inspection under angled lighting");
           ("risk_parameters", VDict [
               ("injection_pressure_risk", VStr "LOW if within 80-120 bar");
               ("barrel_temp_risk", VStr "LOW if within 180-200°C range") ]);
           ("mitigation", VStr "Optimise packing pressure and hold time") ];
         VDict [
           ("id", VStr "FM-003");
           ("failure_mode", VStr "Short Shots (Incomplete Fill)");
           ("cause", VStr "Insufficient injection pressure or material flow restriction");
           ("detection_method", VStr "Visual inspection — incomplete part geometry");
           ("risk_parameters", VDict [
               ("injection_pressure_risk", VStr "LOW if within 80-120 bar");
               ("barrel_temp_risk", VStr "LOW if within 180-200°C range (higher temp improves flow)") ]);
           ("mitigation", VStr "Increase injection pressure or barrel temperature within approved range") ];
         VDict [
           ("id", VStr "FM-004");
           ("failure_mode", VStr "Flash (Excess Material)");
           ("cause", VStr "Excessive injection pressure or worn mould tooling");
           ("detection_method", VStr "Visual inspection — excess material at parting lines");
           ("risk_parameters", VDict [
               ("injection_pressure_risk", VStr "LOW if within 80-120 bar");
               ("clamp_force_risk", VStr "LOW if mould tooling is within specification") ]);
           ("mitigation", VStr "Verify clamp tonnage; inspect mould tooling condition") ];
         VDict [
           ("id", VStr "FM-005");
           ("failure_mode", VStr "Discolouration / Burn Marks");
           ("cause", VStr "Excessive barrel temperature or prolonged residence time");
           ("detection_method", VStr "Visual inspection — colour variation or brown/black marks");
           ("risk_parameters", VDict [
               ("barrel_temp_risk", VStr "LOW if within 180-200°C range");
               ("residence_time_risk", VStr "LOW under standard cycle times") ]);
           ("mitigation", VStr "Reduce barrel temperature or cycle time; check for dead spots in barrel") ];
         VDict [
           ("id", VStr "FM-006");
           ("failure_mode", VStr "Brittleness / Reduced Impact Strength");
           ("cause", VStr "Material degradation from excessive processing temperature or moisture");
           ("detection_method", VStr "Drop test and Charpy impact test on sample parts");
           ("risk_parameters", VDict [
               ("barrel_temp_risk", VStr "LOW if within 180-200°C range");
               ("material_drying_risk", VStr "LOW if material dried per supplier specification") ]);
           ("mitigation", VStr "Ensure material is properly dried; keep barrel temp within range") ] ];
       scope_note :=
         "This FMEA covers production process-related failure modes only. Chemical migration and leaching are assessed by material supplier certification and MS-4401 v3.2 compliance, not by production process FMEA." |} ]}.

Definition invoke (args sly_data : gmap string pyval) : result pyval :=
  lowered ← call_lower (get_arg args "process_type" (VStr "pvc_injection_moulding"));
  let process_type_key := replace " " "_" lowered in
  match _FAILURE_MODES !! process_type_key with
  | None =>
      Ret (VStr ("Error: Process type '" +:+ process_type_key +:+
                 "' not found in failure mode database."))
  | Some record =>
      Ret (VDict [
        ("process_type", VStr (process_type record));
        ("fmea_reference", VStr (fmea_reference record));
        ("total_failure_modes", VInt (Z.of_nat (length (failure_modes record))));
        ("failure_modes", VList (failure_modes record));
        ("scope_note", VStr (scope_note record));
        ("note", VStr (
           "Evaluate production quality risk ONLY against the failure modes " +:+
           "documented above. Failure modes outside this database are assessed " +:+
           "by other governance processes.")) ])
  end.

Definition async_invoke (args sly_data : gmap string pyval) : result pyval :=
  invoke args sly_data.

End QualityFailureModeDatabase.

(** ** The runtime of the PDF knowledge tools ([coded_tools/kwik_agents])

    The tools read and write files, read the clock, log, and call into the
    vector-store layer and the PDF loader.  The state they act on is a
    [world]; a tool is a function from a [world] to its outcome and the
    [world] it leaves behind.  Failures of the operating system while a file
    that exists is read or written (permissions, a full disk) are not part
    of the model. *)
Module Runtime.

Inductive log_level : Type := INFO | ERROR.

(** An argument of a logging call; the [logging] module keeps the format
    string and its arguments apart. *)
Inductive log_arg : Type :=
| AVal (v : pyval)
| AExc (c : exn_class) (msg : option string).

Record log_record := {
  level : log_level;
  fmt : string;
  log_args : list log_arg
}.

(** The calls a tool makes into the vector-store layer and the PDF loader. *)
Inductive ext_call : Type :=
| CallGenerateVectorStore (urls : list string)
| CallLoadExistingVectorStore
| CallQueryVectorstore (query : pyval)
| CallLoadPdf (file_path : string).

(** What a JSON file on disk holds: nothing (there is no file), a JSON
    document, or text that [json.load] rejects. *)
Inductive file_state : Type :=
| Absent
| Json (v : pyval)
| Unparsable.

(** [Ext] is the state behind the external calls: the contents of the PDF
    files and the vector store with its snapshot on disk.  [files] gives the
    size of every other existing path; the document registry is kept apart
    in [registry_file]. *)
Record world (Ext : Type) := {
  files : gmap string Z;
  open_fds : gset Z;
  registry_file : file_state;
  ext : Ext;
  ticks : nat;
  log : list log_record;
  calls : list ext_call
}.
Arguments files {Ext} w.
Arguments open_fds {Ext} w.
Arguments registry_file {Ext} w.
Arguments ext {Ext} w.
Arguments ticks {Ext} w.
Arguments log {Ext} w.
Arguments calls {Ext} w.

(** A page as the PDF loader returns it. *)
Record Document := { page_content : string }.

(** The methods of [coded_tools.base_rag.BaseRag] the tools call, the
    [PyMuPDFLoader] and the clock: taken as parameters.  [Store] is the
    vector-store object handed back to the tool ([None] when the layer
    returns nothing). *)
Class External (Ext : Type) := {
  Store : Type;
  snapshot_exists : Ext -> bool;
  generate_vector_store : list string -> Ext -> outcome (option Store) * Ext;
  _load_existing_vector_store : Ext -> outcome (option Store) * Ext;
  query_vectorstore : Store -> pyval -> Ext -> outcome string * Ext;
  aload : string -> Ext -> outcome (list Document) * Ext;
  now_isoformat : nat -> string
}.

Section World.
Context {Ext : Type}.

Definition set_registry_file (f : file_state) (w : world Ext) : world Ext :=
  {| files := files w; open_fds := open_fds w; registry_file := f;
     ext := ext w; ticks := ticks w; log := log w; calls := calls w |}.

Definition set_ext (e : Ext) (w : world Ext) : world Ext :=
  {| files := files w; open_fds := open_fds w; registry_file := registry_file w;
     ext := e; ticks := ticks w; log := log w; calls := calls w |}.

Definition tick (w : world Ext) : world Ext :=
  {| files := files w; open_fds := open_fds w; registry_file := registry_file w;
     ext := ext w; ticks := S (ticks w); log := log w; calls := calls w |}.

(** [logger.info(fmt, *args)] and [logger.error(fmt, *args)]. *)
Definition logger (lvl : log_level) (f : string) (args : list log_arg)
    (w : world Ext) : world Ext :=
  {| files := files w; open_fds := open_fds w; registry_file := registry_file w;
     ext := ext w; ticks := ticks w;
     log := log w ++ [{| level := lvl; fmt := f; log_args := args |}];
     calls := calls w |}.

Definition record_call (c : ext_call) (w : world Ext) : world Ext :=
  {| files := files w; open_fds := open_fds w; registry_file := registry_file w;
     ext := ext w; ticks := ticks w; log := log w; calls := calls w ++ [c] |}.

(** An external call: recorded, then run on the external state. *)
Definition call_ext {A : Type} (c : ext_call) (f : Ext -> outcome A * Ext)
    : T (world Ext) A := fun w =>
  let w := record_call c w in
  let (r, e) := f (ext w) in (r, set_ext e w).

(** [os.path.exists(v)]: a path is looked up among the files, an integer is
    a file descriptor, anything else is a [TypeError]. *)
Definition fd_exists (w : world Ext) (n : Z) : result bool :=
  if ((- 2 ^ 31 <=? n) && (n <? 2 ^ 31))%Z
  then Ret (bool_decide (n ∈ open_fds w))
  else Raise OverflowError.

Definition os_path_exists (v : pyval) : M (world Ext) bool := fun w =>
  (match v with
   | VStr p => Ret (bool_decide (is_Some (files w !! p)))
   | VInt n => fd_exists w n
   | VBool b => fd_exists w (if b then 1 else 0)%Z
   | VNone | VFloat _ | VList _ | VDict _ => Raise TypeError
   end, w).

(** [str(v)] for a value [os.path.exists] accepts: a [str], an [int] or a
    [bool]; on any other value [os.path.exists] has raised before [v] is
    rendered. *)
Definition path_str (v : pyval) : string :=
  match v with
  | VStr p => p
  | VInt n => int_str n
  | VBool true => "True"
  | VBool false => "False"
  | VNone | VFloat _ | VList _ | VDict _ => ""
  end.

(** [os.path.getsize(p)]. *)
Definition os_path_getsize (p : string) : T (world Ext) Z := fun w =>
  match files w !! p with
  | Some n => (Ok n, w)
  | None =>
      (Fail FileNotFoundError
         ("[Errno 2] No such file or directory: '" +:+ p +:+ "'"), w)
  end.

(** [os.path.basename(p)] (POSIX). *)
Definition basename (p : string) : string := after_last "/" p.

(** [datetime.now().isoformat()]. *)
Definition datetime_now_isoformat {runtime : External Ext} : T (world Ext) string := fun w =>
  (Ok (now_isoformat (ticks w)), tick w).

End World.

(** [issubclass(c, ValueError)] and [issubclass(c, FileNotFoundError)]. *)
Definition is_ValueError (c : exn_class) : bool :=
  match c with
  | ValueError | JSONDecodeError => true
  | _ => false
  end.

Definition is_FileNotFoundError (c : exn_class) : bool :=
  match c with
  | FileNotFoundError => true
  | _ => false
  end.

End Runtime.
Import Runtime.

(** ** The add-PDF tool ([kwik_agents/add_pdf_to_knowledge.py]) *)
Module AddPdfToKnowledge.

Definition DOCUMENT_REGISTRY_PATH : string := "./DocumentRegistry.json".
Definition VECTOR_STORE_PATH : string := "./pdf_knowledge_vectorstore.json".

(** The [registry_entry] dictionary built by [async_invoke]. *)
Record registry_entry := {
  filename : string;
  file_path : string;
  upload_date : string;
  page_count : nat;
  file_size_bytes : Z;
  status : string
}.

Definition entry_dict (e : registry_entry) : pyval :=
  VDict [
    ("filename", VStr (filename e));
    ("file_path", VStr (file_path e));
    ("upload_date", VStr (upload_date e));
    ("page_count", VInt (Z.of_nat (page_count e)));
    ("file_size_bytes", VInt (file_size_bytes e));
    ("status", VStr (status e)) ].

(** [registry["documents"].append(entry)]: the list inside the registry is
    extended in place. *)
Definition append_document (registry entry : pyval) : result pyval :=
  match registry with
  | VDict d =>
      match dict_get d "documents" with
      | None => Raise KeyError
      | Some (VList l) => Ret (VDict (dict_set d "documents" (VList (l ++ [entry]))))
      | Some _ => Raise AttributeError
      end
  | _ => Raise TypeError
  end.

Section Tool.
Context {Ext : Type} {runtime : External Ext}.

(** The registry file is read whole, extended and written back whole; any
    exception is logged and swallowed. *)
Definition _update_document_registry (entry : registry_entry)
    (w : world Ext) : world Ext :=
  let loaded : result pyval :=
    match registry_file w with
    | Absent => Ret (VDict [("documents", VList [])])
    | Json v => Ret v
    | Unparsable => Raise JSONDecodeError
    end in
  match loaded ≫= (fun registry => append_document registry (entry_dict entry)) with
  | Ret registry =>
      logger INFO "Updated document registry: %s" [AVal (VStr (filename entry))]
        (set_registry_file (Json registry) w)
  | Raise c =>
      logger ERROR "Failed to update document registry: %s" [AExc c None] w
  end.

(** The body of the [try] block of [async_invoke]. *)
Definition ingest (p : string) : T (world Ext) string :=
  let filename := basename p in
  file_size ← os_path_getsize p;
  vector_store ← call_ext (CallGenerateVectorStore [p]) (generate_vector_store [p]);
  match vector_store with
  | None => mret "Error: Failed to create or load vector store."
  | Some _ =>
      docs ← call_ext (CallLoadPdf p) (aload p);
      let page_count := length docs in
      now ← datetime_now_isoformat;
      let registry_entry := {|
        filename := filename;
        file_path := p;
        upload_date := now;
        page_count := page_count;
        file_size_bytes := file_size;
        status := "processed" |} in
      effectT (_update_document_registry registry_entry);;
      effectT (logger INFO "Successfully added PDF to knowledge base: %s"
                 [AVal (VStr filename)]);;
      mret ("Successfully added " +:+ filename +:+ " to knowledge base - " +:+
            int_str (Z.of_nat page_count) +:+ " pages processed.")
  end.

(** The [except] clauses of [async_invoke], in their order. *)
Definition handlers (p : string) (r : outcome string * world Ext)
    : result string * world Ext :=
  match r with
  | (Ok s, w) => (Ret s, w)
  | (Fail c msg, w) =>
      if is_FileNotFoundError c then
        (Ret ("Error: File not found: " +:+ p),
         logger ERROR "File not found: %s" [AVal (VStr p)] w)
      else if is_ValueError c then
        (Ret ("Error: Invalid file or unsupported input: " +:+ p +:+ " - " +:+ msg),
         logger ERROR "Invalid file or unsupported input: %s - %s"
           [AVal (VStr p); AExc c (Some msg)] w)
      else
        (Ret ("Error: Failed to add PDF to knowledge base: " +:+ msg),
         logger ERROR "Error adding PDF to knowledge base: %s" [AExc c (Some msg)] w)
  end.

Definition async_invoke (args sly_data : gmap string pyval) : M (world Ext) string :=
  let file_path := get_arg args "file_path" (VStr "") in
  if negb (truthy file_path) then
    mret "Error: Missing required input 'file_path'."
  else
    found ← os_path_exists file_path;
    if negb found then
      mret ("Error: File not found: " +:+ path_str file_path)
    else
      p ← lift (str_receiver file_path);
      if negb (endswith (lower p) ".pdf") then
        mret ("Error: File must be a PDF: " +:+ p)
      else
        effect (logger INFO "Adding PDF to knowledge base: %s" [AVal (VStr p)]);;
        try_except (ingest p) (handlers p).

(** The synchronous entry point is not supported. *)
Definition invoke (args sly_data : gmap string pyval) : M (world Ext) string :=
  mret "Error: This tool requires async execution. Please use async_invoke.".

(** The loop of [load_documents]: a file that raises [FileNotFoundError] or
    [ValueError] is logged and skipped; any other exception leaves the
    loop. *)
Fixpoint load_each (urls : list string) (docs : list Document)
    : T (world Ext) (list Document) :=
  match urls with
  | [] => mret docs
  | file_path :: rest => fun w =>
      match call_ext (CallLoadPdf file_path) (aload file_path) w with
      | (Ok doc, w') =>
          load_each rest (docs ++ doc)
            (logger INFO "Successfully loaded PDF file from %s" [AVal (VStr file_path)] w')
      | (Fail c msg, w') =>
          if is_FileNotFoundError c then
            load_each rest docs
              (logger ERROR "File not found: %s" [AVal (VStr file_path)] w')
          else if is_ValueError c then
            load_each rest docs
              (logger ERROR "Invalid file path or unsupported input: %s – %s"
                 [AVal (VStr file_path); AExc c (Some msg)] w')
          else (Fail c msg, w')
      end
  end.

(** [loader_args] holds the list of PDF paths under ["urls"]. *)
Definition load_documents (loader_args : gmap string (list string))
    : T (world Ext) (list Document) :=
  let urls := default [] (loader_args !! "urls") in
  load_each urls [].

End Tool.
End AddPdfToKnowledge.

(** ** The query tool ([kwik_agents/query_pdf_knowledge.py]) *)
Module QueryPdfKnowledge.

Definition VECTOR_STORE_PATH : string := "./pdf_knowledge_vectorstore.json".

Section Tool.
Context {Ext : Type} {runtime : External Ext}.

(** [os.path.exists(VECTOR_STORE_PATH)]. *)
Definition vector_store_file_exists : M (world Ext) bool :=
  fun w => (Ret (snapshot_exists (ext w)), w).

(** The body of the [try] block of [async_invoke]. *)
Definition search (query : pyval) : T (world Ext) string :=
  vector_store ← call_ext CallLoadExistingVectorStore _load_existing_vector_store;
  match vector_store with
  | None =>
      mret "Error: Failed to load knowledge base. The vector store may be corrupted."
  | Some vector_store =>
      result ← call_ext (CallQueryVectorstore query) (query_vectorstore vector_store query);
      if negb (truthy (VStr result)) || String.eqb (strip result) "" then
        mret "No relevant information found in the knowledge base for this query."
      else
        effectT (logger INFO "Successfully queried PDF knowledge base" []);;
        mret result
  end.

(** The [except] clauses of [async_invoke], in their order. *)
Definition handlers (r : outcome string * world Ext) : result string * world Ext :=
  match r with
  | (Ok s, w) => (Ret s, w)
  | (Fail c msg, w) =>
      if is_FileNotFoundError c then
        (Ret "Error: Knowledge base file not found. Please upload PDF documents first.",
         logger ERROR "Vector store file not found: %s" [AVal (VStr VECTOR_STORE_PATH)] w)
      else
        (Ret ("Error: Failed to query knowledge base: " +:+ msg),
         logger ERROR "Error querying PDF knowledge base: %s" [AExc c (Some msg)] w)
  end.

Definition async_invoke (args sly_data : gmap string pyval) : M (world Ext) string :=
  let query := get_arg args "query" (VStr "") in
  if negb (truthy query) then
    mret "Error: Missing required input 'query'."
  else
    effect (logger INFO "Querying PDF knowledge base: %s" [AVal query]);;
    found ← vector_store_file_exists;
    if negb found then
      mret "Error: No knowledge base found. Please upload PDF documents first."
    else
      try_except (search query) handlers.

(** The synchronous entry point is not supported. *)
Definition invoke (args sly_data : gmap string pyval) : M (world Ext) string :=
  mret "Error: This tool requires async execution. Please use async_invoke.".

(** Not used for querying: the tool only loads the existing store. *)
Definition load_documents (loader_args : gmap string (list string))
    : T (world Ext) (list Document) :=
  mret [].

End Tool.
End QueryPdfKnowledge.

(** ** The extraction tool ([kwik_agents/extract_pdf_knowledge.py]) *)
Module ExtractPdfKnowledge.

Section Tool.
Context {Ext : Type} {runtime : External Ext}.

(** The synchronous entry point is not supported. *)
Definition invoke (args sly_data : gmap string pyval) : M (world Ext) string :=
  mret "Error: This tool requires async execution. Please use async_invoke.".

Definition VECTOR_STORE_PATH : string := "./pdf_knowledge_vectorstore.json".

(** The number of characters of the document kept for the summary. *)
Definition sample_limit : nat := Z.to_nat 10000.

(** [_generate_document_summary]: the parts are collected in a list and
    joined by newlines; [', '.join(focus_areas)] raises [TypeError] when
    [focus_areas] is not an iterable of [str]. *)
Definition _generate_document_summary (filename : string) (page_count : nat)
    (text_sample : string) (focus_areas : pyval) : outcome string :=
  let summary_parts := [
    "Document: " +:+ filename;
    "Pages: " +:+ int_str (Z.of_nat page_count);
    "";
    "CONTENT OVERVIEW:";
    "" ] in
  summary_parts ←
    (if truthy focus_areas then
       joined ← py_join ", " focus_areas;
       Ok (summary_parts ++ ["Focus areas requested: " +:+ joined; ""])%list
     else Ok summary_parts);
  let summary_parts := (summary_parts ++ [
    "The following is a sample of the document content:";
    "";
    text_sample;
    "";
    "---";
    "";
    "Please analyze the above content and identify key topics and facts. " +:+
    "For each significant topic you identify, use the commit_to_memory tool " +:+
    "to store relevant facts under that topic." ])%list in
  summary_parts ←
    (if truthy focus_areas then
       joined ← py_join ", " focus_areas;
       Ok (summary_parts ++
             ["Pay special attention to information related to: " +:+ joined +:+ "."])%list
     else Ok summary_parts);
  Ok (str_join (String "010" "") summary_parts).

(** The body of the [try] block of [async_invoke]. *)
Definition extract (p : string) (focus_areas : pyval) : T (world Ext) string :=
  docs ← call_ext (CallLoadPdf p) (aload p);
  match docs with
  | [] => mret ("Error: Failed to load document or document is empty: " +:+ p)
  | _ =>
      let filename := basename p in
      let page_count := length docs in
      let full_text := str_join (String "010" (String "010" "")) (map page_content docs) in
      let text_sample :=
        if (sample_limit <? str_len full_text)%nat
        then slice_to sample_limit full_text else full_text in
      summary ← (fun w =>
        (_generate_document_summary filename page_count text_sample focus_areas, w));
      effectT (logger INFO "Successfully extracted knowledge from PDF: %s"
                 [AVal (VStr filename)]);;
      mret summary
  end.

(** The [except] clauses of [async_invoke], in their order. *)
Definition handlers (p : string) (r : outcome string * world Ext)
    : result string * world Ext :=
  match r with
  | (Ok s, w) => (Ret s, w)
  | (Fail c msg, w) =>
      if is_FileNotFoundError c then
        (Ret ("Error: File not found: " +:+ p),
         logger ERROR "File not found: %s" [AVal (VStr p)] w)
      else if is_ValueError c then
        (Ret ("Error: Invalid file or unsupported input: " +:+ p +:+ " - " +:+ msg),
         logger ERROR "Invalid file or unsupported input: %s - %s"
           [AVal (VStr p); AExc c (Some msg)] w)
      else
        (Ret ("Error: Failed to extract knowledge from PDF: " +:+ msg),
         logger ERROR "Error extracting knowledge from PDF: %s" [AExc c (Some msg)] w)
  end.

Definition async_invoke (args sly_data : gmap string pyval) : M (world Ext) string :=
  let file_path := get_arg args "file_path" (VStr "") in
  let focus_areas := get_arg args "focus_areas" (VList []) in
  if negb (truthy file_path) then
    mret "Error: Missing required input 'file_path'."
  else
    found ← os_path_exists file_path;
    if negb found then
      mret ("Error: File not found: " +:+ path_str file_path)
    else
      p ← lift (str_receiver file_path);
      if negb (endswith (lower p) ".pdf") then
        mret ("Error: File must be a PDF: " +:+ p)
      else
        effect (logger INFO "Extracting knowledge from PDF: %s" [AVal (VStr p)]);;
        try_except (extract p focus_areas) (handlers p).

(** As in the add-PDF tool. *)
Fixpoint load_each (urls : list string) (docs : list Document)
    : T (world Ext) (list Document) :=
  match urls with
  | [] => mret docs
  | file_path :: rest => fun w =>
      match call_ext (CallLoadPdf file_path) (aload file_path) w with
      | (Ok doc, w') =>
          load_each rest (docs ++ doc)
            (logger INFO "Successfully loaded PDF file from %s" [AVal (VStr file_path)] w')
      | (Fail c msg, w') =>
          if is_FileNotFoundError c then
            load_each rest docs
              (logger ERROR "File not found: %s" [AVal (VStr file_path)] w')
          else if is_ValueError c then
            load_each rest docs
              (logger ERROR "Invalid file path or unsupported input: %s – %s"
                 [AVal (VStr file_path); AExc c (Some msg)] w')
          else (Fail c msg, w')
      end
  end.

Definition load_documents (loader_args : gmap string (list string))
    : T (world Ext) (list Document) :=
  let urls := default [] (loader_args !! "urls") in
  load_each urls [].

End Tool.
End ExtractPdfKnowledge.

(** ** The agent session glue ([apps/pdf_knowledge_assistant/pdf_knowledge_assistant.py])

    The web process holds two globals: the agent session and the
    conversation thread [knowledge_thread].  [Env] is everything outside the
    process that a request can touch: the agent session and its runtime,
    the filesystem under the upload folder and the clock. *)
Module PdfKnowledgeAssistant.

(** An uploaded file as Flask hands it to the view ([request.files[...]]). *)
Record FileStorage := {
  filename : string;
  stream : string
}.

(** A Socket.IO emission. *)
Record emission := {
  event : string;
  payload : pyval;
  namespace : string
}.

(** A call that writes to the filesystem. *)
Inductive fs_call : Type :=
| Makedirs (path : string)
| Save (file : FileStorage) (path : string).

Record app (Env : Type) := {
  env : Env;
  knowledge_thread : gmap string pyval;
  emitted : list emission;
  fs_calls : list fs_call
}.
Arguments env {Env} a.
Arguments knowledge_thread {Env} a.
Arguments emitted {Env} a.
Arguments fs_calls {Env} a.

(** The agent runtime ([StreamingInputProcessor.process_once]), Werkzeug's
    [secure_filename], the filesystem calls and the clock: taken as
    parameters. *)
Class WebExternal (Env : Type) := {
  process_once : gmap string pyval -> Env -> outcome (gmap string pyval) * Env;
  secure_filename : string -> string;
  now_strftime : Env -> string;
  os_makedirs : string -> Env -> outcome unit * Env;
  file_save : FileStorage -> string -> Env -> outcome unit * Env;
  os_path_abspath : string -> Env -> string
}.

Section Glue.
Context {Env : Type} {web : WebExternal Env}.

Definition set_env (e : Env) (a : app Env) : app Env :=
  {| env := e; knowledge_thread := knowledge_thread a;
     emitted := emitted a; fs_calls := fs_calls a |}.

Definition set_knowledge_thread (t : gmap string pyval) (a : app Env) : app Env :=
  {| env := env a; knowledge_thread := t;
     emitted := emitted a; fs_calls := fs_calls a |}.

(** The initial conversation state built by [set_up_pdf_knowledge_assistant]. *)
Definition initial_knowledge_thread : gmap string pyval :=
  {[ "last_chat_response" := VNone;
     "prompt" := VStr ("Please enter your query or upload a PDF:" +:+ String "010" "");
     "timeout" := VFloat "5000.0";
     "num_input" := VInt 0;
     "user_input" := VNone;
     "sly_data" := VNone;
     "chat_filter" := VDict [("chat_filter_type", VStr "MAXIMAL")] ]}.

(** [process_user_query(knowledge_session, knowledge_thread, user_input)],
    called on the global thread: the assignment
    [knowledge_thread["user_input"] = user_input] changes the global
    dictionary in place, also when [process_once] raises afterwards.  The
    result is the pair [(last_chat_response, knowledge_thread)]. *)
Definition process_user_query (user_input : pyval)
    : T (app Env) (pyval * gmap string pyval) := fun a =>
  let a := set_knowledge_thread (<["user_input" := user_input]> (knowledge_thread a)) a in
  match process_once (knowledge_thread a) (env a) with
  | (Ok thread, e) =>
      let last_chat_response := default VNone (thread !! "last_chat_response") in
      (Ok (last_chat_response, thread), set_env e a)
  | (Fail c msg, e) => (Fail c msg, set_env e a)
  end.

Definition process_pdf_upload (file_path : string)
    : T (app Env) (pyval * gmap string pyval) :=
  let upload_instruction :=
    "A PDF file has been uploaded at: " +:+ file_path +:+ String "010" "" +:+
    "Please add this document to the knowledge base and extract key topics and facts from it." in
  process_user_query (VStr upload_instruction).

End Glue.
End PdfKnowledgeAssistant.

(** ** The Flask front end ([apps/pdf_knowledge_assistant/interface_flask.py]) *)
Module InterfaceFlask.
Import PdfKnowledgeAssistant.

Definition UPLOAD_FOLDER : string := "apps/pdf_knowledge_assistant/static/uploads".
Definition MAX_CONTENT_LENGTH : Z := 50 * 1024 * 1024.
Definition ALLOWED_EXTENSIONS : gset string := {[ "pdf" ]}.

(** ["." in filename and filename.rsplit(".", 1)[1].lower() in ALLOWED_EXTENSIONS]. *)
Definition allowed_file (filename : string) : bool :=
  contains_char "." filename &&
  bool_decide (lower (after_last "." filename) ∈ ALLOWED_EXTENSIONS).

(** [os.path.join(a, b)] (POSIX). *)
Definition os_path_join (a b : string) : string :=
  if startswith b "/" then b
  else if String.eqb a "" || endswith a "/" then a +:+ b
  else a +:+ "/" +:+ b.

(** A view's return value: the JSON body and the HTTP status. *)
Definition response : Type := pyval * Z.

Definition jsonify (body : list (string * pyval)) (status : Z) : response :=
  (VDict body, status).

Section Views.
Context {Env : Type} {web : WebExternal Env}.

Definition record_fs_call (c : fs_call) (a : app Env) : app Env :=
  {| env := env a; knowledge_thread := knowledge_thread a;
     emitted := emitted a; fs_calls := fs_calls a ++ [c] |}.

(** A filesystem call: recorded, then run on the environment. *)
Definition fs_write (c : fs_call) (f : Env -> outcome unit * Env) : T (app Env) unit :=
  fun a =>
    let a := record_fs_call c a in
    let (r, e) := f (env a) in (r, set_env e a).

(** [socketio.emit(event, data, namespace="/chat")]. *)
Definition socketio_emit (ev : string) (data : pyval) (a : app Env) : app Env :=
  {| env := env a; knowledge_thread := knowledge_thread a;
     emitted := emitted a ++ [{| event := ev; payload := data; namespace := "/chat" |}];
     fs_calls := fs_calls a |}.

(** The body of the [try] block of [upload_file]. *)
Definition store_and_process (file : FileStorage) : T (app Env) response :=
  let filename := secure_filename (filename file) in
  timestamp ← (fun a => (Ok (now_strftime (env a)), a));
  let unique_filename := timestamp +:+ "_" +:+ filename in
  let filepath := os_path_join UPLOAD_FOLDER unique_filename in
  fs_write (Makedirs UPLOAD_FOLDER) (os_makedirs UPLOAD_FOLDER);;
  fs_write (Save file filepath) (file_save file filepath);;
  abs_filepath ← (fun a => (Ok (os_path_abspath filepath (env a)), a));
  '(response, thread) ← process_pdf_upload abs_filepath;
  effectT (set_knowledge_thread thread);;
  mret (jsonify [
    ("success", VBool true);
    ("message", response);
    ("filename", VStr unique_filename);
    ("filepath", VStr abs_filepath) ] 200).

Definition upload_file (request_files : gmap string FileStorage)
    : app Env -> response * app Env := fun a =>
  match request_files !! "file" with
  | None => (jsonify [("error", VStr "No file part in request")] 400, a)
  | Some file =>
      if String.eqb (filename file) "" then
        (jsonify [("error", VStr "No file selected")] 400, a)
      else if negb (allowed_file (filename file)) then
        (jsonify [("error", VStr "Only PDF files are allowed")] 400, a)
      else
        match store_and_process file a with
        | (Ok r, a') => (r, a')
        | (Fail c msg, a') =>
            (jsonify [("error", VStr ("Failed to process file: " +:+ msg))] 500, a')
        end
  end.

(** The body of the [try] block of [handle_user_query]. *)
Definition answer (user_query : pyval) : T (app Env) unit :=
  '(response, thread) ← process_user_query user_query;
  effectT (set_knowledge_thread thread);;
  effectT (socketio_emit "agent_response"
    (VDict [("data", if truthy response then response
                     else VStr "No response from agent.")])).

Definition handle_user_query (json_data : gmap string pyval) (a : app Env) : app Env :=
  let user_query := get_arg json_data "data" (VStr "") in
  if negb (truthy user_query) then
    socketio_emit "agent_response" (VDict [("data", VStr "Error: Empty query received.")]) a
  else
    let a := socketio_emit "user_message" (VDict [("data", user_query)]) a in
    match answer user_query a with
    | (Ok _, a') => a'
    | (Fail c msg, a') =>
        socketio_emit "agent_response"
          (VDict [("data", VStr ("Error processing query: " +:+ msg))]) a'
    end.

End Views.

(** *** The read-only views

    [DocumentRegistry.json] and [TopicMemory.json] as a view finds them: no
    file, a JSON document, or text on which [json.load] raises a
    [JSONDecodeError] with the given message. *)
Inductive json_file : Type :=
| Missing
| Holds (v : pyval)
| Malformed (error : string).

(** [os.path.exists(path)] followed by [json.load]: [None] when there is no
    file. *)
Definition load_json (f : json_file) : option (outcome pyval) :=
  match f with
  | Missing => None
  | Holds v => Some (Ok v)
  | Malformed error => Some (Fail JSONDecodeError error)
  end.

(** A view body under [try ... except Exception as e], which answers a
    failure with status 500 and the text of the exception. *)
Definition view (failure : string) (body : outcome response) : response :=
  match body with
  | Ok r => r
  | Fail c msg => jsonify [("error", VStr (failure +:+ msg))] 500
  end.

Definition get_topics (topic_memory : json_file) : response :=
  view "Failed to load topics: "
    match load_json topic_memory with
    | Some loaded =>
        memory ← loaded;
        topics ← call_keys memory;
        Ok (jsonify [("topics", VList (map VStr topics))] 200)
    | None => Ok (jsonify [("topics", VList [])] 200)
    end.

Definition get_topic_facts (topic : string) (topic_memory : json_file) : response :=
  view "Failed to load topic facts: "
    match load_json topic_memory with
    | Some loaded =>
        memory ← loaded;
        facts ← call_get memory topic (VStr "No facts found for this topic.");
        Ok (jsonify [("topic", VStr topic); ("facts", facts)] 200)
    | None =>
        Ok (jsonify [("topic", VStr topic); ("facts", VStr "No memory found.")] 200)
    end.



End InterfaceFlask.

(** * Vocabulary of the properties *)

(** The field of the internal supplier records that the tool withholds. *)
Definition withheld_field : string := "plasticiser_thermal_degradation_onset_celsius".

(** The entries of the ["approved_suppliers"] list of a result. *)
Definition supplier_entries (v : pyval) : list pyval :=
  match v with
  | VDict d =>
      match dict_get d "approved_suppliers" with
      | Some (VList l) => l
      | _ => []
      end
  | _ => []
  end.


(** The normalization of a key: lower case, then every space replaced by an
    underscore. *)
Definition normalize (key : string) : string := replace " " "_" (lower key).

(** The normalization of one character. *)
Definition normalize_char (c : ascii) : ascii :=
  if Ascii.eqb (lower_char c) " " then "_"%char else lower_char c.

(** Two characters that differ at most in letter case, or are a space and an
    underscore. *)
Definition same_char (a b : ascii) : bool :=
  Ascii.eqb (lower_char a) (lower_char b) ||
  (Ascii.eqb a " " || Ascii.eqb a "_") && (Ascii.eqb b " " || Ascii.eqb b "_").

(** [k] differs from [s] only in letter case or in spaces versus
    underscores. *)
Fixpoint differs_only_in_case_or_spacing (k s : string) : bool :=
  match k, s with
  | EmptyString, EmptyString => true
  | String a k', String b s' => same_char a b && differs_only_in_case_or_spacing k' s'
  | _, _ => false
  end.

(** An ['Error: ... not found ...'] string. *)
Definition is_not_found_error (v : pyval) : Prop :=
  exists msg, v = VStr msg /\ startswith msg "Error: " = true /\
    exists before after, msg = before +:+ "not found" +:+ after.

(** A tool call that is rejected: it returns the ['Error:']-prefixed [msg]
    and leaves the world as it found it (nothing read or written, nothing
    logged, no external call). *)
Definition rejected {Ext : Type} (run : M (world Ext) string) (w : world Ext)
    (msg : string) : Prop :=
  run w = (Ret msg, w) /\ startswith msg "Error: " = true.

(** A small runtime to run the tools on.  The external state is the list of
    the paths ingested so far; every PDF has two pages. *)
Definition sample_external : External (list string) := {|
  Store := list string;
  snapshot_exists := fun e => match e with [] => false | _ => true end;
  generate_vector_store := fun urls e => (Ok (Some (e ++ urls)%list), (e ++ urls)%list);
  _load_existing_vector_store := fun e => (Ok (Some e), e);
  query_vectorstore := fun store query e => (Ok "Two pages about moulding.", e);
  aload := fun p e =>
    (Ok [ {| page_content := "page one" |}; {| page_content := "page two" |} ], e);
  now_isoformat := fun n => "2025-06-01T12:00:0" +:+ int_str (Z.of_nat n)
|}.

Definition sample_world : world (list string) := {|
  files := {[ "/uploads/report.pdf" := 2048%Z; "/uploads/notes.txt" := 10%Z ]};
  open_fds := {[ 0%Z; 1%Z; 2%Z ]};
  registry_file := Absent;
  ext := [];
  ticks := 0;
  log := [];
  calls := []
|}.

(** The ["documents"] sequence of the registry on disk: empty while the file
    is absent (as the [/documents] view reports it), undefined when the file
    does not hold a JSON object with a list under ["documents"]. *)
Definition registry_documents (f : file_state) : option (list pyval) :=
  match f with
  | Absent => Some []
  | Json (VDict d) =>
      match dict_get d "documents" with
      | Some (VList l) => Some l
      | _ => None
      end
  | Json _ | Unparsable => None
  end.

(** The tool reports a successful ingestion. *)
Definition ingestion_succeeded (r : result string) : Prop :=
  exists msg, r = Ret msg /\ startswith msg "Successfully added " = true.

(** A filename with a ['.pdf'] extension, in any letter case: it ends in a
    dot followed by an extension without dots that lower-cases to ["pdf"]. *)
Definition has_pdf_extension (filename : string) : Prop :=
  exists stem extension,
    filename = stem +:+ "." +:+ extension /\
    contains_char "." extension = false /\
    lower extension = "pdf".

(** A small web environment to run the views on: the environment counts the
    turns the agent has taken, and the agent answers every turn. *)
Definition sample_web : PdfKnowledgeAssistant.WebExternal nat := {|
  PdfKnowledgeAssistant.process_once := fun thread e =>
    (Ok (<["last_chat_response" := VStr "Noted."]> thread), S e);
  PdfKnowledgeAssistant.secure_filename := fun name => name;
  PdfKnowledgeAssistant.now_strftime := fun e => "20250601_120000";
  PdfKnowledgeAssistant.os_makedirs := fun path e => (Ok tt, e);
  PdfKnowledgeAssistant.file_save := fun file path e => (Ok tt, e);
  PdfKnowledgeAssistant.os_path_abspath := fun path e => "/srv/studio/" +:+ path
|}.

Definition sample_app : PdfKnowledgeAssistant.app nat := {|
  PdfKnowledgeAssistant.env := 0;
  PdfKnowledgeAssistant.knowledge_thread :=
    PdfKnowledgeAssistant.initial_knowledge_thread;
  PdfKnowledgeAssistant.emitted := [];
  PdfKnowledgeAssistant.fs_calls := []
|}.

(** The two emissions of the chat protocol. *)
Definition user_message (data : pyval) : PdfKnowledgeAssistant.emission := {|
  PdfKnowledgeAssistant.event := "user_message";
  PdfKnowledgeAssistant.payload := VDict [("data", data)];
  PdfKnowledgeAssistant.namespace := "/chat"
|}.

Definition agent_response (data : pyval) : PdfKnowledgeAssistant.emission := {|
  PdfKnowledgeAssistant.event := "agent_response";
  PdfKnowledgeAssistant.payload := VDict [("data", data)];
  PdfKnowledgeAssistant.namespace := "/chat"
|}.

(** The fields of the approved-supplier tool's answer for a record, before
    the advisory is added. *)
Definition supplier_view (sku : pyval) (r : ApprovedSupplierDatabase.sku_record)
    : list (string * pyval) :=
  [ ("sku", sku);
    ("product_name", VStr (ApprovedSupplierDatabase.product_name r));
    ("material_category", VStr (ApprovedSupplierDatabase.material_category r));
    ("testing_standard", VStr "MS-4401 v3.2 — Material Suitability Standard");
    ("tested_parameters", VList [
       VStr "tensile_strength_mpa";
       VStr "elongation_at_break_pct";
       VStr "shore_hardness_a";
       VStr "density_g_per_cm3";
       VStr "melt_flow_index_g_per_10min" ]);
    ("approved_suppliers",
     VList (map ApprovedSupplierDatabase.supplier_entry
              (ApprovedSupplierDatabase.approved_suppliers r)));
    ("note", VStr (
       "All listed suppliers have passed MS-4401 v3.2 material suitability " +:+
       "testing. Parameters not listed in MS-4401 v3.2 are outside the scope " +:+
       "of this database.")) ].

(** The entry the approved-supplier tool adds for a rush order. *)
Definition rush_advisory_entry : string * pyval :=
  ("rush_advisory", VStr ApprovedSupplierDatabase.rush_advisory_text).

(** The string the [except] clauses of the add-PDF tool return for an
    exception of class [c] with text [msg] raised while [p] is ingested:
    [FileNotFoundError] first, then [ValueError] and its subclasses, then
    every other exception. *)
Definition add_pdf_error (p : string) (c : exn_class) (msg : string) : string :=
  if is_FileNotFoundError c then "Error: File not found: " +:+ p
  else if is_ValueError c then
    "Error: Invalid file or unsupported input: " +:+ p +:+ " - " +:+ msg
  else "Error: Failed to add PDF to knowledge base: " +:+ msg.

(** A runtime whose vector-store layer and loader answer as scripted; the
    external state lists the paths handed to the vector-store layer. *)
Definition scripted_external (stored : outcome (option unit))
    (loaded : outcome (list Document)) : External (list string) := {|
  Store := unit;
  snapshot_exists := fun e => match e with [] => false | _ => true end;
  generate_vector_store := fun urls e => (stored, (e ++ urls)%list);
  _load_existing_vector_store := fun e => (stored, e);
  query_vectorstore := fun store query e => (Ok "", e);
  aload := fun p e => (loaded, e);
  now_isoformat := fun n => "2025-06-01T12:00:00"
|}.

(** The string the [except] clauses of the query tool return for an
    exception of class [c] with text [msg]. *)
Definition query_error (c : exn_class) (msg : string) : string :=
  if is_FileNotFoundError c
  then "Error: Knowledge base file not found. Please upload PDF documents first."
  else "Error: Failed to query knowledge base: " +:+ msg.

(** A runtime whose store loads and whose search fails. *)
Definition failing_search_external : External nat := {|
  Store := unit;
  snapshot_exists := fun e => true;
  generate_vector_store := fun urls e => (Ok (Some tt), e);
  _load_existing_vector_store := fun e => (Ok (Some tt), e);
  query_vectorstore := fun store query e => (Fail RuntimeError "index is empty", e);
  aload := fun p e => (Ok [], e);
  now_isoformat := fun n => "2025-06-01T12:00:00"
|}.

Definition empty_world : world nat := {|
  files := ∅; open_fds := ∅; registry_file := Absent; ext := 0;
  ticks := 0; log := []; calls := []
|}.

(** The text of a loaded document: its pages joined by blank lines; and the
    sample of it that the extraction tool puts into its summary. *)
Definition document_text (pages : list Document) : string :=
  str_join (String "010" (String "010" "")) (map page_content pages).

Definition document_sample (pages : list Document) : string :=
  if (ExtractPdfKnowledge.sample_limit <? str_len (document_text pages))%nat
  then slice_to ExtractPdfKnowledge.sample_limit (document_text pages)
  else document_text pages.

(** The string the [except] clauses of the extraction tool return for an
    exception of class [c] with text [msg] raised while [p] is read. *)
Definition extract_error (p : string) (c : exn_class) (msg : string) : string :=
  if is_FileNotFoundError c then "Error: File not found: " +:+ p
  else if is_ValueError c then
    "Error: Invalid file or unsupported input: " +:+ p +:+ " - " +:+ msg
  else "Error: Failed to extract knowledge from PDF: " +:+ msg.

(** The path under which an upload is saved, and the instruction the agent
    is given for it. *)
Definition upload_name {Env : Type} {web : PdfKnowledgeAssistant.WebExternal Env}
    (file : PdfKnowledgeAssistant.FileStorage) (e : Env) : string :=
  PdfKnowledgeAssistant.now_strftime e +:+ "_" +:+
  PdfKnowledgeAssistant.secure_filename (PdfKnowledgeAssistant.filename file).

Definition upload_path {Env : Type} {web : PdfKnowledgeAssistant.WebExternal Env}
    (file : PdfKnowledgeAssistant.FileStorage) (e : Env) : string :=
  InterfaceFlask.os_path_join InterfaceFlask.UPLOAD_FOLDER (upload_name file e).

Definition upload_instruction (abs_filepath : string) : pyval :=
  VStr ("A PDF file has been uploaded at: " +:+ abs_filepath +:+ String "010" "" +:+
        "Please add this document to the knowledge base and extract key topics and facts from it.").

(** The answer to a failed upload. *)
Definition upload_error (msg : string) : InterfaceFlask.response :=
  InterfaceFlask.jsonify [("error", VStr ("Failed to process file: " +:+ msg))] 500.

(** A web environment whose agent fails every turn. *)
Definition failing_agent_web : PdfKnowledgeAssistant.WebExternal nat := {|
  PdfKnowledgeAssistant.process_once := fun thread e =>
    (Fail RuntimeError "agent session closed", S e);
  PdfKnowledgeAssistant.secure_filename := fun name => name;
  PdfKnowledgeAssistant.now_strftime := fun e => "20250601_120000";
  PdfKnowledgeAssistant.os_makedirs := fun path e => (Ok tt, e);
  PdfKnowledgeAssistant.file_save := fun file path e => (Ok tt, e);
  PdfKnowledgeAssistant.os_path_abspath := fun path e => "/srv/studio/" +:+ path
|}.

Definition sample_upload : PdfKnowledgeAssistant.FileStorage := {|
  PdfKnowledgeAssistant.filename := "report.PDF";
  PdfKnowledgeAssistant.stream := "%PDF-1.7"
|}.




(** The sample world with a registry file that holds a JSON object without a
    ["documents"] key. *)
Definition stale_registry_world : world (list string) :=
  set_registry_file (Json (VDict [("docs", VList [])])) sample_world.

(** A runtime whose search finds nothing but white space: a no-break space
    (U+00A0), a space and an ideographic space (U+3000). *)
Definition blank_search_external : External nat := {|
  Store := unit;
  snapshot_exists := fun e => true;
  generate_vector_store := fun urls e => (Ok (Some tt), e);
  _load_existing_vector_store := fun e => (Ok (Some tt), e);
  query_vectorstore := fun store query e =>
    (Ok (String "194" (String "160" " ") +:+
         String "227" (String "128" (String "128" ""))), e);
  aload := fun p e => (Ok [], e);
  now_isoformat := fun n => "2025-06-01T12:00:00"
|}.

(** A long text: [n] times the letter x. *)
Definition xs (n : Z) : string :=
  string_of_list_ascii (repeat "x"%char (Z.to_nat n)).

(** A runtime whose loader returns one long page and a short one: 12000
    letters followed by what the external state holds, so that two states
    give documents that agree on their first 12000 characters. *)
Definition long_document_external : External (list string) := {|
  Store := unit;
  snapshot_exists := fun e => true;
  generate_vector_store := fun urls e => (Ok (Some tt), e);
  _load_existing_vector_store := fun e => (Ok (Some tt), e);
  query_vectorstore := fun store query e => (Ok "", e);
  aload := fun p e =>
    (Ok [ {| page_content := xs 12000 +:+ str_join "" e |};
          {| page_content := "last page" |} ], e);
  now_isoformat := fun n => "2025-06-01T12:00:00"
|}.

(** The string a tool has returned. *)
Definition returned (r : result string) : string :=
  match r with
  | Ret s => s
  | Raise _ => ""
  end.
(** * Properties *)

(** ** Strings *)

Example lower_mixed : lower "Injection Moulding-2" = "injection moulding-2".
Proof. reflexivity. Qed.

Example upper_mixed : upper "Rush order_7" = "RUSH ORDER_7".
Proof. reflexivity. Qed.

Example replace_spaces : replace " " "_" "pvc injection moulding" = "pvc_injection_moulding".
Proof. reflexivity. Qed.

Example after_last_dot : after_last "." "annual.report.PDF" = "PDF".
Proof. reflexivity. Qed.

Example basename_nested : basename "/srv/uploads/20250601_report.pdf" = "20250601_report.pdf".
Proof. reflexivity. Qed.

Example strip_blank : strip (String "009" " two pages " +:+ String "010" "") = "two pages".
Proof. reflexivity. Qed.

(** Outside ASCII: the long s has an ASCII upper-case form, and the
    no-break space and the ideographic space are white space. *)
Example upper_long_s : upper "ruſh" = "RUSH".
Proof. reflexivity. Qed.

Example upper_sharp_s : upper "rußh" = "RUSSH".
Proof. reflexivity. Qed.

Example strip_no_break_space :
  strip (String "194" (String "160" " two pages") +:+
         String "227" (String "128" (String "128" ""))) = "two pages".
Proof. reflexivity. Qed.

Example int_str_negative : int_str (-42) = "-42".
Proof. reflexivity. Qed.

Lemma string_cons_app x a b : String x a +:+ b = String x (a +:+ b).
Proof. reflexivity. Qed.

Lemma append_assoc (a b c : string) : (a +:+ b) +:+ c = a +:+ (b +:+ c).
Proof.
  induction a as [|x a IH]; [reflexivity|].
  rewrite !string_cons_app. now rewrite IH.
Qed.

(** [startswith] and [endswith] decide "is a prefix of" and "is a suffix of". *)
Lemma startswith_spec s prefix :
  startswith s prefix = true <-> exists rest, s = prefix +:+ rest.
Proof.
  revert s. induction prefix as [|a prefix IH]; intros s; simpl.
  - split; [eauto | reflexivity].
  - destruct s as [|b s].
    + split; [discriminate | intros [rest H]; discriminate].
    + rewrite andb_true_iff, Ascii.eqb_eq, IH. split.
      * intros [-> [rest ->]]. exists rest. reflexivity.
      * intros [rest H]. rewrite string_cons_app in H. injection H as -> ->. eauto.
Qed.

Lemma endswith_nil suffix : endswith "" suffix = String.eqb "" suffix.
Proof. unfold endswith. apply orb_false_r. Qed.

Lemma endswith_cons x s suffix :
  endswith (String x s) suffix = String.eqb (String x s) suffix || endswith s suffix.
Proof. reflexivity. Qed.

Lemma endswith_spec s suffix :
  endswith s suffix = true <-> exists start, s = start +:+ suffix.
Proof.
  induction s as [|x s IH].
  - rewrite endswith_nil, String.eqb_eq. split.
    + intros <-. exists "". reflexivity.
    + intros [[|y start] H]; [exact H | discriminate].
  - rewrite endswith_cons, orb_true_iff, String.eqb_eq, IH. split.
    + intros [<- | [start ->]]; [exists ""; reflexivity|].
      exists (String x start). reflexivity.
    + intros [[|y start] H]; [left; exact H|].
      rewrite string_cons_app in H. injection H as -> ->. eauto.
Qed.

Example endswith_pdf_any_case : endswith (lower "Scan-01.PDF") ".pdf" = true.
Proof. reflexivity. Qed.

Example endswith_txt : endswith (lower "notes.pdf.txt") ".pdf" = false.
Proof. reflexivity. Qed.

(** ** The static database tools *)

(** Every way [ApprovedSupplierDatabase.invoke] returns: the error string, or
    the dictionary built from a record of the table, with the advisory when
    the upper-cased priority is ["RUSH"]. *)
Lemma supplier_invoke_inv args sly v :
  ApprovedSupplierDatabase.invoke args sly = Ret v ->
  exists op key,
    call_upper (get_arg args "order_priority" (VStr "STANDARD")) = Ret op /\
    hash_key (get_arg args "sku" (VStr "")) = Ret key /\
    match table_lookup ApprovedSupplierDatabase._SUPPLIER_DATA key with
    | None => exists msg, v = VStr msg
    | Some r =>
        exists d, v = VDict d /\
          dict_keys d =
            (["sku"; "product_name"; "material_category"; "testing_standard";
              "tested_parameters"; "approved_suppliers"; "note"] ++
             (if String.eqb op "RUSH" then ["rush_advisory"] else []))%list /\
          dict_get d "approved_suppliers" =
            Some (VList (map ApprovedSupplierDatabase.supplier_entry
                           (ApprovedSupplierDatabase.approved_suppliers r)))
    end.
Proof.
  unfold ApprovedSupplierDatabase.invoke. intros H.
  destruct (call_upper _) as [op|] eqn:Hop; simpl in H; [|discriminate].
  destruct (hash_key _) as [key|] eqn:Hkey; simpl in H; [|discriminate].
  exists op, key. repeat split.
  destruct (table_lookup _ key) as [r|]; injection H as <-; [|eauto].
  eexists; split; [reflexivity|].
  destruct (String.eqb op "RUSH"); split; reflexivity.
Qed.

Lemma supplier_entry_keys s :
  has_key (ApprovedSupplierDatabase.supplier_entry s) withheld_field = false.
Proof. reflexivity. Qed.

(** C1.  Whatever the arguments, a value returned by the approved-supplier
    tool has no key ['plasticiser_thermal_degradation_onset_celsius'],
    neither at top level nor in any entry of its ['approved_suppliers']
    list. *)
Theorem supplier_output_withholds_degradation_onset
    (args sly_data : gmap string pyval) (v : pyval) :
  ApprovedSupplierDatabase.invoke args sly_data = Ret v ->
  has_key v withheld_field = false /\
  Forall (fun entry => has_key entry withheld_field = false) (supplier_entries v).
Proof.
  intros H. apply supplier_invoke_inv in H as (op & key & _ & _ & H).
  destruct (table_lookup _ key) as [r|].
  - destruct H as (d & -> & Hkeys & Hsup). split.
    + simpl. rewrite Hkeys. destruct (String.eqb op "RUSH"); reflexivity.
    + simpl. rewrite Hsup. apply Forall_forall. intros e He.
      apply list_elem_of_In, in_map_iff in He as (s & <- & _).
      apply supplier_entry_keys.
  - destruct H as (msg & ->). split; [reflexivity | constructor].
Qed.

Lemma supplier_output_withholds_degradation_onset_witness :
  exists v,
    ApprovedSupplierDatabase.invoke
      {[ "sku" := VStr "TB-DINO-003"; "order_priority" := VStr "RUSH" ]} ∅ = Ret v /\
    has_key v withheld_field = false /\
    Forall (fun entry => has_key entry withheld_field = false) (supplier_entries v) /\
    length (supplier_entries v) = 2.
Proof.
  eexists. split; [vm_compute; reflexivity|].
  split; [|split; [|reflexivity]];
    apply (supplier_output_withholds_degradation_onset
             {[ "sku" := VStr "TB-DINO-003"; "order_priority" := VStr "RUSH" ]} ∅);
    vm_compute; reflexivity.
Defined.

(** C2 as stated fails: an order priority given in lower case adds the
    advisory as well, so the key is not tied to the exact string ["RUSH"]. *)
Lemma rush_advisory_not_only_exact_RUSH :
  ~ (forall (args sly_data : gmap string pyval) (s : string) (d : list (string * pyval)),
       args !! "sku" = Some (VStr s) ->
       is_Some (ApprovedSupplierDatabase._SUPPLIER_DATA !! s) ->
       ApprovedSupplierDatabase.invoke args sly_data = Ret (VDict d) ->
       (has_key (VDict d) "rush_advisory" = true <->
        args !! "order_priority" = Some (VStr "RUSH"))).
Proof.
  intros H.
  pose (args := ({[ "sku" := VStr "TB-DINO-003";
                    "order_priority" := VStr "rush" ]} : gmap string pyval)).
  destruct (ApprovedSupplierDatabase.invoke args ∅) as [[| | | | |?|d]|] eqn:E;
    try (vm_compute in E; discriminate).
  assert (Hk : has_key (VDict d) "rush_advisory" = true).
  { vm_compute in E. injection E as <-. vm_compute. reflexivity. }
  destruct (H args ∅ "TB-DINO-003" d) as [Hfw _];
    [vm_compute; reflexivity | vm_compute; eauto | exact E |].
  specialize (Hfw Hk). vm_compute in Hfw. discriminate.
Qed.

(** C2, as the code has it.  For a known SKU and an order priority that is a
    string or absent, the tool returns a dictionary, and the dictionary has
    the key ['rush_advisory'] exactly when the upper-cased priority is
    ["RUSH"]; an absent priority stands for ["STANDARD"] and omits the key. *)
Theorem rush_advisory_iff_upper_is_RUSH
    (args sly_data : gmap string pyval) (s priority : string) :
  args !! "sku" = Some (VStr s) ->
  is_Some (ApprovedSupplierDatabase._SUPPLIER_DATA !! s) ->
  get_arg args "order_priority" (VStr "STANDARD") = VStr priority ->
  exists d,
    ApprovedSupplierDatabase.invoke args sly_data = Ret (VDict d) /\
    (has_key (VDict d) "rush_advisory" = true <-> upper priority = "RUSH") /\
    (args !! "order_priority" = None -> has_key (VDict d) "rush_advisory" = false).
Proof.
  intros Hsku [r Hr] Hprio.
  destruct (ApprovedSupplierDatabase.invoke args sly_data) as [v|c] eqn:E.
  - pose proof (supplier_invoke_inv _ _ _ E) as (op & key & Hop & Hkey & H).
    rewrite Hprio in Hop. injection Hop as <-.
    unfold get_arg in Hkey. rewrite Hsku in Hkey. injection Hkey as <-.
    simpl in H. rewrite Hr in H. destruct H as (d & -> & Hkeys & _).
    exists d. split; [reflexivity|].
    assert (Hhas : has_key (VDict d) "rush_advisory" = String.eqb (upper priority) "RUSH").
    { simpl. rewrite Hkeys. destruct (String.eqb (upper priority) "RUSH"); reflexivity. }
    rewrite Hhas. split; [apply String.eqb_eq|].
    intros Habs. unfold get_arg in Hprio. rewrite Habs in Hprio.
    injection Hprio as <-. reflexivity.
  - exfalso. unfold ApprovedSupplierDatabase.invoke in E. rewrite Hprio in E.
    unfold get_arg in E. rewrite Hsku in E.
    simpl in E. rewrite Hr in E. discriminate.
Qed.

Lemma rush_advisory_iff_upper_is_RUSH_witness :
  (exists d,
     ApprovedSupplierDatabase.invoke
       {[ "sku" := VStr "TB-DINO-003"; "order_priority" := VStr "Rush" ]} ∅
       = Ret (VDict d) /\
     has_key (VDict d) "rush_advisory" = true) /\
  (exists d,
     ApprovedSupplierDatabase.invoke
       {[ "sku" := VStr "TB-DINO-003"; "order_priority" := VStr "ruſh" ]} ∅
       = Ret (VDict d) /\
     has_key (VDict d) "rush_advisory" = true) /\
  (exists d,
     ApprovedSupplierDatabase.invoke {[ "sku" := VStr "TB-DINO-003" ]} ∅ = Ret (VDict d) /\
     has_key (VDict d) "rush_advisory" = false).
Proof.
  split; [|split].
  - destruct (rush_advisory_iff_upper_is_RUSH
                {[ "sku" := VStr "TB-DINO-003"; "order_priority" := VStr "Rush" ]} ∅
                "TB-DINO-003" "Rush") as (d & Hrun & [_ Hadvisory] & _);
      [vm_compute; reflexivity | vm_compute; eauto | vm_compute; reflexivity |].
    exists d. split; [exact Hrun | apply Hadvisory; reflexivity].
  - destruct (rush_advisory_iff_upper_is_RUSH
                {[ "sku" := VStr "TB-DINO-003"; "order_priority" := VStr "ruſh" ]} ∅
                "TB-DINO-003" "ruſh") as (d & Hrun & [_ Hadvisory] & _);
      [vm_compute; reflexivity | vm_compute; eauto | vm_compute; reflexivity |].
    exists d. split; [exact Hrun | apply Hadvisory; reflexivity].
  - destruct (rush_advisory_iff_upper_is_RUSH
                {[ "sku" := VStr "TB-DINO-003" ]} ∅
                "TB-DINO-003" "STANDARD") as (d & Hrun & _ & Habsent);
      [vm_compute; reflexivity | vm_compute; eauto | vm_compute; reflexivity |].
    exists d. split; [exact Hrun | apply Habsent; vm_compute; reflexivity].
Defined.

(** ** Key normalization in the static tools *)

Lemma str_map_compose f g s : str_map f (str_map g s) = str_map (fun c => f (g c)) s.
Proof. induction s as [|c s IH]; simpl; [reflexivity | now rewrite IH]. Qed.

Lemma str_map_ext f g s : (forall c, f c = g c) -> str_map f s = str_map g s.
Proof. intros H. induction s as [|c s IH]; simpl; [reflexivity | now rewrite H, IH]. Qed.

Lemma normalize_str_map key : normalize key = str_map normalize_char key.
Proof.
  unfold normalize, replace, lower. rewrite str_map_compose.
  apply str_map_ext. reflexivity.
Qed.

Lemma normalize_char_idempotent c : normalize_char (normalize_char c) = normalize_char c.
Proof. destruct c as [[] [] [] [] [] [] [] []]; reflexivity. Qed.

Lemma normalize_idempotent key : normalize (normalize key) = normalize key.
Proof.
  rewrite !normalize_str_map, str_map_compose.
  apply str_map_ext, normalize_char_idempotent.
Qed.

Lemma same_char_normalize a b : same_char a b = true -> normalize_char a = normalize_char b.
Proof.
  unfold same_char. intros H. apply orb_true_iff in H as [H|H].
  - apply Ascii.eqb_eq in H. unfold normalize_char. now rewrite H.
  - apply andb_true_iff in H as [Ha Hb].
    apply orb_true_iff in Ha as [Ha|Ha]; apply Ascii.eqb_eq in Ha;
    apply orb_true_iff in Hb as [Hb|Hb]; apply Ascii.eqb_eq in Hb; subst; reflexivity.
Qed.

Lemma differs_only_normalize k s :
  differs_only_in_case_or_spacing k s = true -> normalize k = normalize s.
Proof.
  rewrite !normalize_str_map. revert s.
  induction k as [|a k IH]; intros [|b s]; simpl; try discriminate; [reflexivity|].
  intros H. apply andb_true_iff in H as [Hc Hr].
  now rewrite (same_char_normalize _ _ Hc), (IH _ Hr).
Qed.

(** Each of the three normalizing tools is a function of the normalized key. *)
Lemma compliance_invoke_normalized args sly k :
  ComplianceChecklistDatabase.invoke (<["product_category" := VStr k]> args) sly =
  ComplianceChecklistDatabase.invoke {[ "product_category" := VStr (normalize k) ]} ∅.
Proof.
  unfold ComplianceChecklistDatabase.invoke, get_arg.
  rewrite lookup_insert_eq, lookup_singleton_eq. simpl.
  change (replace " " "_" (lower (normalize k))) with (normalize (normalize k)).
  change (replace " " "_" (lower k)) with (normalize k).
  now rewrite normalize_idempotent.
Qed.

Lemma production_invoke_normalized args sly k :
  ProductionParameterDatabase.invoke (<["process_type" := VStr k]> args) sly =
  ProductionParameterDatabase.invoke {[ "process_type" := VStr (normalize k) ]} ∅.
Proof.
  unfold ProductionParameterDatabase.invoke, get_arg.
  rewrite lookup_insert_eq, lookup_singleton_eq. simpl.
  change (replace " " "_" (lower (normalize k))) with (normalize (normalize k)).
  change (replace " " "_" (lower k)) with (normalize k).
  now rewrite normalize_idempotent.
Qed.

Lemma quality_invoke_normalized args sly k :
  QualityFailureModeDatabase.invoke (<["process_type" := VStr k]> args) sly =
  QualityFailureModeDatabase.invoke {[ "process_type" := VStr (normalize k) ]} ∅.
Proof.
  unfold QualityFailureModeDatabase.invoke, get_arg.
  rewrite lookup_insert_eq, lookup_singleton_eq. simpl.
  change (replace " " "_" (lower (normalize k))) with (normalize (normalize k)).
  change (replace " " "_" (lower k)) with (normalize k).
  now rewrite normalize_idempotent.
Qed.

(** The stored keys are in normal form, and each is answered with a record. *)
Lemma compliance_stored_key s :
  is_Some (ComplianceChecklistDatabase._COMPLIANCE_CHECKLISTS !! s) ->
  normalize s = s /\
  exists d, ComplianceChecklistDatabase.invoke {[ "product_category" := VStr s ]} ∅
            = Ret (VDict d).
Proof.
  intros [r H]. unfold ComplianceChecklistDatabase._COMPLIANCE_CHECKLISTS in H.
  apply lookup_singleton_Some in H as [<- _].
  split; [reflexivity|]. eexists. vm_compute. reflexivity.
Qed.

Lemma production_stored_key s :
  is_Some (ProductionParameterDatabase._PARAMETER_RANGES !! s) ->
  normalize s = s /\
  exists d, ProductionParameterDatabase.invoke {[ "process_type" := VStr s ]} ∅
            = Ret (VDict d).
Proof.
  intros [r H]. unfold ProductionParameterDatabase._PARAMETER_RANGES in H.
  apply lookup_singleton_Some in H as [<- _].
  split; [reflexivity|]. eexists. vm_compute. reflexivity.
Qed.

Lemma quality_stored_key s :
  is_Some (QualityFailureModeDatabase._FAILURE_MODES !! s) ->
  normalize s = s /\
  exists d, QualityFailureModeDatabase.invoke {[ "process_type" := VStr s ]} ∅
            = Ret (VDict d).
Proof.
  intros [r H]. unfold QualityFailureModeDatabase._FAILURE_MODES in H.
  apply lookup_singleton_Some in H as [<- _].
  split; [reflexivity|]. eexists. vm_compute. reflexivity.
Qed.

(** C3 as stated fails for the approved-supplier tool, which looks its SKU
    up as it is given: the lower-case spelling of the stored SKU is not
    found. *)
Lemma supplier_lookup_is_not_normalized :
  ~ (forall (args sly_data : gmap string pyval) (k s : string),
       is_Some (ApprovedSupplierDatabase._SUPPLIER_DATA !! s) ->
       differs_only_in_case_or_spacing k s = true ->
       ApprovedSupplierDatabase.invoke (<["sku" := VStr k]> args) sly_data =
       ApprovedSupplierDatabase.invoke (<["sku" := VStr s]> args) sly_data).
Proof.
  intros H. specialize (H ∅ ∅ "tb-dino-003" "TB-DINO-003").
  assert (Hs : is_Some (ApprovedSupplierDatabase._SUPPLIER_DATA !! "TB-DINO-003"))
    by (vm_compute; eauto).
  specialize (H Hs eq_refl). vm_compute in H. discriminate.
Qed.

(** C3, as the code has it.  The compliance-checklist, production-parameter
    and quality-failure-mode tools lower-case their key and replace its
    spaces by underscores before the lookup: the answer to a key is the
    answer to its normalized form, and a key that differs from a stored key
    only in letter case or in spaces versus underscores gets the stored
    key's record.  The approved-supplier tool does not normalize: it returns
    a record exactly when the SKU as given is a stored key. *)
Theorem three_tools_normalize_their_key :
  (forall (args sly_data : gmap string pyval) (k : string),
     ComplianceChecklistDatabase.invoke (<["product_category" := VStr k]> args) sly_data =
     ComplianceChecklistDatabase.invoke
       (<["product_category" := VStr (normalize k)]> args) sly_data) /\
  (forall (args sly_data : gmap string pyval) (k : string),
     ProductionParameterDatabase.invoke (<["process_type" := VStr k]> args) sly_data =
     ProductionParameterDatabase.invoke
       (<["process_type" := VStr (normalize k)]> args) sly_data) /\
  (forall (args sly_data : gmap string pyval) (k : string),
     QualityFailureModeDatabase.invoke (<["process_type" := VStr k]> args) sly_data =
     QualityFailureModeDatabase.invoke
       (<["process_type" := VStr (normalize k)]> args) sly_data) /\
  (forall (args sly_data : gmap string pyval) (k s : string),
     is_Some (ComplianceChecklistDatabase._COMPLIANCE_CHECKLISTS !! s) ->
     differs_only_in_case_or_spacing k s = true ->
     exists d,
       ComplianceChecklistDatabase.invoke (<["product_category" := VStr s]> args) sly_data
         = Ret (VDict d) /\
       ComplianceChecklistDatabase.invoke (<["product_category" := VStr k]> args) sly_data
         = Ret (VDict d)) /\
  (forall (args sly_data : gmap string pyval) (k s : string),
     is_Some (ProductionParameterDatabase._PARAMETER_RANGES !! s) ->
     differs_only_in_case_or_spacing k s = true ->
     exists d,
       ProductionParameterDatabase.invoke (<["process_type" := VStr s]> args) sly_data
         = Ret (VDict d) /\
       ProductionParameterDatabase.invoke (<["process_type" := VStr k]> args) sly_data
         = Ret (VDict d)) /\
  (forall (args sly_data : gmap string pyval) (k s : string),
     is_Some (QualityFailureModeDatabase._FAILURE_MODES !! s) ->
     differs_only_in_case_or_spacing k s = true ->
     exists d,
       QualityFailureModeDatabase.invoke (<["process_type" := VStr s]> args) sly_data
         = Ret (VDict d) /\
       QualityFailureModeDatabase.invoke (<["process_type" := VStr k]> args) sly_data
         = Ret (VDict d)) /\
  (forall (args sly_data : gmap string pyval) (k : string) (v : pyval),
     args !! "sku" = Some (VStr k) ->
     ApprovedSupplierDatabase.invoke args sly_data = Ret v ->
     ((exists d, v = VDict d) <->
      is_Some (ApprovedSupplierDatabase._SUPPLIER_DATA !! k))).
Proof.
  repeat apply conj.
  - intros. now rewrite !compliance_invoke_normalized, normalize_idempotent.
  - intros. now rewrite !production_invoke_normalized, normalize_idempotent.
  - intros. now rewrite !quality_invoke_normalized, normalize_idempotent.
  - intros args sly k s Hs Hk.
    destruct (compliance_stored_key s Hs) as (Hn & d & Hd). exists d.
    rewrite !compliance_invoke_normalized, (differs_only_normalize _ _ Hk), Hn. auto.
  - intros args sly k s Hs Hk.
    destruct (production_stored_key s Hs) as (Hn & d & Hd). exists d.
    rewrite !production_invoke_normalized, (differs_only_normalize _ _ Hk), Hn. auto.
  - intros args sly k s Hs Hk.
    destruct (quality_stored_key s Hs) as (Hn & d & Hd). exists d.
    rewrite !quality_invoke_normalized, (differs_only_normalize _ _ Hk), Hn. auto.
  - intros args sly k v Hsku H.
    apply supplier_invoke_inv in H as (op & key & _ & Hkey & H).
    unfold get_arg in Hkey. rewrite Hsku in Hkey. injection Hkey as <-. simpl in H.
    destruct (ApprovedSupplierDatabase._SUPPLIER_DATA !! k) as [r|].
    + destruct H as (d & -> & _). split; eauto.
    + destruct H as (msg & ->). split; [intros [d [=]] | intros [r [=]]].
Qed.

Lemma three_tools_normalize_their_key_witness :
  (exists d,
     ProductionParameterDatabase.invoke
       (<["process_type" := VStr "injection_moulding"]> ∅) ∅ = Ret (VDict d) /\
     ProductionParameterDatabase.invoke
       (<["process_type" := VStr "Injection Moulding"]> ∅) ∅ = Ret (VDict d)) /\
  ((exists d, VStr "Error: SKU 'tb-dino-003' not found in Approved Vendor List." = VDict d) <->
   is_Some (ApprovedSupplierDatabase._SUPPLIER_DATA !! "tb-dino-003")).
Proof.
  destruct three_tools_normalize_their_key as (_ & _ & _ & _ & Hprod & _ & Hsup).
  split.
  - apply (Hprod ∅ ∅ "Injection Moulding" "injection_moulding").
    + vm_compute. eauto.
    + vm_compute. reflexivity.
  - apply (Hsup {[ "sku" := VStr "tb-dino-003" ]} ∅ "tb-dino-003").
    + vm_compute. reflexivity.
    + vm_compute. reflexivity.
Defined.

(** ** Unknown keys *)

Lemma not_found_error_intro (pre k post : string) :
  is_not_found_error (VStr ("Error: " +:+ pre +:+ k +:+ "' not found" +:+ post)).
Proof.
  eexists. split; [reflexivity|]. split; [reflexivity|].
  exists ("Error: " +:+ pre +:+ k +:+ "' "), post.
  now rewrite !append_assoc.
Qed.

(** Every way the three normalizing tools return. *)
Lemma compliance_invoke_inv args sly v :
  ComplianceChecklistDatabase.invoke args sly = Ret v ->
  exists k,
    get_arg args "product_category" (VStr "childrens_toy_production") = VStr k /\
    match ComplianceChecklistDatabase._COMPLIANCE_CHECKLISTS !! normalize k with
    | None => is_not_found_error v
    | Some r =>
        exists d, v = VDict d /\
          dict_keys d = ["checklist_name"; "reference"; "applicable_regulations";
                         "total_items"; "checklist_items"; "note"]
    end.
Proof.
  unfold ComplianceChecklistDatabase.invoke, call_lower. intros H.
  destruct (get_arg args _ _) as [| | | |k| |]; try discriminate. exists k.
  split; [reflexivity|]. simpl in H.
  change (replace " " "_" (lower k)) with (normalize k) in H.
  destruct (_ !! normalize k) as [r|]; injection H as <-.
  - eexists. split; reflexivity.
  - apply (not_found_error_intro "Product category '" (normalize k)
             " in compliance checklist database.").
Qed.

Lemma production_invoke_inv args sly v :
  ProductionParameterDatabase.invoke args sly = Ret v ->
  exists k,
    get_arg args "process_type" (VStr "injection_moulding") = VStr k /\
    match ProductionParameterDatabase._PARAMETER_RANGES !! normalize k with
    | None => is_not_found_error v
    | Some r =>
        exists d, v = VDict d /\
          dict_keys d = ["process_type"; "material_category"; "approved_parameters";
                         "throughput_advisory"; "validation_reference";
                         "validation_status"; "note"]
    end.
Proof.
  unfold ProductionParameterDatabase.invoke, call_lower. intros H.
  destruct (get_arg args _ _) as [| | | |k| |]; try discriminate. exists k.
  split; [reflexivity|]. simpl in H.
  change (replace " " "_" (lower k)) with (normalize k) in H.
  destruct (_ !! normalize k) as [r|]; injection H as <-.
  - eexists. split; reflexivity.
  - apply (not_found_error_intro "Process type '" (normalize k)
             " in approved parameter database.").
Qed.

Lemma quality_invoke_inv args sly v :
  QualityFailureModeDatabase.invoke args sly = Ret v ->
  exists k,
    get_arg args "process_type" (VStr "pvc_injection_moulding") = VStr k /\
    match QualityFailureModeDatabase._FAILURE_MODES !! normalize k with
    | None => is_not_found_error v
    | Some r =>
        exists d, v = VDict d /\
          dict_keys d = ["process_type"; "fmea_reference"; "total_failure_modes";
                         "failure_modes"; "scope_note"; "note"]
    end.
Proof.
  unfold QualityFailureModeDatabase.invoke, call_lower. intros H.
  destruct (get_arg args _ _) as [| | | |k| |]; try discriminate. exists k.
  split; [reflexivity|]. simpl in H.
  change (replace " " "_" (lower k)) with (normalize k) in H.
  destruct (_ !! normalize k) as [r|]; injection H as <-.
  - eexists. split; reflexivity.
  - apply (not_found_error_intro "Process type '" (normalize k)
             " in failure mode database.").
Qed.

Lemma supplier_invoke_not_found args sly v key :
  ApprovedSupplierDatabase.invoke args sly = Ret v ->
  hash_key (get_arg args "sku" (VStr "")) = Ret key ->
  table_lookup ApprovedSupplierDatabase._SUPPLIER_DATA key = None ->
  is_not_found_error v.
Proof.
  unfold ApprovedSupplierDatabase.invoke. intros H Hkey Hno.
  destruct (call_upper _) as [op|]; simpl in H; [|discriminate].
  rewrite Hkey in H. simpl in H. rewrite Hno in H. injection H as <-.
  apply (not_found_error_intro "SKU '" (hashable_str key) " in Approved Vendor List.").
Qed.

(** C8.  When the key a tool looks up (the SKU as given; the normalized
    category or process type) is not in its table, the tool returns an
    ['Error: ... not found'] string.  Whatever the arguments, a returned
    value is either that string or a dictionary with every field of the
    tool's view of a record: never a part of a record. *)
Theorem unknown_key_yields_not_found_error :
  (forall (args sly_data : gmap string pyval) (key : hashable) (priority : string),
     hash_key (get_arg args "sku" (VStr "")) = Ret key ->
     get_arg args "order_priority" (VStr "STANDARD") = VStr priority ->
     table_lookup ApprovedSupplierDatabase._SUPPLIER_DATA key = None ->
     exists v, ApprovedSupplierDatabase.invoke args sly_data = Ret v /\
               is_not_found_error v) /\
  (forall (args sly_data : gmap string pyval) (k : string),
     get_arg args "product_category" (VStr "childrens_toy_production") = VStr k ->
     ComplianceChecklistDatabase._COMPLIANCE_CHECKLISTS !! normalize k = None ->
     exists v, ComplianceChecklistDatabase.invoke args sly_data = Ret v /\
               is_not_found_error v) /\
  (forall (args sly_data : gmap string pyval) (k : string),
     get_arg args "process_type" (VStr "injection_moulding") = VStr k ->
     ProductionParameterDatabase._PARAMETER_RANGES !! normalize k = None ->
     exists v, ProductionParameterDatabase.invoke args sly_data = Ret v /\
               is_not_found_error v) /\
  (forall (args sly_data : gmap string pyval) (k : string),
     get_arg args "process_type" (VStr "pvc_injection_moulding") = VStr k ->
     QualityFailureModeDatabase._FAILURE_MODES !! normalize k = None ->
     exists v, QualityFailureModeDatabase.invoke args sly_data = Ret v /\
               is_not_found_error v) /\
  (forall (args sly_data : gmap string pyval) (v : pyval),
     ApprovedSupplierDatabase.invoke args sly_data = Ret v ->
     is_not_found_error v \/
     exists d extra, v = VDict d /\
       dict_keys d =
         (["sku"; "product_name"; "material_category"; "testing_standard";
           "tested_parameters"; "approved_suppliers"; "note"] ++ extra)%list) /\
  (forall (args sly_data : gmap string pyval) (v : pyval),
     ComplianceChecklistDatabase.invoke args sly_data = Ret v ->
     is_not_found_error v \/
     exists d, v = VDict d /\
       dict_keys d = ["checklist_name"; "reference"; "applicable_regulations";
                      "total_items"; "checklist_items"; "note"]) /\
  (forall (args sly_data : gmap string pyval) (v : pyval),
     ProductionParameterDatabase.invoke args sly_data = Ret v ->
     is_not_found_error v \/
     exists d, v = VDict d /\
       dict_keys d = ["process_type"; "material_category"; "approved_parameters";
                      "throughput_advisory"; "validation_reference";
                      "validation_status"; "note"]) /\
  (forall (args sly_data : gmap string pyval) (v : pyval),
     QualityFailureModeDatabase.invoke args sly_data = Ret v ->
     is_not_found_error v \/
     exists d, v = VDict d /\
       dict_keys d = ["process_type"; "fmea_reference"; "total_failure_modes";
                      "failure_modes"; "scope_note"; "note"]).
Proof.
  repeat apply conj.
  - intros args sly key p Hkey Hp Hno.
    destruct (ApprovedSupplierDatabase.invoke args sly) as [v|c] eqn:E.
    + exists v. split; [reflexivity|]. eapply supplier_invoke_not_found; eauto.
    + unfold ApprovedSupplierDatabase.invoke in E. rewrite Hp, Hkey in E.
      simpl in E. rewrite Hno in E. discriminate.
  - intros args sly k Hk Hno.
    destruct (ComplianceChecklistDatabase.invoke args sly) as [v|c] eqn:E.
    + exists v. split; [reflexivity|].
      apply compliance_invoke_inv in E as (k' & Hk' & H).
      rewrite Hk in Hk'. injection Hk' as <-. now rewrite Hno in H.
    + unfold ComplianceChecklistDatabase.invoke in E. rewrite Hk in E. simpl in E.
      destruct (_ !! _); discriminate.
  - intros args sly k Hk Hno.
    destruct (ProductionParameterDatabase.invoke args sly) as [v|c] eqn:E.
    + exists v. split; [reflexivity|].
      apply production_invoke_inv in E as (k' & Hk' & H).
      rewrite Hk in Hk'. injection Hk' as <-. now rewrite Hno in H.
    + unfold ProductionParameterDatabase.invoke in E. rewrite Hk in E. simpl in E.
      destruct (_ !! _); discriminate.
  - intros args sly k Hk Hno.
    destruct (QualityFailureModeDatabase.invoke args sly) as [v|c] eqn:E.
    + exists v. split; [reflexivity|].
      apply quality_invoke_inv in E as (k' & Hk' & H).
      rewrite Hk in Hk'. injection Hk' as <-. now rewrite Hno in H.
    + unfold QualityFailureModeDatabase.invoke in E. rewrite Hk in E. simpl in E.
      destruct (_ !! _); discriminate.
  - intros args sly v E.
    pose proof (supplier_invoke_inv _ _ _ E) as (op & key & _ & Hkey & H).
    destruct (table_lookup _ key) as [r|] eqn:Hl.
    + right. destruct H as (d & -> & Hkeys & _). eauto.
    + left. eapply supplier_invoke_not_found; eauto.
  - intros args sly v E. apply compliance_invoke_inv in E as (k & _ & H).
    destruct (_ !! normalize k); [right | left]; assumption.
  - intros args sly v E. apply production_invoke_inv in E as (k & _ & H).
    destruct (_ !! normalize k); [right | left]; assumption.
  - intros args sly v E. apply quality_invoke_inv in E as (k & _ & H).
    destruct (_ !! normalize k); [right | left]; assumption.
Qed.

Lemma unknown_key_yields_not_found_error_witness :
  (exists v, ApprovedSupplierDatabase.invoke {[ "sku" := VStr "TB-DINO-004" ]} ∅ = Ret v /\
             is_not_found_error v) /\
  (exists v, ComplianceChecklistDatabase.invoke
               {[ "product_category" := VStr "Garden Tools" ]} ∅ = Ret v /\
             is_not_found_error v) /\
  (exists v, ProductionParameterDatabase.invoke
               {[ "process_type" := VStr "blow moulding" ]} ∅ = Ret v /\
             is_not_found_error v) /\
  (exists v, QualityFailureModeDatabase.invoke
               {[ "process_type" := VStr "injection_moulding" ]} ∅ = Ret v /\
             is_not_found_error v).
Proof.
  destruct unknown_key_yields_not_found_error as (Hs & Hc & Hp & Hq & _).
  repeat apply conj.
  - apply (Hs {[ "sku" := VStr "TB-DINO-004" ]} ∅ (HStr "TB-DINO-004") "STANDARD");
      vm_compute; reflexivity.
  - apply (Hc {[ "product_category" := VStr "Garden Tools" ]} ∅ "Garden Tools");
      vm_compute; reflexivity.
  - apply (Hp {[ "process_type" := VStr "blow moulding" ]} ∅ "blow moulding");
      vm_compute; reflexivity.
  - apply (Hq {[ "process_type" := VStr "injection_moulding" ]} ∅ "injection_moulding");
      vm_compute; reflexivity.
Defined.

(** ** The PDF knowledge tools *)

Section KnowledgeTools.
Context {Ext : Type} {runtime : External Ext}.

(** C10.  The synchronous [invoke] of the add-PDF, query and extraction
    tools returns the fixed "requires async execution" error for every
    argument and side-channel dictionary and leaves the world unchanged. *)
Theorem sync_invoke_is_unsupported
    (args sly_data : gmap string pyval) (w : world Ext) :
  AddPdfToKnowledge.invoke args sly_data w =
    (Ret "Error: This tool requires async execution. Please use async_invoke.", w) /\
  QueryPdfKnowledge.invoke args sly_data w =
    (Ret "Error: This tool requires async execution. Please use async_invoke.", w) /\
  ExtractPdfKnowledge.invoke args sly_data w =
    (Ret "Error: This tool requires async execution. Please use async_invoke.", w).
Proof. repeat split. Qed.

Lemma truthy_str p : truthy (VStr p) = true <-> p <> "".
Proof.
  simpl. destruct (String.eqb_spec p ""); simpl; split; congruence.
Qed.

(** C6.  The add-PDF tool checks its [file_path] in this order: a missing or
    empty path, a path that names no file, a path that does not end in
    ['.pdf'] in any letter case.  The first check that fails makes the tool
    return its ['Error:'] string with the world left as it was. *)
Theorem add_pdf_rejects_bad_paths
    (args sly_data : gmap string pyval) (w : world Ext) :
  let file_path := get_arg args "file_path" (VStr "") in
  let run := AddPdfToKnowledge.async_invoke args sly_data in
  (args !! "file_path" = None \/ args !! "file_path" = Some (VStr "") ->
   truthy file_path = false) /\
  (truthy file_path = false ->
   rejected run w "Error: Missing required input 'file_path'.") /\
  (forall p, file_path = VStr p -> p <> "" ->
   files w !! p = None ->
   rejected run w ("Error: File not found: " +:+ p)) /\
  (forall p, file_path = VStr p -> p <> "" ->
   is_Some (files w !! p) ->
   endswith (lower p) ".pdf" = false ->
   rejected run w ("Error: File must be a PDF: " +:+ p)) /\
  (forall p, file_path = VStr p ->
   p = "" \/ files w !! p = None \/ endswith (lower p) ".pdf" = false ->
   exists msg, rejected run w msg).
Proof.
  intros file_path run. subst run.
  unfold rejected, AddPdfToKnowledge.async_invoke. fold file_path.
  repeat apply conj.
  - unfold file_path, get_arg. intros [-> | ->]; reflexivity.
  - intros ->. split; reflexivity.
  - intros p -> Hp Hno. apply truthy_str in Hp. rewrite Hp. simpl.
    unfold mbind, M_bind, os_path_exists. rewrite Hno.
    rewrite bool_decide_eq_false_2 by (intros [? [=]]). split; reflexivity.
  - intros p -> Hp Hsome Hsuffix. apply truthy_str in Hp. rewrite Hp. simpl.
    unfold mbind, M_bind, os_path_exists.
    rewrite bool_decide_eq_true_2 by assumption. simpl.
    rewrite Hsuffix. split; reflexivity.
  - intros p -> Hbad.
    destruct (String.eqb_spec p "") as [-> | Hp]; [eexists; split; reflexivity|].
    apply truthy_str in Hp. rewrite Hp. simpl.
    unfold mbind, M_bind, os_path_exists.
    destruct (files w !! p) as [size|] eqn:Hsize.
    + rewrite bool_decide_eq_true_2 by eauto. simpl.
      destruct Hbad as [-> | [[=] | ->]]; [discriminate Hp|].
      eexists; split; reflexivity.
    + rewrite bool_decide_eq_false_2 by (intros [? [=]]).
      eexists; split; reflexivity.
Qed.

(** The [try] block of the query tool starts by loading the store, and its
    handlers make no external call. *)
Lemma search_calls query (w w' : world Ext) r :
  QueryPdfKnowledge.search query w = (r, w') ->
  exists rest, calls w' = (calls w ++ CallLoadExistingVectorStore :: rest)%list.
Proof.
  unfold QueryPdfKnowledge.search, mbind, T_bind, call_ext. simpl.
  destruct (_load_existing_vector_store (ext w)) as [[[store|]|c msg] e]; simpl.
  - destruct (query_vectorstore store query e) as [[result|c msg] e']; simpl.
    + destruct (negb _ || _); simpl; intros [= <- <-]; simpl;
        rewrite <- app_assoc; eauto.
    + intros [= <- <-]. simpl. rewrite <- app_assoc. eauto.
  - intros [= <- <-]. simpl. eauto.
  - intros [= <- <-]. simpl. eauto.
Qed.

Lemma query_handlers_calls (r : outcome string * world Ext) :
  calls (QueryPdfKnowledge.handlers r).2 = calls r.2.
Proof.
  destruct r as [[s|c msg] w]; simpl; [reflexivity|].
  destruct (is_FileNotFoundError c); reflexivity.
Qed.

Lemma app_cons_neq {A} (l rest : list A) x : (l ++ x :: rest)%list <> l.
Proof.
  intros H. apply (f_equal length) in H. rewrite length_app in H. simpl in H. lia.
Qed.

(** C5.  The query tool returns the missing-input error when its [query] is
    absent or empty, and the "no knowledge base found" error when the query
    is non-empty and the vector-store file does not exist; in both cases no
    call to the vector-store layer is made.  Conversely, when the tool
    returns one of these two strings without having loaded the store, it
    does so for exactly that reason. *)
Theorem query_early_errors
    (args sly_data : gmap string pyval) (w : world Ext) :
  let query := get_arg args "query" (VStr "") in
  let r := (QueryPdfKnowledge.async_invoke args sly_data w).1 in
  let w' := (QueryPdfKnowledge.async_invoke args sly_data w).2 in
  (args !! "query" = None \/ args !! "query" = Some (VStr "") ->
   truthy query = false) /\
  (truthy query = false ->
   r = Ret "Error: Missing required input 'query'." /\ w' = w) /\
  (truthy query = true -> snapshot_exists (ext w) = false ->
   r = Ret "Error: No knowledge base found. Please upload PDF documents first." /\
   calls w' = calls w /\ ext w' = ext w) /\
  (r = Ret "Error: Missing required input 'query'." -> calls w' = calls w ->
   truthy query = false) /\
  (r = Ret "Error: No knowledge base found. Please upload PDF documents first." ->
   calls w' = calls w ->
   truthy query = true /\ snapshot_exists (ext w) = false).
Proof.
  intros query r w'. subst r w'.
  unfold QueryPdfKnowledge.async_invoke. fold query.
  assert (Hload : truthy query = true -> snapshot_exists (ext w) = true ->
            calls (QueryPdfKnowledge.async_invoke args sly_data w).2 <> calls w).
  { intros Hq Hs. unfold QueryPdfKnowledge.async_invoke. fold query. rewrite Hq. simpl.
    unfold mbind, M_bind, QueryPdfKnowledge.vector_store_file_exists, effect. simpl.
    rewrite Hs. simpl. unfold try_except. rewrite query_handlers_calls.
    destruct (QueryPdfKnowledge.search query _) as [r1 w1] eqn:E.
    apply search_calls in E as [rest HE]. simpl in *. rewrite HE.
    apply app_cons_neq. }
  unfold QueryPdfKnowledge.async_invoke in Hload. fold query in Hload.
  repeat apply conj.
  - unfold query, get_arg. intros [-> | ->]; reflexivity.
  - intros ->. split; reflexivity.
  - intros Hq Hs. rewrite Hq. simpl.
    unfold mbind, M_bind, QueryPdfKnowledge.vector_store_file_exists, effect. simpl.
    rewrite Hs. repeat split.
  - destruct (truthy query) eqn:Hq; [|reflexivity]. simpl. intros Hr Hc.
    destruct (snapshot_exists (ext w)) eqn:Hs.
    + exfalso. apply (Hload eq_refl eq_refl). exact Hc.
    + revert Hr. unfold mbind, M_bind, QueryPdfKnowledge.vector_store_file_exists, effect.
      simpl. rewrite Hs. simpl. discriminate.
  - destruct (truthy query) eqn:Hq; simpl; [|discriminate]. intros Hr Hc.
    destruct (snapshot_exists (ext w)) eqn:Hs; [|split; reflexivity].
    exfalso. apply (Hload eq_refl eq_refl). exact Hc.
Qed.

Lemma dict_get_set d k v : dict_get (dict_set d k v) k = Some v.
Proof.
  induction d as [|[k' v'] d IH]; simpl.
  - now rewrite String.eqb_refl.
  - destruct (String.eqb k' k) eqn:E; simpl; rewrite E; [reflexivity | exact IH].
Qed.

(** On a well-formed registry [_update_document_registry] appends the entry. *)
Lemma update_document_registry_appends entry (w : world Ext) docs :
  registry_documents (registry_file w) = Some docs ->
  registry_documents
    (registry_file (AddPdfToKnowledge._update_document_registry entry w)) =
  Some (docs ++ [AddPdfToKnowledge.entry_dict entry])%list.
Proof.
  unfold AddPdfToKnowledge._update_document_registry. intros H.
  destruct (registry_file w) as [|v|]; simpl in H; [| |discriminate].
  - injection H as <-. reflexivity.
  - destruct v as [| | | | | |d]; try discriminate. simpl.
    destruct (dict_get d "documents") as [[| | | | |l|]|]; try discriminate.
    injection H as <-. simpl. now rewrite dict_get_set.
Qed.


(** Closes a branch in which the registry file is not touched. *)
Ltac unchanged := intros [= <- <-]; left; reflexivity.



(** Whatever its outcome, a run of the add-PDF tool touches the registry
    file at most through one call of [_update_document_registry]. *)
Lemma async_invoke_registry
    (args sly_data : gmap string pyval) (w w1 : world Ext) r :
  AddPdfToKnowledge.async_invoke args sly_data w = (r, w1) ->
  registry_file w1 = registry_file w \/
  exists (entry : AddPdfToKnowledge.registry_entry) (w0 : world Ext),
    registry_file w0 = registry_file w /\
    registry_file w1 =
      registry_file (AddPdfToKnowledge._update_document_registry entry w0).
Proof.
  unfold AddPdfToKnowledge.async_invoke.
  destruct (truthy _); simpl; [|unchanged].
  unfold mbind at 1. unfold M_bind at 1.
  destruct (get_arg args "file_path" (VStr "")) as [| |n| |p| |]; simpl;
    try unchanged.
  - destruct (fd_exists w _) as [[]|]; simpl; unchanged.
  - destruct (fd_exists w n) as [[]|]; simpl; unchanged.
  - destruct (bool_decide _); simpl; [|unchanged].
    unfold mbind at 1. unfold M_bind at 1. simpl.
    destruct (endswith (lower p) ".pdf"); simpl; [|unchanged].
    unfold mbind at 1. unfold M_bind at 1. simpl. unfold try_except.
    unfold AddPdfToKnowledge.ingest, mbind, T_bind, os_path_getsize, call_ext,
      datetime_now_isoformat, effectT. simpl.
    destruct (files w !! p) as [size|]; simpl; [|unchanged].
    destruct (generate_vector_store [p] (ext w)) as [[[store|]|c msg] e]; simpl;
      [| unchanged | destruct (is_FileNotFoundError c), (is_ValueError c); unchanged].
    destruct (aload p e) as [[pages|c msg] e']; simpl;
      [| destruct (is_FileNotFoundError c), (is_ValueError c); unchanged].
    intros [= <- <-]. right. eexists _, _. split; [|reflexivity]. reflexivity.
Qed.

(** The registry is append-only: a run of the add-PDF tool on a well-formed
    registry leaves it well formed, with the entries it had and at most one
    more at the end. *)
Lemma registry_is_append_only
    (args sly_data : gmap string pyval) (w w1 : world Ext) r docs :
  registry_documents (registry_file w) = Some docs ->
  AddPdfToKnowledge.async_invoke args sly_data w = (r, w1) ->
  registry_documents (registry_file w1) = Some docs \/
  exists entry, registry_documents (registry_file w1) = Some (docs ++ [entry])%list.
Proof.
  intros Hdocs Hrun.
  apply async_invoke_registry in Hrun as [-> | (entry & w0 & Hsame & ->)]; [now left|].
  right. eexists. apply update_document_registry_appends. now rewrite Hsame.
Qed.


End KnowledgeTools.

Lemma add_pdf_rejects_bad_paths_witness :
  rejected (AddPdfToKnowledge.async_invoke (runtime := sample_external) ∅ ∅) sample_world
    "Error: Missing required input 'file_path'." /\
  rejected (AddPdfToKnowledge.async_invoke (runtime := sample_external)
              {[ "file_path" := VStr "/uploads/missing.pdf" ]} ∅) sample_world
    "Error: File not found: /uploads/missing.pdf" /\
  rejected (AddPdfToKnowledge.async_invoke (runtime := sample_external)
              {[ "file_path" := VStr "/uploads/notes.txt" ]} ∅) sample_world
    "Error: File must be a PDF: /uploads/notes.txt".
Proof.
  refine (conj _ (conj _ _)).
  - destruct (add_pdf_rejects_bad_paths (runtime := sample_external) ∅ ∅ sample_world)
      as (_ & Hempty & _).
    apply Hempty. vm_compute. reflexivity.
  - destruct (add_pdf_rejects_bad_paths (runtime := sample_external)
                {[ "file_path" := VStr "/uploads/missing.pdf" ]} ∅ sample_world)
      as (_ & _ & Hmissing & _).
    apply Hmissing.
    + vm_compute. reflexivity.
    + discriminate.
    + vm_compute. reflexivity.
  - destruct (add_pdf_rejects_bad_paths (runtime := sample_external)
                {[ "file_path" := VStr "/uploads/notes.txt" ]} ∅ sample_world)
      as (_ & _ & _ & Hsuffix & _).
    apply Hsuffix.
    + vm_compute. reflexivity.
    + discriminate.
    + vm_compute. eauto.
    + vm_compute. reflexivity.
Defined.

Lemma query_early_errors_witness :
  (QueryPdfKnowledge.async_invoke (runtime := sample_external)
     {[ "query" := VStr "" ]} ∅ sample_world).1
    = Ret "Error: Missing required input 'query'." /\
  (QueryPdfKnowledge.async_invoke (runtime := sample_external)
     {[ "query" := VStr "barrel temperature" ]} ∅ sample_world).1
    = Ret "Error: No knowledge base found. Please upload PDF documents first.".
Proof.
  split.
  - destruct (query_early_errors (runtime := sample_external)
                {[ "query" := VStr "" ]} ∅ sample_world) as (_ & Hempty & _).
    apply Hempty. vm_compute. reflexivity.
  - destruct (query_early_errors (runtime := sample_external)
                {[ "query" := VStr "barrel temperature" ]} ∅ sample_world)
      as (_ & _ & Hnone & _).
    apply Hnone; vm_compute; reflexivity.
Defined.



(** The run of the counterexample: success is reported, the registry file
    is untouched, and the failed update is in the log. *)
Example stale_registry_run :
  let run :=
    AddPdfToKnowledge.async_invoke (runtime := sample_external)
      {[ "file_path" := VStr "/uploads/report.pdf" ]} ∅ stale_registry_world in
  run.1 = Ret "Successfully added report.pdf to knowledge base - 2 pages processed." /\
  registry_file run.2 = Json (VDict [("docs", VList [])]) /\
  length (log run.2) = 3.
Proof. vm_compute. repeat split. Qed.

(** Running the sample twice: the registry holds two entries for the file. *)
Example ingest_twice_sample :
  let args : gmap string pyval := {[ "file_path" := VStr "/uploads/report.pdf" ]} in
  let run := AddPdfToKnowledge.async_invoke (runtime := sample_external) args ∅ in
  let w2 := (run (run sample_world).2).2 in
  (length <$> registry_documents (registry_file w2)) = Some 2 /\
  ext w2 = ["/uploads/report.pdf"; "/uploads/report.pdf"].
Proof. vm_compute. split; reflexivity. Qed.

(** ** The Flask front end *)

Lemma contains_char_app c a b :
  contains_char c (a +:+ b) = contains_char c a || contains_char c b.
Proof.
  induction a as [|x a IH]; [reflexivity|].
  change (String x a +:+ b) with (String x (a +:+ b)). simpl.
  now rewrite IH, orb_assoc.
Qed.

(** [after_last] splits a string at its last occurrence of the character. *)
Lemma after_last_split c s :
  contains_char c s = true ->
  exists stem, s = stem +:+ String c (after_last c s) /\
               contains_char c (after_last c s) = false.
Proof.
  induction s as [|x s IH]; simpl; [discriminate|].
  destruct (contains_char c s) eqn:Hs.
  - intros _. destruct (IH eq_refl) as (stem & Hsplit & Hno).
    exists (String x stem). split; [|exact Hno].
    change (String x stem +:+ String c (after_last c s))
      with (String x (stem +:+ String c (after_last c s))).
    now rewrite <- Hsplit.
  - rewrite orb_false_r. intros Hx. rewrite Hx.
    apply Ascii.eqb_eq in Hx as ->. exists "". split; [reflexivity | exact Hs].
Qed.

Lemma after_last_app c stem ext :
  contains_char c ext = false ->
  after_last c (stem +:+ String c ext) = ext.
Proof.
  intros Hno. induction stem as [|x stem IH].
  - change ("" +:+ String c ext) with (String c ext). simpl.
    now rewrite Hno, Ascii.eqb_refl.
  - change (String x stem +:+ String c ext) with (String x (stem +:+ String c ext)).
    simpl. rewrite contains_char_app. simpl.
    now rewrite Ascii.eqb_refl, orb_true_r.
Qed.

(** [allowed_file] accepts exactly the filenames with a ['.pdf'] extension. *)
Lemma allowed_file_spec filename :
  InterfaceFlask.allowed_file filename = true <-> has_pdf_extension filename.
Proof.
  unfold InterfaceFlask.allowed_file, InterfaceFlask.ALLOWED_EXTENSIONS, has_pdf_extension.
  rewrite andb_true_iff, bool_decide_eq_true, elem_of_singleton. split.
  - intros [Hdot Hext]. destruct (after_last_split _ _ Hdot) as (stem & Hsplit & Hno).
    exists stem, (after_last "." filename). auto.
  - intros (stem & ext & -> & Hno & Hext).
    change (stem +:+ "." +:+ ext) with (stem +:+ String "." ext).
    rewrite after_last_app by exact Hno. split; [|exact Hext].
    rewrite contains_char_app. simpl. now rewrite orb_true_r.
Qed.

Example allowed_file_upper_case : InterfaceFlask.allowed_file "Scan-01.PDF" = true.
Proof. reflexivity. Qed.

Example allowed_file_other_extension : InterfaceFlask.allowed_file "report.pdf.exe" = false.
Proof. reflexivity. Qed.

Example allowed_file_no_extension : InterfaceFlask.allowed_file "README" = false.
Proof. reflexivity. Qed.

Example allowed_file_empty : InterfaceFlask.allowed_file "" = false.
Proof. reflexivity. Qed.

Section Views.
Import PdfKnowledgeAssistant.
Context {Env : Type} {web : WebExternal Env}.

(** C7.  An upload whose filename has no ['.pdf'] extension (there is no
    dot, the extension is another one, or the name is empty) is answered
    with an error and status 400, and the application is left as it was: no
    directory is created, no file is saved, the agent is not called. *)
Theorem upload_rejects_non_pdf
    (request_files : gmap string FileStorage) (file : FileStorage) (a : app Env) :
  request_files !! "file" = Some file ->
  ~ has_pdf_extension (filename file) ->
  exists msg,
    InterfaceFlask.upload_file request_files a =
      (InterfaceFlask.jsonify [("error", VStr msg)] 400, a).
Proof.
  intros Hfile Hext. unfold InterfaceFlask.upload_file. rewrite Hfile.
  destruct (String.eqb (filename file) ""); [eauto|].
  destruct (InterfaceFlask.allowed_file (filename file)) eqn:Hallowed; [|eauto].
  apply allowed_file_spec in Hallowed. contradiction.
Qed.

Lemma emitted_answer q (a a' : app Env) r :
  InterfaceFlask.answer q a = (r, a') ->
  match r with
  | Ok _ => exists data, emitted a' = (emitted a ++ [agent_response data])%list
  | Fail _ _ => emitted a' = emitted a
  end.
Proof.
  unfold InterfaceFlask.answer, mbind, T_bind, process_user_query, effectT. simpl.
  destruct (process_once _ (env a)) as [[thread|c msg] e]; simpl;
    intros [= <- <-]; simpl; eauto.
Qed.

(** C9, as the code has it.  For a ['user_query'] event whose [data] is a
    non-empty string the handler emits the ['user_message'] echo of that
    data and then one ['agent_response'], in that order and nothing else;
    for empty data it emits only an ['agent_response'] carrying an error. *)
Theorem user_query_emits_echo_then_response
    (json_data : gmap string pyval) (s : string) (a : app Env) :
  json_data !! "data" = Some (VStr s) ->
  (s <> "" ->
   exists data,
     emitted (InterfaceFlask.handle_user_query json_data a) =
       (emitted a ++ [user_message (VStr s); agent_response data])%list) /\
  (s = "" ->
   emitted (InterfaceFlask.handle_user_query json_data a) =
     (emitted a ++ [agent_response (VStr "Error: Empty query received.")])%list).
Proof.
  intros Hdata. unfold InterfaceFlask.handle_user_query, get_arg. rewrite Hdata. simpl.
  split.
  - intros Hs. apply truthy_str in Hs. simpl in Hs. rewrite Hs. simpl.
    destruct (InterfaceFlask.answer _ _) as [[[]|c msg] a'] eqn:E;
      apply emitted_answer in E; simpl in E.
    + destruct E as [data ->]. exists data. now rewrite <- app_assoc.
    + eexists. simpl. rewrite E, <- app_assoc. reflexivity.
  - intros ->. reflexivity.
Qed.

End Views.

Lemma upload_rejects_non_pdf_witness :
  exists msg,
    InterfaceFlask.upload_file (web := sample_web)
      {[ "file" := {| PdfKnowledgeAssistant.filename := "report.docx";
                      PdfKnowledgeAssistant.stream := "PK" |} ]} sample_app =
      (InterfaceFlask.jsonify [("error", VStr msg)] 400, sample_app).
Proof.
  apply (upload_rejects_non_pdf (web := sample_web) _
           {| PdfKnowledgeAssistant.filename := "report.docx";
              PdfKnowledgeAssistant.stream := "PK" |}).
  - vm_compute. reflexivity.
  - intros Hpdf. apply allowed_file_spec in Hpdf. vm_compute in Hpdf. discriminate.
Defined.

(** C9 as stated fails for empty data: an empty query is answered without
    the echo. *)
Lemma empty_user_query_is_not_echoed :
  ~ (forall (json_data : gmap string pyval) (s : string)
            (a : PdfKnowledgeAssistant.app nat),
       json_data !! "data" = Some (VStr s) ->
       exists data,
         PdfKnowledgeAssistant.emitted
           (InterfaceFlask.handle_user_query (web := sample_web) json_data a) =
         (PdfKnowledgeAssistant.emitted a ++
            [user_message (VStr s); agent_response data])%list).
Proof.
  intros H.
  destruct (H {[ "data" := VStr "" ]} "" sample_app) as [data Hdata];
    [vm_compute; reflexivity|].
  vm_compute in Hdata. discriminate.
Qed.

Lemma user_query_emits_echo_then_response_witness :
  exists data,
    PdfKnowledgeAssistant.emitted
      (InterfaceFlask.handle_user_query (web := sample_web)
         {[ "data" := VStr "What is the barrel temperature range?" ]} sample_app) =
    [user_message (VStr "What is the barrel temperature range?"); agent_response data].
Proof.
  destruct (user_query_emits_echo_then_response (web := sample_web)
              {[ "data" := VStr "What is the barrel temperature range?" ]}
              "What is the barrel temperature range?" sample_app) as [Hecho _].
  - vm_compute. reflexivity.
  - apply Hecho. discriminate.
Defined.

(** * Further properties of the code *)

(** ** The static database tools, beyond their keys *)

(** The dictionary the approved-supplier tool returns is the view of the
    record, followed by the advisory when the upper-cased priority is
    ["RUSH"]. *)
Lemma supplier_invoke_view args sly d :
  ApprovedSupplierDatabase.invoke args sly = Ret (VDict d) ->
  exists op s r,
    call_upper (get_arg args "order_priority" (VStr "STANDARD")) = Ret op /\
    get_arg args "sku" (VStr "") = VStr s /\
    ApprovedSupplierDatabase._SUPPLIER_DATA !! s = Some r /\
    d = if String.eqb op "RUSH"
        then (supplier_view (VStr s) r ++ [rush_advisory_entry])%list
        else supplier_view (VStr s) r.
Proof.
  unfold ApprovedSupplierDatabase.invoke. intros H.
  destruct (call_upper _) as [op|] eqn:Hop; simpl in H; [|discriminate].
  destruct (get_arg args "sku" (VStr "")) as [| | | |s| |] eqn:Hsku; simpl in H;
    try discriminate.
  destruct (ApprovedSupplierDatabase._SUPPLIER_DATA !! s) as [r|] eqn:Hr; [|discriminate].
  exists op, s, r. split; [reflexivity|]. split; [reflexivity|]. split; [exact Hr|].
  injection H as <-. destruct (String.eqb op "RUSH"); reflexivity.
Qed.

(** The order priority decides nothing but the advisory: two answers for the
    same SKU have the same seven fields in the same order, with the same
    supplier list, and differ at most in the advisory at the end. *)
Theorem supplier_priority_only_adds_advisory
    (args args' sly_data sly_data' : gmap string pyval)
    (d d' : list (string * pyval)) :
  get_arg args "sku" (VStr "") = get_arg args' "sku" (VStr "") ->
  ApprovedSupplierDatabase.invoke args sly_data = Ret (VDict d) ->
  ApprovedSupplierDatabase.invoke args' sly_data' = Ret (VDict d') ->
  exists base,
    (d = base \/ d = (base ++ [rush_advisory_entry])%list) /\
    (d' = base \/ d' = (base ++ [rush_advisory_entry])%list) /\
    dict_keys base =
      ["sku"; "product_name"; "material_category"; "testing_standard";
       "tested_parameters"; "approved_suppliers"; "note"].
Proof.
  intros Hsku H H'.
  apply supplier_invoke_view in H as (op & s & r & _ & Hs & Hr & ->).
  apply supplier_invoke_view in H' as (op' & s' & r' & _ & Hs' & Hr' & ->).
  rewrite Hs, Hs' in Hsku. injection Hsku as <-.
  rewrite Hr in Hr'. injection Hr' as <-.
  exists (supplier_view (VStr s) r).
  split; [|split; [|reflexivity]].
  - destruct (String.eqb op "RUSH"); auto.
  - destruct (String.eqb op' "RUSH"); auto.
Qed.

Lemma supplier_priority_only_adds_advisory_witness :
  exists d d' base,
    ApprovedSupplierDatabase.invoke
      {[ "sku" := VStr "TB-DINO-003"; "order_priority" := VStr "RUSH" ]} ∅ = Ret (VDict d) /\
    ApprovedSupplierDatabase.invoke {[ "sku" := VStr "TB-DINO-003" ]} ∅ = Ret (VDict d') /\
    (d = base \/ d = (base ++ [rush_advisory_entry])%list) /\
    (d' = base \/ d' = (base ++ [rush_advisory_entry])%list) /\
    dict_keys base =
      ["sku"; "product_name"; "material_category"; "testing_standard";
       "tested_parameters"; "approved_suppliers"; "note"].
Proof.
  pose (rush := ({[ "sku" := VStr "TB-DINO-003";
                    "order_priority" := VStr "RUSH" ]} : gmap string pyval)).
  pose (standard := ({[ "sku" := VStr "TB-DINO-003" ]} : gmap string pyval)).
  destruct (ApprovedSupplierDatabase.invoke rush ∅) as [[| | | | | |d]|] eqn:E;
    try (vm_compute in E; discriminate).
  destruct (ApprovedSupplierDatabase.invoke standard ∅) as [[| | | | | |d']|] eqn:E';
    try (vm_compute in E'; discriminate).
  destruct (supplier_priority_only_adds_advisory rush standard ∅ ∅ d d')
    as (base & H1 & H2 & H3); [vm_compute; reflexivity | exact E | exact E' |].
  exists d, d', base. auto.
Defined.

(** An order priority that is present and not a string (a JSON [null], a
    number) makes the approved-supplier tool raise [AttributeError], whatever
    the SKU: the default ["STANDARD"] stands in for an absent key only. *)
Theorem supplier_non_string_priority_raises
    (args sly_data : gmap string pyval) (v : pyval) :
  args !! "order_priority" = Some v ->
  (forall s, v <> VStr s) ->
  ApprovedSupplierDatabase.invoke args sly_data = Raise AttributeError.
Proof.
  intros Hv Hns. unfold ApprovedSupplierDatabase.invoke, get_arg. rewrite Hv. simpl.
  destruct v; try reflexivity. now destruct (Hns s).
Qed.

Lemma supplier_non_string_priority_raises_witness :
  ApprovedSupplierDatabase.invoke
    {[ "sku" := VStr "TB-DINO-003"; "order_priority" := VNone ]} ∅ = Raise AttributeError.
Proof.
  apply (supplier_non_string_priority_raises _ _ VNone).
  - vm_compute. reflexivity.
  - discriminate.
Defined.

(** A SKU that is not a string is never found: a list or a dictionary cannot
    be hashed and raises [TypeError]; any other value is answered with the
    not-found error that renders it with [str]. *)
Theorem supplier_non_string_sku
    (args sly_data : gmap string pyval) (priority : string) :
  get_arg args "order_priority" (VStr "STANDARD") = VStr priority ->
  (hash_key (get_arg args "sku" (VStr "")) = Raise TypeError ->
   ApprovedSupplierDatabase.invoke args sly_data = Raise TypeError) /\
  (forall key, hash_key (get_arg args "sku" (VStr "")) = Ret key ->
   (forall s, key <> HStr s) ->
   ApprovedSupplierDatabase.invoke args sly_data =
     Ret (VStr ("Error: SKU '" +:+ hashable_str key +:+
                "' not found in Approved Vendor List."))).
Proof.
  intros Hp. unfold ApprovedSupplierDatabase.invoke. rewrite Hp. simpl. split.
  - intros ->. reflexivity.
  - intros key -> Hns. simpl. destruct key; try reflexivity. now destruct (Hns s).
Qed.

Lemma supplier_non_string_sku_witness :
  ApprovedSupplierDatabase.invoke {[ "sku" := VList [VStr "TB-DINO-003"] ]} ∅
    = Raise TypeError /\
  ApprovedSupplierDatabase.invoke {[ "sku" := VInt 3 ]} ∅
    = Ret (VStr "Error: SKU '3' not found in Approved Vendor List.").
Proof.
  split.
  - apply (supplier_non_string_sku {[ "sku" := VList [VStr "TB-DINO-003"] ]} ∅ "STANDARD");
      vm_compute; reflexivity.
  - destruct (supplier_non_string_sku {[ "sku" := VInt 3 ]} ∅ "STANDARD") as [_ Hkey];
      [vm_compute; reflexivity|].
    apply (Hkey (HInt 3)); [vm_compute; reflexivity | discriminate].
Defined.

(** In the three normalizing tools the default key stands in for an absent
    argument only, and it is a stored key: with the argument absent the tool
    answers with a record; with the argument present and not a string (a
    JSON [null], a number, a list) the tool raises [AttributeError]. *)
Theorem normalizing_tools_default_and_non_string
    (args sly_data : gmap string pyval) :
  (args !! "product_category" = None ->
   exists d, ComplianceChecklistDatabase.invoke args sly_data = Ret (VDict d)) /\
  (args !! "process_type" = None ->
   exists d, ProductionParameterDatabase.invoke args sly_data = Ret (VDict d)) /\
  (args !! "process_type" = None ->
   exists d, QualityFailureModeDatabase.invoke args sly_data = Ret (VDict d)) /\
  (forall v, args !! "product_category" = Some v -> (forall s, v <> VStr s) ->
   ComplianceChecklistDatabase.invoke args sly_data = Raise AttributeError) /\
  (forall v, args !! "process_type" = Some v -> (forall s, v <> VStr s) ->
   ProductionParameterDatabase.invoke args sly_data = Raise AttributeError) /\
  (forall v, args !! "process_type" = Some v -> (forall s, v <> VStr s) ->
   QualityFailureModeDatabase.invoke args sly_data = Raise AttributeError).
Proof.
  repeat apply conj.
  - intros H. unfold ComplianceChecklistDatabase.invoke, get_arg. rewrite H.
    eexists. vm_compute. reflexivity.
  - intros H. unfold ProductionParameterDatabase.invoke, get_arg. rewrite H.
    eexists. vm_compute. reflexivity.
  - intros H. unfold QualityFailureModeDatabase.invoke, get_arg. rewrite H.
    eexists. vm_compute. reflexivity.
  - intros v H Hns. unfold ComplianceChecklistDatabase.invoke, get_arg. rewrite H.
    destruct v; try reflexivity. now destruct (Hns s).
  - intros v H Hns. unfold ProductionParameterDatabase.invoke, get_arg. rewrite H.
    destruct v; try reflexivity. now destruct (Hns s).
  - intros v H Hns. unfold QualityFailureModeDatabase.invoke, get_arg. rewrite H.
    destruct v; try reflexivity. now destruct (Hns s).
Qed.

Lemma normalizing_tools_default_and_non_string_witness :
  (exists d, QualityFailureModeDatabase.invoke ∅ ∅ = Ret (VDict d)) /\
  QualityFailureModeDatabase.invoke {[ "process_type" := VNone ]} ∅ = Raise AttributeError.
Proof.
  split.
  - destruct (normalizing_tools_default_and_non_string ∅ ∅) as (_ & _ & H & _).
    apply H. reflexivity.
  - destruct (normalizing_tools_default_and_non_string {[ "process_type" := VNone ]} ∅)
      as (_ & _ & _ & _ & _ & H).
    apply (H VNone); [vm_compute; reflexivity | discriminate].
Defined.

(** The counts the compliance and failure-mode tools report are the lengths
    of the lists they return beside them. *)
Theorem reported_counts_match_lists
    (args sly_data : gmap string pyval) (d : list (string * pyval)) :
  (ComplianceChecklistDatabase.invoke args sly_data = Ret (VDict d) ->
   exists items,
     dict_get d "checklist_items" = Some (VList items) /\
     dict_get d "total_items" = Some (VInt (Z.of_nat (length items)))) /\
  (QualityFailureModeDatabase.invoke args sly_data = Ret (VDict d) ->
   exists modes,
     dict_get d "failure_modes" = Some (VList modes) /\
     dict_get d "total_failure_modes" = Some (VInt (Z.of_nat (length modes)))).
Proof.
  split.
  - unfold ComplianceChecklistDatabase.invoke.
    destruct (call_lower _) as [lowered|]; simpl; [|discriminate].
    destruct (_ !! _) as [r|]; intros [= <-].
    exists (ComplianceChecklistDatabase.checklist_items r). split; reflexivity.
  - unfold QualityFailureModeDatabase.invoke.
    destruct (call_lower _) as [lowered|]; simpl; [|discriminate].
    destruct (_ !! _) as [r|]; intros [= <-].
    exists (QualityFailureModeDatabase.failure_modes r). split; reflexivity.
Qed.

Lemma reported_counts_match_lists_witness :
  exists d items,
    ComplianceChecklistDatabase.invoke ∅ ∅ = Ret (VDict d) /\
    dict_get d "checklist_items" = Some (VList items) /\
    dict_get d "total_items" = Some (VInt 7) /\
    length items = 7.
Proof.
  destruct (ComplianceChecklistDatabase.invoke ∅ ∅) as [[| | | | | |d]|] eqn:E;
    try (vm_compute in E; discriminate).
  destruct (reported_counts_match_lists ∅ ∅ d) as [H _].
  destruct (H E) as (items & Hitems & Hcount).
  exists d, items. split; [reflexivity|]. split; [exact Hitems|].
  vm_compute in E. injection E as <-. vm_compute in Hitems. injection Hitems as <-.
  split; reflexivity.
Defined.

(** ** The add-PDF tool, past its checks *)

Section AddPdf.
Context {Ext : Type} {runtime : External Ext}.

(** With a path that passes the three checks the tool logs and enters its
    [try] block. *)
Lemma add_pdf_enters_try (args sly : gmap string pyval) (w : world Ext) p size :
  get_arg args "file_path" (VStr "") = VStr p ->
  p <> "" ->
  files w !! p = Some size ->
  endswith (lower p) ".pdf" = true ->
  AddPdfToKnowledge.async_invoke args sly w =
  AddPdfToKnowledge.handlers p
    (AddPdfToKnowledge.ingest p
       (logger INFO "Adding PDF to knowledge base: %s" [AVal (VStr p)] w)).
Proof.
  intros Hp Hne Hsize Hpdf. unfold AddPdfToKnowledge.async_invoke. rewrite Hp.
  apply truthy_str in Hne. rewrite Hne. simpl.
  unfold mbind at 1. unfold M_bind at 1. unfold os_path_exists. rewrite Hsize.
  rewrite bool_decide_eq_true_2 by eauto. simpl.
  unfold mbind at 1. unfold M_bind at 1. simpl. rewrite Hpdf. simpl. reflexivity.
Qed.

(** Closes a branch of the add-PDF tool that raises or returns an error. *)
Ltac no_success :=
  first [ intros [= <- <-]; left; reflexivity
        | let H := fresh in intros H; discriminate H ].

(** Success is reported only after every step.  A string the add-PDF tool
    returns starts with ['Error: '] or is the success message, and it is
    the success message only when [file_path] is a non-empty string that
    names an existing file and ends in ['.pdf'], the vector-store layer has
    returned a store for it and the loader, called after that, has returned
    the pages that the message counts. *)
Theorem add_pdf_success_only_after_every_step
    (args sly_data : gmap string pyval) (w w1 : world Ext) (msg : string) :
  AddPdfToKnowledge.async_invoke args sly_data w = (Ret msg, w1) ->
  startswith msg "Error: " = true \/
  exists p size store e pages e',
    get_arg args "file_path" (VStr "") = VStr p /\
    p <> "" /\
    files w !! p = Some size /\
    endswith (lower p) ".pdf" = true /\
    generate_vector_store [p] (ext w) = (Ok (Some store), e) /\
    aload p e = (Ok pages, e') /\
    msg = "Successfully added " +:+ basename p +:+ " to knowledge base - " +:+
          int_str (Z.of_nat (length pages)) +:+ " pages processed." /\
    calls w1 = (calls w ++ [CallGenerateVectorStore [p]; CallLoadPdf p])%list.
Proof.
  unfold AddPdfToKnowledge.async_invoke.
  destruct (truthy _) eqn:Htruthy; simpl; [|no_success].
  unfold mbind at 1. unfold M_bind at 1.
  destruct (get_arg args "file_path" (VStr "")) as [| |n| |p| |]; simpl;
    try no_success.
  - destruct (fd_exists w _) as [[]|]; simpl; no_success.
  - destruct (fd_exists w n) as [[]|]; simpl; no_success.
  - destruct (bool_decide _); simpl; [|no_success].
    unfold mbind at 1. unfold M_bind at 1. simpl.
    destruct (endswith (lower p) ".pdf") eqn:Hpdf; simpl; [|no_success].
    unfold mbind at 1. unfold M_bind at 1. simpl. unfold try_except.
    unfold AddPdfToKnowledge.ingest, mbind, T_bind, os_path_getsize, call_ext,
      datetime_now_isoformat, effectT. simpl.
    destruct (files w !! p) as [size|] eqn:Hsize; simpl; [|no_success].
    destruct (generate_vector_store [p] (ext w)) as [[[store|]|c m] e] eqn:Hstore; simpl;
      [| no_success | destruct (is_FileNotFoundError c), (is_ValueError c); no_success].
    destruct (aload p e) as [[pages|c m] e'] eqn:Hload; simpl;
      [| destruct (is_FileNotFoundError c), (is_ValueError c); no_success].
    intros [= <- <-]. right. exists p, size, store, e, pages, e'.
    split; [reflexivity|]. split.
    { intros ->. discriminate Htruthy. }
    repeat (split; [first [assumption | reflexivity]|]).
    unfold AddPdfToKnowledge._update_document_registry. simpl.
    destruct (_ ≫= _); simpl; rewrite <- ?app_assoc; reflexivity.
Qed.

(** Closes a branch of the add-PDF tool that leaves the registry file alone. *)
Ltac registry_kept := intros [= <- <-] _; reflexivity.

(** Only a successful ingestion writes the registry: when the add-PDF tool
    raises or answers with anything but the success message, the registry
    file is as it was, whatever it held. *)
Theorem add_pdf_failure_keeps_registry
    (args sly_data : gmap string pyval) (w w1 : world Ext) (r : result string) :
  AddPdfToKnowledge.async_invoke args sly_data w = (r, w1) ->
  ~ ingestion_succeeded r ->
  registry_file w1 = registry_file w.
Proof.
  unfold AddPdfToKnowledge.async_invoke.
  destruct (truthy _); simpl; [|registry_kept].
  unfold mbind at 1. unfold M_bind at 1.
  destruct (get_arg args "file_path" (VStr "")) as [| |n| |p| |]; simpl;
    try registry_kept.
  - destruct (fd_exists w _) as [[]|]; simpl; registry_kept.
  - destruct (fd_exists w n) as [[]|]; simpl; registry_kept.
  - destruct (bool_decide _); simpl; [|registry_kept].
    unfold mbind at 1. unfold M_bind at 1. simpl.
    destruct (endswith (lower p) ".pdf"); simpl; [|registry_kept].
    unfold mbind at 1. unfold M_bind at 1. simpl. unfold try_except.
    unfold AddPdfToKnowledge.ingest, mbind, T_bind, os_path_getsize, call_ext,
      datetime_now_isoformat, effectT. simpl.
    destruct (files w !! p) as [size|]; simpl; [|registry_kept].
    destruct (generate_vector_store [p] (ext w)) as [[[store|]|c msg] e]; simpl;
      [| registry_kept
       | destruct (is_FileNotFoundError c), (is_ValueError c); registry_kept].
    destruct (aload p e) as [[pages|c msg] e']; simpl;
      [| destruct (is_FileNotFoundError c), (is_ValueError c); registry_kept].
    intros [= <- <-] Hfailed. exfalso. apply Hfailed.
    eexists. split; reflexivity.
Qed.



(** Without a store the ingestion ends at once: when the vector-store layer
    raises, the tool answers with the string for the class of the exception
    (a [JSONDecodeError] counts as a [ValueError]); when it returns no
    store, with a fixed error.  Either way the loader is not called, the
    clock is not read and the registry is not written. *)
Theorem add_pdf_store_failure
    (args sly_data : gmap string pyval) (w : world Ext) (p : string) (size : Z)
    (stored : outcome (option Store)) (e : Ext) :
  get_arg args "file_path" (VStr "") = VStr p ->
  p <> "" ->
  files w !! p = Some size ->
  endswith (lower p) ".pdf" = true ->
  generate_vector_store [p] (ext w) = (stored, e) ->
  (forall store, stored <> Ok (Some store)) ->
  exists w1,
    AddPdfToKnowledge.async_invoke args sly_data w =
      (Ret match stored with
           | Fail c msg => add_pdf_error p c msg
           | Ok _ => "Error: Failed to create or load vector store."
           end, w1) /\
    calls w1 = (calls w ++ [CallGenerateVectorStore [p]])%list /\
    registry_file w1 = registry_file w /\
    ticks w1 = ticks w /\
    ext w1 = e.
Proof.
  intros Hp Hne Hsize Hpdf Hgen Hnone.
  rewrite (add_pdf_enters_try _ _ _ _ _ Hp Hne Hsize Hpdf).
  unfold AddPdfToKnowledge.ingest, mbind, T_bind, os_path_getsize, call_ext. simpl.
  rewrite Hsize. simpl. rewrite Hgen. destruct stored as [[store|]|c msg]; simpl.
  - now destruct (Hnone store).
  - eexists. repeat split.
  - unfold add_pdf_error.
    destruct (is_FileNotFoundError c), (is_ValueError c); eexists; repeat split.
Qed.

(** The chunks are stored before the pages are counted: when the loader
    fails after the vector-store layer has succeeded, the tool answers with
    an error and writes no registry entry, but the state the vector-store
    layer left behind stays. *)
Theorem add_pdf_loader_failure_after_store_update
    (args sly_data : gmap string pyval) (w : world Ext) (p : string) (size : Z)
    (store : Store) (c : exn_class) (msg : string) (e e' : Ext) :
  get_arg args "file_path" (VStr "") = VStr p ->
  p <> "" ->
  files w !! p = Some size ->
  endswith (lower p) ".pdf" = true ->
  generate_vector_store [p] (ext w) = (Ok (Some store), e) ->
  aload p e = (Fail c msg, e') ->
  exists w1,
    AddPdfToKnowledge.async_invoke args sly_data w = (Ret (add_pdf_error p c msg), w1) /\
    calls w1 = (calls w ++ [CallGenerateVectorStore [p]; CallLoadPdf p])%list /\
    registry_file w1 = registry_file w /\
    ext w1 = e'.
Proof.
  intros Hp Hne Hsize Hpdf Hgen Hload.
  rewrite (add_pdf_enters_try _ _ _ _ _ Hp Hne Hsize Hpdf).
  unfold AddPdfToKnowledge.ingest, mbind, T_bind, os_path_getsize, call_ext. simpl.
  rewrite Hsize. simpl. rewrite Hgen. simpl. rewrite Hload. simpl.
  unfold add_pdf_error.
  destruct (is_FileNotFoundError c), (is_ValueError c); eexists;
    (split; [reflexivity|]); simpl; rewrite <- app_assoc; repeat split.
Qed.

(** A [file_path] that is a non-empty list or dictionary, or a non-zero
    float, is not rejected with an error string: [os.path.exists] raises
    [TypeError], outside the [try] block, and the tool raises with the world
    left as it was. *)
Theorem add_pdf_non_path_raises
    (args sly_data : gmap string pyval) (w : world Ext) :
  let file_path := get_arg args "file_path" (VStr "") in
  truthy file_path = true ->
  (exists l, file_path = VList l) \/ (exists d, file_path = VDict d) \/
  (exists r, file_path = VFloat r) ->
  AddPdfToKnowledge.async_invoke args sly_data w = (Raise TypeError, w).
Proof.
  intros file_path Htruthy Hkind. unfold AddPdfToKnowledge.async_invoke.
  fold file_path. rewrite Htruthy. simpl.
  destruct Hkind as [[l ->] | [[d ->] | [r ->]]]; reflexivity.
Qed.

End AddPdf.

Lemma add_pdf_success_only_after_every_step_witness :
  exists pages,
    aload (External := sample_external) "/uploads/report.pdf" ["/uploads/report.pdf"]
      = (Ok pages, ["/uploads/report.pdf"]) /\
    length pages = 2.
Proof.
  destruct (add_pdf_success_only_after_every_step (runtime := sample_external)
              {[ "file_path" := VStr "/uploads/report.pdf" ]} ∅ sample_world
              (AddPdfToKnowledge.async_invoke (runtime := sample_external)
                 {[ "file_path" := VStr "/uploads/report.pdf" ]} ∅ sample_world).2
              "Successfully added report.pdf to knowledge base - 2 pages processed.")
    as [Herror | (p & size & store & e & pages & e' & Hp & _ & _ & _ & Hstore & Hload
                  & Hmsg & _)];
    [ vm_compute; reflexivity | discriminate Herror | ].
  vm_compute in Hp. injection Hp as <-.
  vm_compute in Hstore. injection Hstore as _ <-.
  exists pages. vm_compute in Hload. injection Hload as <- <-.
  split; reflexivity.
Defined.

(** A second runtime for the failure paths: the vector-store layer stores
    what it is given, and the loader then fails on every file. *)
Lemma add_pdf_failure_keeps_registry_witness :
  registry_file
    (AddPdfToKnowledge.async_invoke (runtime := sample_external)
       {[ "file_path" := VStr "/uploads/notes.txt" ]} ∅ sample_world).2
  = registry_file sample_world.
Proof.
  apply (add_pdf_failure_keeps_registry (runtime := sample_external)
           {[ "file_path" := VStr "/uploads/notes.txt" ]} ∅ sample_world _
           (Ret "Error: File must be a PDF: /uploads/notes.txt")).
  - vm_compute. reflexivity.
  - intros (msg & [= <-] & H). vm_compute in H. discriminate.
Defined.


Lemma add_pdf_non_path_raises_witness :
  AddPdfToKnowledge.async_invoke (runtime := sample_external)
    {[ "file_path" := VList [VStr "/uploads/report.pdf"] ]} ∅ sample_world
  = (Raise TypeError, sample_world).
Proof.
  apply (add_pdf_non_path_raises (runtime := sample_external)
           {[ "file_path" := VList [VStr "/uploads/report.pdf"] ]} ∅ sample_world).
  - vm_compute. reflexivity.
  - left. eexists. vm_compute. reflexivity.
Defined.

Lemma add_pdf_store_failure_witness :
  (exists w1,
     AddPdfToKnowledge.async_invoke
       (runtime := scripted_external (Fail JSONDecodeError "Expecting value") (Ok []))
       {[ "file_path" := VStr "/uploads/report.pdf" ]} ∅ sample_world =
       (Ret "Error: Invalid file or unsupported input: /uploads/report.pdf - Expecting value",
        w1) /\
     calls w1 = [CallGenerateVectorStore ["/uploads/report.pdf"]] /\
     registry_file w1 = Absent) /\
  (exists w1,
     AddPdfToKnowledge.async_invoke (runtime := scripted_external (Ok None) (Ok []))
       {[ "file_path" := VStr "/uploads/report.pdf" ]} ∅ sample_world =
       (Ret "Error: Failed to create or load vector store.", w1) /\
     calls w1 = [CallGenerateVectorStore ["/uploads/report.pdf"]] /\
     registry_file w1 = Absent).
Proof.
  split.
  - destruct (add_pdf_store_failure
                (runtime := scripted_external (Fail JSONDecodeError "Expecting value") (Ok []))
                {[ "file_path" := VStr "/uploads/report.pdf" ]} ∅ sample_world
                "/uploads/report.pdf" 2048 (Fail JSONDecodeError "Expecting value")
                ["/uploads/report.pdf"])
      as (w1 & Hrun & Hcalls & Hreg & _);
      try (vm_compute; reflexivity); [discriminate | intros store; discriminate |].
    exists w1. split; [exact Hrun|]. split; assumption.
  - destruct (add_pdf_store_failure (runtime := scripted_external (Ok None) (Ok []))
                {[ "file_path" := VStr "/uploads/report.pdf" ]} ∅ sample_world
                "/uploads/report.pdf" 2048 (Ok None) ["/uploads/report.pdf"])
      as (w1 & Hrun & Hcalls & Hreg & _);
      try (vm_compute; reflexivity); [discriminate | intros store; discriminate |].
    exists w1. split; [exact Hrun|]. split; assumption.
Defined.

Lemma add_pdf_loader_failure_after_store_update_witness :
  exists w1,
    AddPdfToKnowledge.async_invoke
      (runtime := scripted_external (Ok (Some tt)) (Fail RuntimeError "cannot open file"))
      {[ "file_path" := VStr "/uploads/report.pdf" ]} ∅ sample_world =
      (Ret "Error: Failed to add PDF to knowledge base: cannot open file", w1) /\
    registry_file w1 = Absent /\
    ext w1 = ["/uploads/report.pdf"].
Proof.
  destruct (add_pdf_loader_failure_after_store_update
              (runtime := scripted_external (Ok (Some tt))
                            (Fail RuntimeError "cannot open file"))
              {[ "file_path" := VStr "/uploads/report.pdf" ]} ∅ sample_world
              "/uploads/report.pdf" 2048 tt RuntimeError "cannot open file"
              ["/uploads/report.pdf"] ["/uploads/report.pdf"])
    as (w1 & Hrun & _ & Hreg & Hext);
    try (vm_compute; reflexivity); [discriminate|].
  exists w1. split; [exact Hrun|]. split; assumption.
Defined.

(** ** The query tool, past its checks *)

Section QueryTool.
Context {Ext : Type} {runtime : External Ext}.

(** With a query and a snapshot on disk the tool logs and enters its [try]
    block. *)
Lemma query_enters_try (args sly : gmap string pyval) (w : world Ext) :
  truthy (get_arg args "query" (VStr "")) = true ->
  snapshot_exists (ext w) = true ->
  QueryPdfKnowledge.async_invoke args sly w =
  QueryPdfKnowledge.handlers
    (QueryPdfKnowledge.search (get_arg args "query" (VStr ""))
       (logger INFO "Querying PDF knowledge base: %s"
          [AVal (get_arg args "query" (VStr ""))] w)).
Proof.
  intros Hq Hs. unfold QueryPdfKnowledge.async_invoke. rewrite Hq. simpl.
  unfold mbind, M_bind, QueryPdfKnowledge.vector_store_file_exists, effect. simpl.
  now rewrite Hs.
Qed.

(** The query tool reads only.  Whatever the arguments and whatever the
    vector-store layer answers, the tool leaves the files, the document
    registry and the clock as they were, and its calls to the layer are at
    most one loading of the store, followed by at most one query, which is
    the query as given. *)
Theorem query_reads_only
    (args sly_data : gmap string pyval) (w : world Ext) :
  let query := get_arg args "query" (VStr "") in
  let w1 := (QueryPdfKnowledge.async_invoke args sly_data w).2 in
  (calls w1 = calls w \/
   calls w1 = (calls w ++ [CallLoadExistingVectorStore])%list \/
   calls w1 = (calls w ++ [CallLoadExistingVectorStore; CallQueryVectorstore query])%list) /\
  files w1 = files w /\ open_fds w1 = open_fds w /\
  registry_file w1 = registry_file w /\ ticks w1 = ticks w.
Proof.
  unfold QueryPdfKnowledge.async_invoke.
  destruct (truthy _); simpl; [|repeat split; left; reflexivity].
  unfold mbind, M_bind, QueryPdfKnowledge.vector_store_file_exists, effect. simpl.
  destruct (snapshot_exists (ext w)); simpl; [|repeat split; left; reflexivity].
  unfold try_except, QueryPdfKnowledge.search, mbind, T_bind, call_ext, effectT. simpl.
  destruct (_load_existing_vector_store (ext w)) as [[[store|]|c msg] e]; simpl.
  - destruct (query_vectorstore store _ e) as [[res|c msg] e']; simpl.
    + destruct (negb _ || _); simpl; repeat split;
        right; right; now rewrite <- app_assoc.
    + destruct (is_FileNotFoundError c); simpl; repeat split;
        right; right; now rewrite <- app_assoc.
  - repeat split. right; left; reflexivity.
  - destruct (is_FileNotFoundError c); simpl; repeat split; right; left; reflexivity.
Qed.

(** What the store finds is handed back as it is, unless it is empty or
    blank (nothing but white space, inside or outside ASCII): then the tool
    answers that no relevant information was found.  The store is loaded
    once and queried once, with the query as given. *)
Theorem query_hands_back_what_the_store_finds
    (args sly_data : gmap string pyval) (w : world Ext)
    (store : Store) (e e' : Ext) (found : string) :
  let query := get_arg args "query" (VStr "") in
  truthy query = true ->
  snapshot_exists (ext w) = true ->
  _load_existing_vector_store (ext w) = (Ok (Some store), e) ->
  query_vectorstore store query e = (Ok found, e') ->
  exists w1,
    QueryPdfKnowledge.async_invoke args sly_data w =
      (Ret (if String.eqb (strip found) ""
            then "No relevant information found in the knowledge base for this query."
            else found), w1) /\
    calls w1 = (calls w ++ [CallLoadExistingVectorStore; CallQueryVectorstore query])%list.
Proof.
  intros query Hq Hs Hload Hquery. rewrite (query_enters_try _ _ _ Hq Hs). fold query.
  unfold QueryPdfKnowledge.search, mbind, T_bind, call_ext, effectT. simpl.
  rewrite Hload. simpl. rewrite Hquery. simpl.
  destruct (String.eqb_spec found "") as [-> | _]; simpl.
  - eexists. split; [reflexivity|]. simpl. now rewrite <- app_assoc.
  - destruct (String.eqb (strip found) ""); simpl; eexists;
      (split; [reflexivity|]); simpl; now rewrite <- app_assoc.
Qed.

(** When the store cannot be loaded the query is never run: a store that
    loads as nothing is reported as corrupted, and an exception is answered
    with the string for its class. *)
Theorem query_store_not_loaded
    (args sly_data : gmap string pyval) (w : world Ext)
    (loaded : outcome (option Store)) (e : Ext) :
  let query := get_arg args "query" (VStr "") in
  truthy query = true ->
  snapshot_exists (ext w) = true ->
  _load_existing_vector_store (ext w) = (loaded, e) ->
  (forall store, loaded <> Ok (Some store)) ->
  exists w1,
    QueryPdfKnowledge.async_invoke args sly_data w =
      (Ret match loaded with
           | Fail c msg => query_error c msg
           | Ok _ =>
               "Error: Failed to load knowledge base. The vector store may be corrupted."
           end, w1) /\
    calls w1 = (calls w ++ [CallLoadExistingVectorStore])%list.
Proof.
  intros query Hq Hs Hload Hnone. rewrite (query_enters_try _ _ _ Hq Hs). fold query.
  unfold QueryPdfKnowledge.search, mbind, T_bind, call_ext, effectT. simpl.
  rewrite Hload. destruct loaded as [[store|]|c msg]; simpl.
  - now destruct (Hnone store).
  - eexists. split; reflexivity.
  - unfold query_error. destruct (is_FileNotFoundError c); eexists; split; reflexivity.
Qed.

(** An exception raised by the search itself, after the store is loaded, is
    answered with the string for its class. *)
Theorem query_search_failure
    (args sly_data : gmap string pyval) (w : world Ext)
    (store : Store) (e e' : Ext) (c : exn_class) (msg : string) :
  let query := get_arg args "query" (VStr "") in
  truthy query = true ->
  snapshot_exists (ext w) = true ->
  _load_existing_vector_store (ext w) = (Ok (Some store), e) ->
  query_vectorstore store query e = (Fail c msg, e') ->
  (QueryPdfKnowledge.async_invoke args sly_data w).1 = Ret (query_error c msg).
Proof.
  intros query Hq Hs Hload Hquery. rewrite (query_enters_try _ _ _ Hq Hs). fold query.
  unfold QueryPdfKnowledge.search, mbind, T_bind, call_ext, effectT. simpl.
  rewrite Hload. simpl. rewrite Hquery. simpl.
  unfold query_error. destruct (is_FileNotFoundError c); reflexivity.
Qed.

End QueryTool.

Lemma query_hands_back_what_the_store_finds_witness :
  (exists w1,
     QueryPdfKnowledge.async_invoke (runtime := sample_external)
       {[ "query" := VStr "barrel temperature" ]} ∅
       (set_ext ["/uploads/report.pdf"] sample_world) =
       (Ret "Two pages about moulding.", w1) /\
     calls w1 = [CallLoadExistingVectorStore;
                 CallQueryVectorstore (VStr "barrel temperature")]) /\
  (exists w1,
     QueryPdfKnowledge.async_invoke (runtime := blank_search_external)
       {[ "query" := VStr "barrel temperature" ]} ∅ empty_world =
       (Ret "No relevant information found in the knowledge base for this query.", w1)).
Proof.
  split.
  - destruct (query_hands_back_what_the_store_finds (runtime := sample_external)
                {[ "query" := VStr "barrel temperature" ]} ∅
                (set_ext ["/uploads/report.pdf"] sample_world)
                ["/uploads/report.pdf"] ["/uploads/report.pdf"] ["/uploads/report.pdf"]
                "Two pages about moulding.") as (w1 & Hrun & Hcalls);
      try (vm_compute; reflexivity).
    exists w1. split; [exact Hrun | exact Hcalls].
  - destruct (query_hands_back_what_the_store_finds (runtime := blank_search_external)
                {[ "query" := VStr "barrel temperature" ]} ∅ empty_world tt 0 0
                (String "194" (String "160" " ") +:+
                 String "227" (String "128" (String "128" ""))))
      as (w1 & Hrun & _);
      try (vm_compute; reflexivity).
    exists w1. exact Hrun.
Defined.

Lemma query_store_not_loaded_witness :
  exists w1,
    QueryPdfKnowledge.async_invoke
      (runtime := scripted_external (Fail FileNotFoundError "gone") (Ok []))
      {[ "query" := VStr "barrel temperature" ]} ∅
      (set_ext ["/uploads/report.pdf"] sample_world) =
      (Ret "Error: Knowledge base file not found. Please upload PDF documents first.", w1) /\
    calls w1 = [CallLoadExistingVectorStore].
Proof.
  destruct (query_store_not_loaded
              (runtime := scripted_external (Fail FileNotFoundError "gone") (Ok []))
              {[ "query" := VStr "barrel temperature" ]} ∅
              (set_ext ["/uploads/report.pdf"] sample_world)
              (Fail FileNotFoundError "gone") ["/uploads/report.pdf"])
    as (w1 & Hrun & Hcalls);
    try (vm_compute; reflexivity); [intros store; discriminate|].
  exists w1. split; [exact Hrun | exact Hcalls].
Defined.

Lemma query_search_failure_witness :
  (QueryPdfKnowledge.async_invoke (runtime := failing_search_external)
     {[ "query" := VStr "barrel temperature" ]} ∅ empty_world).1
  = Ret "Error: Failed to query knowledge base: index is empty".
Proof.
  apply (query_search_failure (runtime := failing_search_external)
           {[ "query" := VStr "barrel temperature" ]} ∅ empty_world
           tt 0 0 RuntimeError "index is empty");
    vm_compute; reflexivity.
Defined.

(** ** The extraction tool *)

Lemma slice_to_prefix n s : exists rest, s = slice_to n s +:+ rest.
Proof.
  revert n. induction s as [|c s IH]; intros n; simpl; [exists ""; reflexivity|].
  destruct (is_continuation c).
  - destruct (IH n) as [rest Hrest]. exists rest.
    rewrite string_cons_app. now rewrite <- Hrest.
  - destruct n as [|n]; [exists (String c s); reflexivity|].
    destruct (IH n) as [rest Hrest]. exists rest.
    rewrite string_cons_app. now rewrite <- Hrest.
Qed.

Lemma str_len_slice_to n s : str_len (slice_to n s) <= n.
Proof.
  revert n. induction s as [|c s IH]; intros n; simpl; [lia|].
  destruct (is_continuation c) eqn:Hc; simpl.
  - rewrite Hc. apply IH.
  - destruct n as [|n]; simpl; [lia|]. rewrite Hc. specialize (IH n). lia.
Qed.

Lemma str_len_slice_to_min n s : str_len (slice_to n s) = Nat.min n (str_len s).
Proof.
  revert n. induction s as [|c s IH]; intros n; simpl; [lia|].
  destruct (is_continuation c) eqn:Hc; simpl.
  - rewrite Hc. apply IH.
  - destruct n as [|n]; simpl; [reflexivity|]. rewrite Hc. rewrite IH. lia.
Qed.

Lemma slice_to_all n s : str_len s <= n -> slice_to n s = s.
Proof.
  revert n. induction s as [|c s IH]; intros n; simpl; [reflexivity|].
  destruct (is_continuation c); simpl; intros Hlen.
  - now rewrite IH.
  - destruct n as [|n]; [lia|]. rewrite IH; [reflexivity | lia].
Qed.

(** [s[:n] if len(s) > n else s] is [s[:n]]. *)
Lemma document_sample_slice pages :
  document_sample pages =
  slice_to ExtractPdfKnowledge.sample_limit (document_text pages).
Proof.
  unfold document_sample.
  destruct (_ <? _)%nat eqn:Hlong; [reflexivity|].
  apply Nat.ltb_ge in Hlong. symmetry. now apply slice_to_all.
Qed.

Lemma append_nil_r s : s +:+ "" = s.
Proof.
  induction s as [|c s IH]; [reflexivity|]. rewrite string_cons_app. now rewrite IH.
Qed.

Lemma str_join_cons sep s t l :
  str_join sep (s :: t :: l) = s +:+ sep +:+ str_join sep (t :: l).
Proof. reflexivity. Qed.

Lemma str_join_middle sep l1 x l2 :
  exists a b, str_join sep (l1 ++ x :: l2) = a +:+ x +:+ b.
Proof.
  induction l1 as [|y l1 IH]; simpl app.
  - destruct l2 as [|z l2].
    + exists "", "". simpl. symmetry. apply append_nil_r.
    + exists "", (sep +:+ str_join sep (z :: l2)). reflexivity.
  - destruct IH as (a & b & IH).
    destruct (l1 ++ x :: l2)%list as [|z l] eqn:E; [now destruct l1|].
    rewrite str_join_cons, IH. exists (y +:+ sep +:+ a), b.
    now rewrite !append_assoc.
Qed.

Lemma str_join_last sep l x : exists start, str_join sep (l ++ [x]) = start +:+ x.
Proof.
  induction l as [|y l IH]; simpl app; [exists ""; reflexivity|].
  destruct IH as (start & IH).
  destruct (l ++ [x])%list as [|z l'] eqn:E; [now destruct l|].
  rewrite str_join_cons, IH. exists (y +:+ sep +:+ start). now rewrite !append_assoc.
Qed.

Lemma py_join_fails_with_TypeError sep v c msg :
  py_join sep v = Fail c msg -> c = TypeError.
Proof.
  destruct v as [| | | | |items|]; simpl; try (intros [= <- _]; reflexivity); try discriminate.
  generalize 0. induction items as [|v items IH]; intros i; simpl; [discriminate|].
  destruct v; simpl; try (intros [= <- _]; reflexivity).
  destruct (join_items (S i) items) eqn:E; simpl; [discriminate|].
  intros [= <- <-]. specialize (IH (S i)). rewrite E in IH. simpl in IH. now apply IH.
Qed.

Section ExtractTool.
Context {Ext : Type} {runtime : External Ext}.

(** With a path that passes the three checks the tool logs and enters its
    [try] block. *)
Lemma extract_enters_try (args sly : gmap string pyval) (w : world Ext) p size :
  get_arg args "file_path" (VStr "") = VStr p ->
  p <> "" ->
  files w !! p = Some size ->
  endswith (lower p) ".pdf" = true ->
  ExtractPdfKnowledge.async_invoke args sly w =
  ExtractPdfKnowledge.handlers p
    (ExtractPdfKnowledge.extract p (get_arg args "focus_areas" (VList []))
       (logger INFO "Extracting knowledge from PDF: %s" [AVal (VStr p)] w)).
Proof.
  intros Hp Hne Hsize Hpdf. unfold ExtractPdfKnowledge.async_invoke. rewrite Hp.
  apply truthy_str in Hne. rewrite Hne. simpl.
  unfold mbind at 1. unfold M_bind at 1. unfold os_path_exists. rewrite Hsize.
  rewrite bool_decide_eq_true_2 by eauto. simpl.
  unfold mbind at 1. unfold M_bind at 1. simpl. rewrite Hpdf. simpl. reflexivity.
Qed.

(** The answer of the tool once the loader has returned pages: the summary,
    or the error string when the summary cannot be built. *)
Lemma extract_with_pages (args sly : gmap string pyval) (w : world Ext) p size pages e :
  get_arg args "file_path" (VStr "") = VStr p ->
  p <> "" ->
  files w !! p = Some size ->
  endswith (lower p) ".pdf" = true ->
  aload p (ext w) = (Ok pages, e) ->
  pages <> [] ->
  (ExtractPdfKnowledge.async_invoke args sly w).1 =
    match ExtractPdfKnowledge._generate_document_summary (basename p) (length pages)
            (document_sample pages) (get_arg args "focus_areas" (VList [])) with
    | Ok summary => Ret summary
    | Fail c msg => Ret (extract_error p c msg)
    end.
Proof.
  intros Hp Hne Hsize Hpdf Hload Hpages.
  rewrite (extract_enters_try _ _ _ _ _ Hp Hne Hsize Hpdf).
  unfold ExtractPdfKnowledge.extract, mbind, T_bind, call_ext, effectT. simpl.
  rewrite Hload. destruct pages as [|page pages]; [contradiction|].
  cbv zeta. fold (document_text (page :: pages)). fold (document_sample (page :: pages)).
  destruct (ExtractPdfKnowledge._generate_document_summary _ _ _ _) as [summary|c msg];
    simpl; [reflexivity|].
  unfold extract_error. destruct (is_FileNotFoundError c), (is_ValueError c); reflexivity.
Qed.

(** The parts of a summary that was built: the header, the focus lines when
    focus areas are given, the sample between its frame lines, and the
    closing line. *)
Lemma summary_parts filename page_count text_sample focus_areas summary :
  ExtractPdfKnowledge._generate_document_summary filename page_count text_sample
    focus_areas = Ok summary ->
  exists focus closing,
    summary = str_join (String "010" "")
      ((["Document: " +:+ filename; "Pages: " +:+ int_str (Z.of_nat page_count)] ++
        [""; "CONTENT OVERVIEW:"; ""] ++ focus ++
        ["The following is a sample of the document content:"; ""]) ++
       text_sample :: ([""; "---"; ""] ++ closing))%list /\
    ((truthy focus_areas = false /\ focus = [] /\
      closing = ["Please analyze the above content and identify key topics and facts. " +:+
                 "For each significant topic you identify, use the commit_to_memory tool " +:+
                 "to store relevant facts under that topic."]) \/
     (exists joined,
        truthy focus_areas = true /\ py_join ", " focus_areas = Ok joined /\
        focus = ["Focus areas requested: " +:+ joined; ""] /\
        closing =
          ["Please analyze the above content and identify key topics and facts. " +:+
           "For each significant topic you identify, use the commit_to_memory tool " +:+
           "to store relevant facts under that topic.";
           "Pay special attention to information related to: " +:+ joined +:+ "."])).
Proof.
  unfold ExtractPdfKnowledge._generate_document_summary.
  destruct (truthy focus_areas) eqn:Hfocus.
  - destruct (py_join ", " focus_areas) as [joined|c msg]; simpl; [|discriminate].
    intros [= <-]. eexists _, _. split; [|right; exists joined; repeat split].
    reflexivity.
  - simpl. intros [= <-]. eexists _, _. split; [|left; repeat split]. reflexivity.
Qed.

(** The extraction tool rejects a bad path exactly as the add-PDF tool does:
    for a path that is empty, names no file or does not end in ['.pdf'],
    both return the same error string and leave the world as it was. *)
Theorem extract_rejects_like_add_pdf
    (args sly_data : gmap string pyval) (w : world Ext) (p : string) :
  get_arg args "file_path" (VStr "") = VStr p ->
  p = "" \/ files w !! p = None \/ endswith (lower p) ".pdf" = false ->
  exists msg,
    rejected (ExtractPdfKnowledge.async_invoke args sly_data) w msg /\
    AddPdfToKnowledge.async_invoke args sly_data w = (Ret msg, w).
Proof.
  intros Hp Hbad.
  unfold rejected, ExtractPdfKnowledge.async_invoke, AddPdfToKnowledge.async_invoke.
  rewrite Hp.
  destruct (String.eqb_spec p "") as [-> | Hne]; [eexists; repeat split|].
  apply truthy_str in Hne. rewrite Hne. simpl.
  unfold mbind, M_bind, os_path_exists.
  destruct (files w !! p) as [size|] eqn:Hsize.
  - rewrite bool_decide_eq_true_2 by eauto. simpl.
    destruct Hbad as [-> | [[=] | ->]]; [discriminate Hne|].
    eexists; repeat split.
  - rewrite bool_decide_eq_false_2 by (intros [? [=]]).
    eexists; repeat split.
Qed.

(** A PDF that loads without pages is answered with an error. *)
Theorem extract_empty_document
    (args sly_data : gmap string pyval) (w : world Ext) (p : string) (size : Z) (e : Ext) :
  get_arg args "file_path" (VStr "") = VStr p ->
  p <> "" ->
  files w !! p = Some size ->
  endswith (lower p) ".pdf" = true ->
  aload p (ext w) = (Ok [], e) ->
  (ExtractPdfKnowledge.async_invoke args sly_data w).1 =
    Ret ("Error: Failed to load document or document is empty: " +:+ p).
Proof.
  intros Hp Hne Hsize Hpdf Hload.
  rewrite (extract_enters_try _ _ _ _ _ Hp Hne Hsize Hpdf).
  unfold ExtractPdfKnowledge.extract, mbind, T_bind, call_ext. simpl.
  rewrite Hload. reflexivity.
Qed.

(** Closes a branch of the extraction tool: at most the loader was called. *)
Ltac loader_only :=
  intros [= <- <-]; simpl; split;
  [ first [ left; reflexivity | right; eexists; reflexivity ]
  | repeat split ].

Lemma extract_paths (args sly : gmap string pyval) (w w1 : world Ext) r :
  ExtractPdfKnowledge.async_invoke args sly w = (r, w1) ->
  (calls w1 = calls w \/ exists p, calls w1 = (calls w ++ [CallLoadPdf p])%list) /\
  files w1 = files w /\ registry_file w1 = registry_file w /\ ticks w1 = ticks w.
Proof.
  unfold ExtractPdfKnowledge.async_invoke.
  destruct (truthy _); simpl; [|loader_only].
  unfold mbind at 1. unfold M_bind at 1.
  destruct (get_arg args "file_path" (VStr "")) as [| |n| |p| |]; simpl;
    try loader_only.
  - destruct (fd_exists w _) as [[]|]; simpl; loader_only.
  - destruct (fd_exists w n) as [[]|]; simpl; loader_only.
  - destruct (bool_decide _); simpl; [|loader_only].
    unfold mbind at 1. unfold M_bind at 1. simpl.
    destruct (endswith (lower p) ".pdf"); simpl; [|loader_only].
    unfold mbind at 1. unfold M_bind at 1. simpl. unfold try_except.
    unfold ExtractPdfKnowledge.extract, mbind, T_bind, call_ext, effectT. simpl.
    destruct (aload p (ext w)) as [[[|page pages]|c msg] e]; simpl.
    + loader_only.
    + destruct (ExtractPdfKnowledge._generate_document_summary _ _ _ _) as [s|c msg];
        simpl; [loader_only|].
      destruct (is_FileNotFoundError c), (is_ValueError c); loader_only.
    + destruct (is_FileNotFoundError c), (is_ValueError c); loader_only.
Qed.

(** The extraction tool touches nothing but the loader: it makes no call to
    the vector-store layer, and it leaves the files, the document registry
    and the clock as they were. *)
Theorem extract_touches_nothing_but_the_loader
    (args sly_data : gmap string pyval) (w : world Ext) :
  let w1 := (ExtractPdfKnowledge.async_invoke args sly_data w).2 in
  (calls w1 = calls w \/ exists p, calls w1 = (calls w ++ [CallLoadPdf p])%list) /\
  files w1 = files w /\ registry_file w1 = registry_file w /\ ticks w1 = ticks w.
Proof.
  destruct (ExtractPdfKnowledge.async_invoke args sly_data w) as [r w1] eqn:E.
  exact (extract_paths _ _ _ _ _ E).
Qed.

(** The summary holds the first 10000 characters of the document and
    nothing else of it.  When the tool answers with a summary, the summary
    contains the text of the document (its pages joined by blank lines) cut
    after 10000 characters: a prefix of the text, 10000 characters long
    when the text is longer than that and the whole text otherwise.  What
    comes after these characters has no part in the answer: another
    document at the same path with as many pages and the same first 10000
    characters gets the same answer. *)
Theorem extract_summary_holds_bounded_sample
    (args sly_data : gmap string pyval) (w : world Ext) (p : string) (size : Z)
    (pages : list Document) (e : Ext) (msg : string) :
  get_arg args "file_path" (VStr "") = VStr p ->
  p <> "" ->
  files w !! p = Some size ->
  endswith (lower p) ".pdf" = true ->
  aload p (ext w) = (Ok pages, e) ->
  pages <> [] ->
  (ExtractPdfKnowledge.async_invoke args sly_data w).1 = Ret msg ->
  startswith msg "Error: " = false ->
  (exists rest,
     document_text pages =
       slice_to ExtractPdfKnowledge.sample_limit (document_text pages) +:+ rest) /\
  Z.of_nat (str_len (slice_to ExtractPdfKnowledge.sample_limit (document_text pages))) =
    Z.min (Z.of_nat (str_len (document_text pages))) 10000 /\
  (exists before after,
     msg = before +:+
           slice_to ExtractPdfKnowledge.sample_limit (document_text pages) +:+ after) /\
  (forall (w' : world Ext) (size' : Z) (pages' : list Document) (e'' : Ext),
     files w' !! p = Some size' ->
     aload p (ext w') = (Ok pages', e'') ->
     length pages' = length pages ->
     slice_to ExtractPdfKnowledge.sample_limit (document_text pages') =
       slice_to ExtractPdfKnowledge.sample_limit (document_text pages) ->
     (ExtractPdfKnowledge.async_invoke args sly_data w').1 = Ret msg).
Proof.
  intros Hp Hne Hsize Hpdf Hload Hpages Hrun Hok.
  rewrite (extract_with_pages _ _ _ _ _ _ _ Hp Hne Hsize Hpdf Hload Hpages) in Hrun.
  rewrite document_sample_slice in Hrun.
  split; [apply slice_to_prefix|]. split.
  { rewrite str_len_slice_to_min. unfold ExtractPdfKnowledge.sample_limit. lia. }
  split.
  - destruct (ExtractPdfKnowledge._generate_document_summary _ _ _ _) as [s|c m] eqn:Hsum.
    + injection Hrun as <-. apply summary_parts in Hsum as (focus & closing & -> & _).
      apply str_join_middle.
    + injection Hrun as <-. exfalso. revert Hok. unfold extract_error.
      destruct (is_FileNotFoundError c), (is_ValueError c); discriminate.
  - intros w' size' pages' e'' Hsize' Hload' Hlength Hsample.
    assert (Hpages' : pages' <> []).
    { intros ->. destruct pages; [contradiction | discriminate]. }
    rewrite (extract_with_pages _ _ _ _ _ _ _ Hp Hne Hsize' Hpdf Hload' Hpages').
    rewrite document_sample_slice, Hsample, Hlength. exact Hrun.
Qed.

(** The frame of the summary: it opens with the base name of the file and
    the number of pages; it closes with the request to analyse the content
    when no focus areas are given, and with the focus areas, joined by
    commas, when they are. *)
Theorem extract_summary_frame
    (args sly_data : gmap string pyval) (w : world Ext) (p : string) (size : Z)
    (pages : list Document) (e : Ext) (msg : string) :
  let focus_areas := get_arg args "focus_areas" (VList []) in
  get_arg args "file_path" (VStr "") = VStr p ->
  p <> "" ->
  files w !! p = Some size ->
  endswith (lower p) ".pdf" = true ->
  aload p (ext w) = (Ok pages, e) ->
  pages <> [] ->
  (ExtractPdfKnowledge.async_invoke args sly_data w).1 = Ret msg ->
  startswith msg "Error: " = false ->
  startswith msg
    ("Document: " +:+ basename p +:+ String "010" "" +:+
     "Pages: " +:+ int_str (Z.of_nat (length pages)) +:+ String "010" "") = true /\
  (truthy focus_areas = false ->
   endswith msg "to store relevant facts under that topic." = true) /\
  (truthy focus_areas = true ->
   exists joined,
     py_join ", " focus_areas = Ok joined /\
     endswith msg
       ("Pay special attention to information related to: " +:+ joined +:+ ".") = true).
Proof.
  intros focus_areas Hp Hne Hsize Hpdf Hload Hpages Hrun Hok.
  rewrite (extract_with_pages _ _ _ _ _ _ _ Hp Hne Hsize Hpdf Hload Hpages) in Hrun.
  fold focus_areas in Hrun.
  destruct (ExtractPdfKnowledge._generate_document_summary _ _ _ _) as [s|c m] eqn:Hsum.
  - injection Hrun as <-. apply summary_parts in Hsum as (focus & closing & -> & Hcases).
    split.
    + apply startswith_spec. simpl app. rewrite !str_join_cons.
      eexists. rewrite !append_assoc. reflexivity.
    + destruct Hcases as [(Hf & -> & ->) | (joined & Hf & Hjoin & -> & ->)].
      * split; [|congruence]. intros _. apply endswith_spec.
        match goal with
        | |- context [str_join ?sep ?l] =>
            destruct (str_join_last sep (removelast l)
                        ("Please analyze the above content and identify key topics and facts. " +:+
                         "For each significant topic you identify, use the commit_to_memory tool " +:+
                         "to store relevant facts under that topic.")) as (start & Hlast)
        end.
        simpl in Hlast. simpl. rewrite Hlast.
        exists (start +:+ "Please analyze the above content and identify key topics and facts. " +:+
                "For each significant topic you identify, use the commit_to_memory tool ").
        rewrite !append_assoc. reflexivity.
      * split; [congruence|]. intros _. exists joined. split; [exact Hjoin|].
        apply endswith_spec.
        match goal with
        | |- context [str_join ?sep ?l] =>
            destruct (str_join_last sep (removelast l)
                        ("Pay special attention to information related to: " +:+
                         joined +:+ ".")) as (start & Hlast)
        end.
        simpl in Hlast. simpl. rewrite Hlast. eauto.
  - injection Hrun as <-. exfalso. revert Hok. unfold extract_error.
    destruct (is_FileNotFoundError c), (is_ValueError c); discriminate.
Qed.

(** Focus areas that cannot be joined undo the extraction: when
    [focus_areas] is given and is not a sequence of strings, the tool
    answers with the text of the [TypeError], although the PDF was loaded. *)
Theorem extract_focus_areas_not_joinable
    (args sly_data : gmap string pyval) (w : world Ext) (p : string) (size : Z)
    (pages : list Document) (e : Ext) (c : exn_class) (reason : string) :
  let focus_areas := get_arg args "focus_areas" (VList []) in
  get_arg args "file_path" (VStr "") = VStr p ->
  p <> "" ->
  files w !! p = Some size ->
  endswith (lower p) ".pdf" = true ->
  aload p (ext w) = (Ok pages, e) ->
  pages <> [] ->
  truthy focus_areas = true ->
  py_join ", " focus_areas = Fail c reason ->
  (ExtractPdfKnowledge.async_invoke args sly_data w).1 =
    Ret ("Error: Failed to extract knowledge from PDF: " +:+ reason).
Proof.
  intros focus_areas Hp Hne Hsize Hpdf Hload Hpages Hfocus Hjoin.
  rewrite (extract_with_pages _ _ _ _ _ _ _ Hp Hne Hsize Hpdf Hload Hpages).
  fold focus_areas. unfold ExtractPdfKnowledge._generate_document_summary.
  rewrite Hfocus, Hjoin. simpl.
  apply py_join_fails_with_TypeError in Hjoin as ->. reflexivity.
Qed.

End ExtractTool.



Lemma extract_rejects_like_add_pdf_witness :
  exists msg,
    rejected (ExtractPdfKnowledge.async_invoke (runtime := sample_external)
                {[ "file_path" := VStr "/uploads/notes.txt" ]} ∅) sample_world msg /\
    AddPdfToKnowledge.async_invoke (runtime := sample_external)
      {[ "file_path" := VStr "/uploads/notes.txt" ]} ∅ sample_world = (Ret msg, sample_world).
Proof.
  apply (extract_rejects_like_add_pdf (runtime := sample_external)
           {[ "file_path" := VStr "/uploads/notes.txt" ]} ∅ sample_world
           "/uploads/notes.txt").
  - vm_compute. reflexivity.
  - right. right. vm_compute. reflexivity.
Defined.

Lemma extract_empty_document_witness :
  (ExtractPdfKnowledge.async_invoke (runtime := scripted_external (Ok None) (Ok []))
     {[ "file_path" := VStr "/uploads/report.pdf" ]} ∅ sample_world).1 =
  Ret "Error: Failed to load document or document is empty: /uploads/report.pdf".
Proof.
  apply (extract_empty_document (runtime := scripted_external (Ok None) (Ok []))
           {[ "file_path" := VStr "/uploads/report.pdf" ]} ∅ sample_world
           "/uploads/report.pdf" 2048 []);
    try (vm_compute; reflexivity).
  discriminate.
Defined.

Lemma extract_summary_holds_bounded_sample_witness :
  let run := fun w =>
    (ExtractPdfKnowledge.async_invoke (runtime := long_document_external)
       {[ "file_path" := VStr "/uploads/report.pdf" ]} ∅ w).1 in
  (exists before after,
     returned (run sample_world) = before +:+ xs 10000 +:+ after) /\
  run (set_ext ["appendix"] sample_world) = Ret (returned (run sample_world)).
Proof.
  intros run.
  destruct (extract_summary_holds_bounded_sample (runtime := long_document_external)
              {[ "file_path" := VStr "/uploads/report.pdf" ]} ∅ sample_world
              "/uploads/report.pdf" 2048
              [ {| page_content := xs 12000 +:+ str_join "" [] |};
                {| page_content := "last page" |} ] []
              (returned (run sample_world)))
    as (_ & _ & (before & after & Hmsg) & Hrest);
    [ vm_compute; reflexivity | discriminate | vm_compute; reflexivity
    | vm_compute; reflexivity | vm_compute; reflexivity | discriminate
    | vm_compute; reflexivity | vm_compute; reflexivity | ].
  split.
  - exists before, after.
    assert (Hsample :
      slice_to ExtractPdfKnowledge.sample_limit
        (document_text [ {| page_content := xs 12000 +:+ str_join "" [] |};
                         {| page_content := "last page" |} ]) = xs 10000)
      by (vm_compute; reflexivity).
    rewrite Hsample in Hmsg. exact Hmsg.
  - apply (Hrest (set_ext ["appendix"] sample_world) 2048%Z
             [ {| page_content := xs 12000 +:+ str_join "" ["appendix"] |};
               {| page_content := "last page" |} ] ["appendix"]);
      vm_compute; reflexivity.
Defined.

Lemma extract_summary_frame_witness :
  exists msg,
    (ExtractPdfKnowledge.async_invoke (runtime := sample_external)
       {[ "file_path" := VStr "/uploads/report.pdf"; "focus_areas" := VStr "pvc" ]} ∅
       sample_world).1 = Ret msg /\
    startswith msg ("Document: report.pdf" +:+ String "010" "" +:+
                    "Pages: 2" +:+ String "010" "") = true /\
    endswith msg "Pay special attention to information related to: p, v, c." = true.
Proof.
  eexists. split; [vm_compute; reflexivity|].
  edestruct (extract_summary_frame (runtime := sample_external)
               {[ "file_path" := VStr "/uploads/report.pdf"; "focus_areas" := VStr "pvc" ]} ∅
               sample_world "/uploads/report.pdf" 2048
               [ {| page_content := "page one" |}; {| page_content := "page two" |} ] [])
    as (Hopen & _ & Hclose);
    [ vm_compute; reflexivity | discriminate | vm_compute; reflexivity
    | vm_compute; reflexivity | vm_compute; reflexivity | discriminate
    | vm_compute; reflexivity | vm_compute; reflexivity | ].
  split; [exact Hopen|].
  destruct Hclose as (joined & Hjoin & Hend); [vm_compute; reflexivity|].
  vm_compute in Hjoin. injection Hjoin as <-. exact Hend.
Defined.

Lemma extract_focus_areas_not_joinable_witness :
  (ExtractPdfKnowledge.async_invoke (runtime := sample_external)
     {[ "file_path" := VStr "/uploads/report.pdf";
        "focus_areas" := VList [VStr "safety"; VInt 3] ]} ∅ sample_world).1 =
  Ret ("Error: Failed to extract knowledge from PDF: " +:+
       "sequence item 1: expected str instance, int found").
Proof.
  apply (extract_focus_areas_not_joinable (runtime := sample_external)
           {[ "file_path" := VStr "/uploads/report.pdf";
              "focus_areas" := VList [VStr "safety"; VInt 3] ]} ∅ sample_world
           "/uploads/report.pdf" 2048
           [ {| page_content := "page one" |}; {| page_content := "page two" |} ] []
           TypeError);
    try (vm_compute; reflexivity); discriminate.
Defined.

(** ** Loading documents *)

Section LoadDocuments.
Context {Ext : Type} {runtime : External Ext}.

(** Loading a list of paths is loading a first part and then the rest, with
    the pages so far carried along. *)
Lemma load_each_app (urls1 urls2 : list string) docs (w : world Ext) :
  AddPdfToKnowledge.load_each (urls1 ++ urls2) docs w =
  match AddPdfToKnowledge.load_each urls1 docs w with
  | (Ok loaded, w') => AddPdfToKnowledge.load_each urls2 loaded w'
  | (Fail c msg, w') => (Fail c msg, w')
  end.
Proof.
  revert docs w. induction urls1 as [|u urls1 IH]; intros docs w; [reflexivity|].
  simpl. destruct (call_ext _ _ w) as [[pages|c msg] w'].
  - apply IH.
  - destruct (is_FileNotFoundError c); [apply IH|].
    destruct (is_ValueError c); [apply IH | reflexivity].
Qed.

(** The two copies of the loop, in the add-PDF and in the extraction tool,
    are the same function. *)
Lemma extract_load_each_is_add_load_each urls docs (w : world Ext) :
  ExtractPdfKnowledge.load_each urls docs w = AddPdfToKnowledge.load_each urls docs w.
Proof.
  revert docs w. induction urls as [|u urls IH]; intros docs w; [reflexivity|].
  simpl. destruct (call_ext _ _ w) as [[pages|c msg] w']; [apply IH|].
  destruct (is_FileNotFoundError c); [apply IH|].
  destruct (is_ValueError c); [apply IH | reflexivity].
Qed.

(** What the loop keeps while it runs to its end. *)
Lemma load_each_tolerant urls docs (w : world Ext) :
  (forall path e c msg e',
     aload path e = (Fail c msg, e') ->
     is_FileNotFoundError c = true \/ is_ValueError c = true) ->
  exists loaded w1,
    AddPdfToKnowledge.load_each urls docs w = (Ok loaded, w1) /\
    calls w1 = (calls w ++ map CallLoadPdf urls)%list /\
    length (log w1) = length (log w) + length urls /\
    registry_file w1 = registry_file w /\
    files w1 = files w /\
    exists pages, loaded = (docs ++ pages)%list.
Proof.
  intros Hclass. revert docs w.
  induction urls as [|u urls IH]; intros docs w; simpl.
  - exists docs, w. rewrite !app_nil_r. simpl.
    split; [reflexivity|]. split; [reflexivity|]. split; [lia|].
    split; [reflexivity|]. split; [reflexivity|]. exists []. now rewrite app_nil_r.
  - unfold call_ext. simpl. destruct (aload u (ext w)) as [[pages|c msg] e] eqn:Hload.
    + match goal with
      | |- context [AddPdfToKnowledge.load_each urls ?d ?w0] =>
          destruct (IH d w0) as (loaded & w1 & -> & Hcalls & Hlog & Hreg & Hfiles & more & ->)
      end.
      simpl in *. exists ((docs ++ pages) ++ more)%list, w1.
      rewrite length_app in Hlog. simpl in Hlog.
      split; [reflexivity|]. split; [now rewrite Hcalls, <- app_assoc|]. split; [lia|].
      split; [assumption|]. split; [assumption|].
      exists (pages ++ more)%list. now rewrite app_assoc.
    + destruct (Hclass _ _ _ _ _ Hload) as [-> | Hvalue].
      * match goal with
        | |- context [AddPdfToKnowledge.load_each urls ?d ?w0] =>
            destruct (IH d w0) as (loaded & w1 & -> & Hcalls & Hlog & Hreg & Hfiles & Hmore)
        end.
        simpl in *. exists loaded, w1. rewrite length_app in Hlog. simpl in Hlog.
        split; [reflexivity|]. split; [now rewrite Hcalls, <- app_assoc|].
        split; [lia|]. auto.
      * rewrite Hvalue. destruct (is_FileNotFoundError c);
        match goal with
        | |- context [AddPdfToKnowledge.load_each urls ?d ?w0] =>
            destruct (IH d w0) as (loaded & w1 & -> & Hcalls & Hlog & Hreg & Hfiles & Hmore)
        end;
        simpl in *; exists loaded, w1; rewrite length_app in Hlog; simpl in Hlog;
        (split; [reflexivity|]); (split; [now rewrite Hcalls, <- app_assoc|]);
        (split; [lia|]); auto.
Qed.

(** [load_documents] tolerates unreadable files: while the loader raises
    nothing but [FileNotFoundError] and [ValueError], the function returns
    pages, every path under ["urls"] is tried exactly once and in order, each
    try is logged once, and the registry and the files are left alone.  The
    same holds for the copy of the function in the extraction tool. *)
Theorem load_documents_tolerates_unreadable_files
    (loader_args : gmap string (list string)) (w : world Ext) :
  (forall path e c msg e',
     aload path e = (Fail c msg, e') ->
     is_FileNotFoundError c = true \/ is_ValueError c = true) ->
  let urls := default [] (loader_args !! "urls") in
  exists docs w1,
    AddPdfToKnowledge.load_documents loader_args w = (Ok docs, w1) /\
    ExtractPdfKnowledge.load_documents loader_args w = (Ok docs, w1) /\
    calls w1 = (calls w ++ map CallLoadPdf urls)%list /\
    length (log w1) = length (log w) + length urls /\
    registry_file w1 = registry_file w /\
    files w1 = files w.
Proof.
  intros Hclass urls.
  destruct (load_each_tolerant urls [] w Hclass)
    as (docs & w1 & Hrun & Hcalls & Hlog & Hreg & Hfiles & _).
  exists docs, w1. split; [exact Hrun|]. split; [|auto].
  unfold ExtractPdfKnowledge.load_documents. fold urls.
  now rewrite extract_load_each_is_add_load_each.
Qed.

(** Any other exception of the loader leaves [load_documents] at once: the
    paths after the failing one are not tried, and the pages loaded so far
    are lost with the exception. *)
Theorem load_documents_aborts_on_other_exceptions
    (loader_args : gmap string (list string)) (w w0 : world Ext)
    (done rest : list string) (u : string) (loaded : list Document)
    (c : exn_class) (msg : string) (e : Ext) :
  loader_args !! "urls" = Some (done ++ u :: rest)%list ->
  AddPdfToKnowledge.load_each done [] w = (Ok loaded, w0) ->
  aload u (ext w0) = (Fail c msg, e) ->
  is_FileNotFoundError c = false ->
  is_ValueError c = false ->
  exists w1,
    AddPdfToKnowledge.load_documents loader_args w = (Fail c msg, w1) /\
    calls w1 = (calls w0 ++ [CallLoadPdf u])%list /\
    log w1 = log w0.
Proof.
  intros Hurls Hdone Hload Hfnf Hvalue.
  unfold AddPdfToKnowledge.load_documents. rewrite Hurls. simpl.
  rewrite load_each_app, Hdone. simpl. unfold call_ext. simpl.
  rewrite Hload, Hfnf, Hvalue. eexists. repeat split.
Qed.

End LoadDocuments.

Lemma load_documents_tolerates_unreadable_files_witness :
  exists docs w1,
    AddPdfToKnowledge.load_documents
      (runtime := scripted_external (Ok None) (Fail FileNotFoundError "no such file"))
      {[ "urls" := ["/uploads/a.pdf"; "/uploads/b.pdf"] ]} sample_world = (Ok docs, w1) /\
    docs = [] /\
    calls w1 = [CallLoadPdf "/uploads/a.pdf"; CallLoadPdf "/uploads/b.pdf"] /\
    length (log w1) = 2.
Proof.
  destruct (load_documents_tolerates_unreadable_files
              (runtime := scripted_external (Ok None)
                            (Fail FileNotFoundError "no such file"))
              {[ "urls" := ["/uploads/a.pdf"; "/uploads/b.pdf"] ]} sample_world)
    as (docs & w1 & Hrun & _ & Hcalls & Hlog & _).
  - intros path e c msg e' [= <- _ _]. left. reflexivity.
  - exists docs, w1. split; [exact Hrun|].
    vm_compute in Hrun. injection Hrun as <- <-. repeat split.
Defined.

Lemma load_documents_aborts_on_other_exceptions_witness :
  exists w1,
    AddPdfToKnowledge.load_documents
      (runtime := scripted_external (Ok None) (Fail RuntimeError "cannot open file"))
      {[ "urls" := ["/uploads/a.pdf"; "/uploads/b.pdf"] ]} sample_world =
      (Fail RuntimeError "cannot open file", w1) /\
    calls w1 = [CallLoadPdf "/uploads/a.pdf"].
Proof.
  destruct (load_documents_aborts_on_other_exceptions
              (runtime := scripted_external (Ok None)
                            (Fail RuntimeError "cannot open file"))
              {[ "urls" := ["/uploads/a.pdf"; "/uploads/b.pdf"] ]} sample_world sample_world
              [] ["/uploads/b.pdf"] "/uploads/a.pdf" [] RuntimeError "cannot open file" [])
    as (w1 & Hrun & Hcalls & _); try (vm_compute; reflexivity).
  exists w1. split; [exact Hrun | exact Hcalls].
Defined.

(** ** The Flask front end, beyond the rejection *)

Lemma str_map_app f a b : str_map f (a +:+ b) = str_map f a +:+ str_map f b.
Proof.
  induction a as [|c a IH]; [reflexivity|].
  rewrite string_cons_app. simpl. rewrite string_cons_app. now rewrite IH.
Qed.

Lemma str_map_split f s a b :
  str_map f s = a +:+ b ->
  exists s1 s2, s = s1 +:+ s2 /\ str_map f s1 = a /\ str_map f s2 = b.
Proof.
  revert s. induction a as [|c a IH]; intros s H.
  - exists "", s. auto.
  - destruct s as [|x s]; [discriminate|]. rewrite string_cons_app in H.
    simpl in H. injection H as Hx Hs. destruct (IH s Hs) as (s1 & s2 & -> & <- & <-).
    exists (String x s1), s2. rewrite string_cons_app. simpl. rewrite Hx. auto.
Qed.

Lemma lower_char_dot c : Ascii.eqb (lower_char c) "." = Ascii.eqb c ".".
Proof. destruct c as [[] [] [] [] [] [] [] []]; reflexivity. Qed.

Lemma contains_dot_lower s : contains_char "." (lower s) = contains_char "." s.
Proof.
  induction s as [|c s IH]; [reflexivity|].
  unfold lower in *. simpl. now rewrite lower_char_dot, IH.
Qed.

Lemma has_pdf_extension_suffix filename :
  has_pdf_extension filename <-> endswith (lower filename) ".pdf" = true.
Proof.
  rewrite endswith_spec. split.
  - intros (stem & ext & -> & _ & Hext). exists (lower stem).
    unfold lower in *. rewrite !str_map_app, Hext. reflexivity.
  - intros [start Hlower]. unfold lower in Hlower.
    apply str_map_split in Hlower as (stem & tail & -> & _ & Htail).
    destruct tail as [|c ext]; [discriminate|]. simpl in Htail.
    injection Htail as Hc Hext.
    assert (c = "."%char) as ->.
    { apply Ascii.eqb_eq. rewrite <- lower_char_dot, Hc. reflexivity. }
    exists stem, ext. split; [reflexivity|]. split; [|exact Hext].
    rewrite <- contains_dot_lower. unfold lower. rewrite Hext. reflexivity.
Qed.

(** The web layer and the tools agree on what a PDF name is: [allowed_file],
    which looks at the text after the last dot, accepts exactly the names
    that pass the tools' check [name.lower().endswith('.pdf')]. *)
Theorem allowed_file_is_the_tools_suffix_check (filename : string) :
  InterfaceFlask.allowed_file filename = endswith (lower filename) ".pdf".
Proof.
  destruct (InterfaceFlask.allowed_file filename) eqn:Hallowed;
    destruct (endswith (lower filename) ".pdf") eqn:Hsuffix; try reflexivity.
  - apply allowed_file_spec, has_pdf_extension_suffix in Hallowed. congruence.
  - apply has_pdf_extension_suffix, allowed_file_spec in Hsuffix. congruence.
Qed.

Section Uploads.
Import PdfKnowledgeAssistant.
Context {Env : Type} {web : WebExternal Env}.

(** An accepted upload enters the [try] block of the view. *)
Lemma upload_enters_try (request_files : gmap string FileStorage) file (a : app Env) :
  request_files !! "file" = Some file ->
  InterfaceFlask.allowed_file (filename file) = true ->
  InterfaceFlask.upload_file request_files a =
  match InterfaceFlask.store_and_process file a with
  | (Ok r, a') => (r, a')
  | (Fail c msg, a') => (upload_error msg, a')
  end.
Proof.
  intros Hfile Hallowed. unfold InterfaceFlask.upload_file. rewrite Hfile, Hallowed.
  destruct (String.eqb_spec (filename file) "") as [Hempty|_]; [|reflexivity].
  rewrite Hempty in Hallowed. discriminate.
Qed.

(** The accepted upload, in full.  When the folder can be made, the file
    saved and the agent answers, the view creates the upload folder, then
    saves the file under the folder as the timestamp, an underscore and the
    secured name, then hands the agent the absolute path; it answers with
    status 200, the agent's last response, the stored name and the absolute
    path, and keeps the thread the agent returned. *)
Theorem upload_success_in_full
    (request_files : gmap string FileStorage) (file : FileStorage) (a : app Env)
    (e1 e2 e3 : Env) (thread : gmap string pyval) :
  let filepath := upload_path file (env a) in
  let abs_filepath := os_path_abspath filepath e2 in
  request_files !! "file" = Some file ->
  InterfaceFlask.allowed_file (filename file) = true ->
  os_makedirs InterfaceFlask.UPLOAD_FOLDER (env a) = (Ok tt, e1) ->
  file_save file filepath e1 = (Ok tt, e2) ->
  process_once (<["user_input" := upload_instruction abs_filepath]> (knowledge_thread a)) e2
    = (Ok thread, e3) ->
  InterfaceFlask.upload_file request_files a =
    (InterfaceFlask.jsonify [
       ("success", VBool true);
       ("message", default VNone (thread !! "last_chat_response"));
       ("filename", VStr (upload_name file (env a)));
       ("filepath", VStr abs_filepath) ] 200,
     {| env := e3;
        knowledge_thread := thread;
        emitted := emitted a;
        fs_calls := (fs_calls a ++ [Makedirs InterfaceFlask.UPLOAD_FOLDER;
                                    Save file filepath])%list |}).
Proof.
  intros filepath abs_filepath Hfile Hallowed Hmk Hsave Hagent.
  rewrite (upload_enters_try _ _ _ Hfile Hallowed).
  unfold InterfaceFlask.store_and_process, mbind, T_bind, InterfaceFlask.fs_write,
    process_pdf_upload, process_user_query, effectT. simpl.
  rewrite Hmk. simpl. fold (upload_name file (env a)). fold (upload_path file (env a)).
  fold filepath. rewrite Hsave. simpl. fold abs_filepath.
  unfold upload_instruction in Hagent. rewrite Hagent. simpl.
  unfold set_knowledge_thread, set_env, InterfaceFlask.record_fs_call. simpl.
  rewrite <- app_assoc. reflexivity.
Qed.

(** A failed upload is answered with status 500 and the text of the
    exception, and what was done before the failure stays done: when the
    folder cannot be made nothing is saved; when the file cannot be saved the
    agent is not called and the thread is as it was; when the agent fails
    the file has been saved all the same. *)
Theorem upload_failure_by_stage
    (request_files : gmap string FileStorage) (file : FileStorage) (a : app Env)
    (c : exn_class) (msg : string) :
  let filepath := upload_path file (env a) in
  request_files !! "file" = Some file ->
  InterfaceFlask.allowed_file (filename file) = true ->
  (forall e1,
     os_makedirs InterfaceFlask.UPLOAD_FOLDER (env a) = (Fail c msg, e1) ->
     InterfaceFlask.upload_file request_files a =
       (upload_error msg,
        {| env := e1; knowledge_thread := knowledge_thread a; emitted := emitted a;
           fs_calls := (fs_calls a ++ [Makedirs InterfaceFlask.UPLOAD_FOLDER])%list |})) /\
  (forall e1 e2,
     os_makedirs InterfaceFlask.UPLOAD_FOLDER (env a) = (Ok tt, e1) ->
     file_save file filepath e1 = (Fail c msg, e2) ->
     InterfaceFlask.upload_file request_files a =
       (upload_error msg,
        {| env := e2; knowledge_thread := knowledge_thread a; emitted := emitted a;
           fs_calls := (fs_calls a ++ [Makedirs InterfaceFlask.UPLOAD_FOLDER;
                                       Save file filepath])%list |})) /\
  (forall e1 e2 e3,
     os_makedirs InterfaceFlask.UPLOAD_FOLDER (env a) = (Ok tt, e1) ->
     file_save file filepath e1 = (Ok tt, e2) ->
     process_once
       (<["user_input" := upload_instruction (os_path_abspath filepath e2)]>
          (knowledge_thread a)) e2 = (Fail c msg, e3) ->
     exists a',
       InterfaceFlask.upload_file request_files a = (upload_error msg, a') /\
       env a' = e3 /\
       fs_calls a' = (fs_calls a ++ [Makedirs InterfaceFlask.UPLOAD_FOLDER;
                                     Save file filepath])%list).
Proof.
  intros filepath Hfile Hallowed.
  rewrite (upload_enters_try _ _ _ Hfile Hallowed).
  unfold InterfaceFlask.store_and_process, mbind, T_bind, InterfaceFlask.fs_write,
    process_pdf_upload, process_user_query, effectT. simpl.
  fold (upload_name file (env a)). fold (upload_path file (env a)). fold filepath.
  repeat apply conj.
  - intros e1 Hmk. rewrite Hmk. reflexivity.
  - intros e1 e2 Hmk Hsave. rewrite Hmk. simpl. rewrite Hsave. simpl.
    unfold set_env, InterfaceFlask.record_fs_call. simpl.
    rewrite <- app_assoc. reflexivity.
  - intros e1 e2 e3 Hmk Hsave Hagent. rewrite Hmk. simpl. rewrite Hsave. simpl.
    unfold upload_instruction in Hagent. rewrite Hagent. simpl.
    eexists. split; [reflexivity|]. simpl. rewrite <- app_assoc. auto.
Qed.

(** What the chat answers.  For a non-empty query the agent is given the
    thread with this query as its [user_input]; the ['agent_response'] then
    carries the agent's last response, or ["No response from agent."] when
    that is missing or empty, and the thread the agent returned is kept.
    When the agent raises, the ['agent_response'] carries the text of the
    exception. *)
Theorem user_query_response_content
    (json_data : gmap string pyval) (s : string) (a : app Env)
    (answer : outcome (gmap string pyval)) (e : Env) :
  json_data !! "data" = Some (VStr s) ->
  s <> "" ->
  process_once (<["user_input" := VStr s]> (knowledge_thread a)) (env a) = (answer, e) ->
  let a' := InterfaceFlask.handle_user_query json_data a in
  env a' = e /\
  match answer with
  | Ok thread =>
      let response := default VNone (thread !! "last_chat_response") in
      emitted a' =
        (emitted a ++ [user_message (VStr s);
                       agent_response (if truthy response then response
                                       else VStr "No response from agent.")])%list /\
      knowledge_thread a' = thread
  | Fail c msg =>
      emitted a' =
        (emitted a ++ [user_message (VStr s);
                       agent_response (VStr ("Error processing query: " +:+ msg))])%list
  end.
Proof.
  intros Hdata Hs Hagent. unfold InterfaceFlask.handle_user_query, get_arg.
  rewrite Hdata. simpl. apply truthy_str in Hs. simpl in Hs. rewrite Hs. simpl.
  unfold InterfaceFlask.answer, mbind, T_bind, process_user_query, effectT. simpl.
  rewrite Hagent. destruct answer as [thread|c msg]; simpl;
    rewrite <- app_assoc; repeat split.
Qed.

End Uploads.

Lemma upload_success_in_full_witness :
  exists a',
    InterfaceFlask.upload_file (web := sample_web) {[ "file" := sample_upload ]} sample_app =
      (InterfaceFlask.jsonify [
         ("success", VBool true);
         ("message", VStr "Noted.");
         ("filename", VStr "20250601_120000_report.PDF");
         ("filepath", VStr ("/srv/studio/apps/pdf_knowledge_assistant/static/uploads/" +:+
                            "20250601_120000_report.PDF")) ] 200, a') /\
    PdfKnowledgeAssistant.fs_calls a' =
      [PdfKnowledgeAssistant.Makedirs "apps/pdf_knowledge_assistant/static/uploads";
       PdfKnowledgeAssistant.Save sample_upload
         ("apps/pdf_knowledge_assistant/static/uploads/" +:+ "20250601_120000_report.PDF")].
Proof.
  eexists. split.
  - rewrite (upload_success_in_full (web := sample_web) {[ "file" := sample_upload ]}
               sample_upload sample_app 0 0 1
               (<["last_chat_response" := VStr "Noted."]>
                  (<["user_input" := upload_instruction
                       ("/srv/studio/apps/pdf_knowledge_assistant/static/uploads/" +:+
                        "20250601_120000_report.PDF")]>
                     PdfKnowledgeAssistant.initial_knowledge_thread)));
      try (vm_compute; reflexivity).
  - vm_compute. reflexivity.
Defined.

Lemma upload_failure_by_stage_witness :
  exists a',
    InterfaceFlask.upload_file (web := failing_agent_web) {[ "file" := sample_upload ]}
      sample_app = (upload_error "agent session closed", a') /\
    PdfKnowledgeAssistant.fs_calls a' =
      [PdfKnowledgeAssistant.Makedirs "apps/pdf_knowledge_assistant/static/uploads";
       PdfKnowledgeAssistant.Save sample_upload
         ("apps/pdf_knowledge_assistant/static/uploads/" +:+ "20250601_120000_report.PDF")].
Proof.
  destruct (upload_failure_by_stage (web := failing_agent_web)
              {[ "file" := sample_upload ]} sample_upload sample_app
              RuntimeError "agent session closed") as (_ & _ & Hagent);
    try (vm_compute; reflexivity).
  destruct (Hagent 0 0 1) as (a' & Hrun & _ & Hcalls); try (vm_compute; reflexivity).
  exists a'. split; [exact Hrun | exact Hcalls].
Defined.

Lemma user_query_response_content_witness :
  PdfKnowledgeAssistant.emitted
    (InterfaceFlask.handle_user_query (web := failing_agent_web)
       {[ "data" := VStr "What is the cooling time?" ]} sample_app) =
  [user_message (VStr "What is the cooling time?");
   agent_response (VStr "Error processing query: agent session closed")].
Proof.
  destruct (user_query_response_content (web := failing_agent_web)
              {[ "data" := VStr "What is the cooling time?" ]}
              "What is the cooling time?" sample_app
              (Fail RuntimeError "agent session closed") 1) as [_ Hemitted];
    [vm_compute; reflexivity | discriminate | vm_compute; reflexivity | exact Hemitted].
Defined.

(** ** The read-only views *)


Lemma dict_get_listed d k :
  k ∈ dict_keys d <-> exists v, dict_get d k = Some v.
Proof.
  induction d as [|[k' v'] d IH]; simpl.
  - split; [intros H; inversion H | intros [v H]; discriminate].
  - destruct (String.eqb_spec k' k) as [->|Hne].
    + split; [eauto | intros _; constructor].
    + rewrite <- IH. unfold dict_keys. simpl. rewrite elem_of_cons.
      split; [intros [->|H]; [now destruct Hne | exact H] | auto].
Qed.

Section RegistryViews.
Context {Ext : Type} {runtime : External Ext}.


End RegistryViews.

(** The two topic views agree.  On a topic memory that holds a JSON object,
    [/topics] lists its keys in order, and [/topics/<topic>] answers every
    topic with status 200: a listed topic with the facts stored under it, an
    unlisted one with the text ["No facts found for this topic."]. *)
Theorem topic_views_agree (memory : list (string * pyval)) (topic : string) :
  InterfaceFlask.get_topics (InterfaceFlask.Holds (VDict memory)) =
    InterfaceFlask.jsonify [("topics", VList (map VStr (dict_keys memory)))] 200 /\
  exists facts,
    InterfaceFlask.get_topic_facts topic (InterfaceFlask.Holds (VDict memory)) =
      InterfaceFlask.jsonify [("topic", VStr topic); ("facts", facts)] 200 /\
    (topic ∈ dict_keys memory -> dict_get memory topic = Some facts) /\
    (topic ∉ dict_keys memory -> facts = VStr "No facts found for this topic.").
Proof.
  split; [reflexivity|].
  exists (default (VStr "No facts found for this topic.") (dict_get memory topic)).
  split; [reflexivity|]. rewrite dict_get_listed.
  destruct (dict_get memory topic) as [facts|]; simpl.
  - split; [reflexivity | intros H; destruct H; eauto].
  - split; [intros [v H]; discriminate | reflexivity].
Qed.



